(** * Jupyter profiler annotations: a shallow embedding of the extension

    The extension (the richer of its two variants, with [formatTime],
    [classifyCell] and [colorForCategory]) reads the JSON report that an
    external line profiler wrote for a notebook, and turns it into
    end-of-line decorations, one sequence per cell document, kept in the
    process-wide [cellDecorationsMap]; a hover provider reads that map.

    Conventions of the embedding:
    - a JavaScript Number is an IEEE 754 binary64 value, given by the
      standard library's executable specification [spec_float] at
      precision 53 and maximal exponent 1024;
    - a JavaScript String is the [string] of its UTF-8 bytes; its
      [length] (a count of UTF-16 code units) is computed from them;
    - a value produced by [JSON.parse] is a [JSValue]; an object carries
      its own properties in the order [Object.entries] enumerates them;
    - a thrown exception is the [Throw] of the [completion] type;
    - the [Map] keyed by document URI is a [gmap string]. *)

From Stdlib Require Import ZArith NArith List Ascii String Bool Lia.
From Stdlib Require Import SpecFloat DecimalString.
From Stdlib Require DecimalFacts DecimalN.
From stdpp Require Import base option list strings gmap fin_maps.

Local Open Scope string_scope.
Local Open Scope list_scope.

(** ** Strings *)

Module JSString.

(** Number of UTF-16 code units of the character that a UTF-8 byte
    starts: a continuation byte (10xxxxxx) starts none, the lead byte
    of a four-byte sequence (11110xxx) starts a surrogate pair. *)
Definition units_of_byte (c : ascii) : nat :=
  let n := nat_of_ascii c in
  if (n <? 128)%nat then 1%nat
  else if (n <? 192)%nat then 0%nat
  else if (n <? 240)%nat then 1%nat
  else 2%nat.

(** [s.length] *)
Fixpoint length (s : string) : nat :=
  match s with
  | EmptyString => 0%nat
  | String c r => (units_of_byte c + length r)%nat
  end.

Definition newline : ascii := "010"%char.

(** [s.split('\n')]: never empty, the text without newline is its own
    single line. *)
Fixpoint split_newline (s : string) : list string :=
  match s with
  | EmptyString => [EmptyString]
  | String c r =>
      if Ascii.eqb c newline then EmptyString :: split_newline r
      else match split_newline r with
           | l :: ls => String c l :: ls
           | [] => [String c EmptyString]
           end
  end.

(** Decimal digits of a natural number, as in the index keys of an
    array ("0", "1", ...). *)
Definition of_N (n : N) : string := NilZero.string_of_uint (N.to_uint n).
Definition of_nat (n : nat) : string := of_N (N.of_nat n).

End JSString.

(** ** Numbers *)

Module Number.

Definition prec : Z := 53.
Definition emax : Z := 1024.

Definition number : Type := spec_float.

(** A Number literal that is an integer. *)
Definition of_Z (z : Z) : number := binary_normalize prec emax z 0 false.

Definition NaN : number := S754_nan.
Definition zero : number := S754_zero false.

(** [a / b] *)
Definition div (a b : number) : number := SFdiv prec emax a b.
(** [a > b], [a >= b], [a < b]: false as soon as one side is NaN. *)
Definition gt (a b : number) : bool := SFltb b a.
Definition ge (a b : number) : bool := SFleb b a.
Definition lt (a b : number) : bool := SFltb a b.

(** ToBoolean on a Number: +0, -0 and NaN are falsy. *)
Definition toBoolean (x : number) : bool :=
  match x with
  | S754_zero _ | S754_nan => false
  | _ => true
  end.

(** The literal [0.3] is the binary64 value nearest to 3/10, which is
    what the correctly rounded quotient of 3 by 10 is. *)
Definition three_tenths : number := div (of_Z 3) (of_Z 10).

(** The mathematical value of a finite Number when it is an integer. *)
Definition integerValue (x : number) : option Z :=
  match x with
  | S754_zero _ => Some 0%Z
  | S754_finite s m e =>
      let sign (z : Z) := if s then Z.opp z else z in
      if (0 <=? e)%Z then Some (sign (Z.pos m * 2 ^ e)%Z)
      else if (Z.pos m mod 2 ^ (- e) =? 0)%Z
           then Some (sign (Z.pos m / 2 ^ (- e))%Z)
           else None
  | _ => None
  end.

(** [x >= 10^21] for the real value of a non-negative finite Number
    [m * 2^e]. *)
Definition atLeast1e21 (m : positive) (e : Z) : bool :=
  if (0 <=? e)%Z then (10 ^ 21 <=? Z.pos m * 2 ^ e)%Z
  else (10 ^ 21 * 2 ^ (- e) <=? Z.pos m)%Z.

(** The integer [n] for which [n / 100] is nearest to [m * 2^e], the
    larger one in a tie. *)
Definition nearestHundredth (m : positive) (e : Z) : Z :=
  if (0 <=? e)%Z then (Z.pos m * 2 ^ e * 100)%Z
  else ((2 * 100 * Z.pos m + 2 ^ (- e)) / (2 * 2 ^ (- e)))%Z.

(** The digits of [n], padded with zeros to three at least, with the
    point before the last two. *)
Definition withTwoDecimals (n : Z) : string :=
  let m := JSString.of_N (Z.to_N n) in
  let m := match String.length m with
           | 1%nat => "00" +:+ m
           | 2%nat => "0" +:+ m
           | _ => m
           end in
  let k := String.length m in
  substring 0 (k - 2) m +:+ "." +:+ substring (k - 2) 2 m.

(** A Number the engine can hold: a binary64 value in canonical form. *)
Definition valid (x : number) : bool := valid_binary prec emax x.

(** Classes of Numbers used to follow the divisions of [formatTime].
    [Tiny]: zero, or a positive number below 2^-1012 in canonical
    place. *)
Definition Tiny (z : number) : Prop :=
  z = S754_zero false
  \/ exists m e, z = S754_finite false m e
                 /\ (Z.pos (digits2_pos m) + e <= -1012)%Z /\ (e <= -1065)%Z.

(** NaN, a zero, or a negative number. *)
Definition NonPositive (z : number) : Prop :=
  match z with
  | S754_nan | S754_zero _ => True
  | S754_infinity s | S754_finite s _ _ => s = true
  end.

(** A positive number with a mantissa of 53 bits, at least 2^-1012. *)
Definition Ordinary (z : number) : Prop :=
  exists m e, z = S754_finite false m e
              /\ (2 ^ 52 <= Z.pos m < 2 ^ 53)%Z /\ (-1064 <= e <= 971)%Z.

Definition Regular (z : number) : Prop :=
  Ordinary z \/ Tiny z \/ NonPositive z \/ z = S754_infinity false.

(** A divisor: 10, 60 or 1000 in binary64, and the like. *)
Definition Divisor (c : number) : Prop :=
  exists m e, c = S754_finite false m e
              /\ (2 ^ 52 <= Z.pos m < 2 ^ 53)%Z /\ Z.even (Z.pos m) = true
              /\ (-49 <= e <= -43)%Z.

End Number.

(** ** [parseInt] on a String *)

Module ParseInt.

Local Open Scope Z_scope.

Definition code (c : ascii) : Z := Z.of_nat (nat_of_ascii c).

(** StrWhiteSpaceChar: the white space and line terminator code
    points, in their UTF-8 encodings of one, two and three bytes. *)
Definition ws1 (c : ascii) : bool :=
  let n := code c in ((9 <=? n) && (n <=? 13)) || (n =? 32).

Definition ws2 (c1 c2 : ascii) : bool :=
  (code c1 =? 194) && (code c2 =? 160).

Definition ws3 (c1 c2 c3 : ascii) : bool :=
  let a := code c1 in let b := code c2 in let c := code c3 in
  ((a =? 225) && (b =? 154) && (c =? 128))
  || ((a =? 226) && (b =? 128)
      && (((128 <=? c) && (c <=? 138)) || (c =? 168) || (c =? 169) || (c =? 175)))
  || ((a =? 226) && (b =? 129) && (c =? 159))
  || ((a =? 227) && (b =? 128) && (c =? 128))
  || ((a =? 239) && (b =? 187) && (c =? 191)).

Fixpoint skipWhiteSpace (s : string) : string :=
  match s with
  | String c1 r1 =>
      if ws1 c1 then skipWhiteSpace r1
      else match r1 with
           | String c2 r2 =>
               if ws2 c1 c2 then skipWhiteSpace r2
               else match r2 with
                    | String c3 r3 =>
                        if ws3 c1 c2 c3 then skipWhiteSpace r3 else s
                    | EmptyString => s
                    end
           | EmptyString => s
           end
  | EmptyString => s
  end.

(** The value of a digit of the radix, if the character is one. *)
Definition digitValue (radix : Z) (c : ascii) : option Z :=
  let n := code c in
  let d := if (48 <=? n) && (n <=? 57) then Some (n - 48)
           else if (97 <=? n) && (n <=? 122) then Some (n - 87)
           else if (65 <=? n) && (n <=? 90) then Some (n - 55)
           else None in
  match d with
  | Some v => if v <? radix then Some v else None
  | None => None
  end.

(** The longest prefix of digits, read in the radix; [None] when the
    prefix is empty. *)
Fixpoint digits (radix : Z) (s : string) (acc : option Z) : option Z :=
  match s with
  | String c r =>
      match digitValue radix c with
      | Some d =>
          digits radix r
            (Some (match acc with Some a => a * radix + d | None => d end))
      | None => acc
      end
  | EmptyString => acc
  end.

(** [parseInt(s)] with no radix argument: [None] is NaN, [Some n] the
    integer that was read (the Number nearest to it; both zeros are
    [Some 0]). *)
Definition parseInt (s : string) : option Z :=
  let str := skipWhiteSpace s in
  let '(sign, str) :=
    match str with
    | String "-" r => (-1, r)
    | String "+" r => (1, r)
    | _ => (1, str)
    end in
  let '(radix, str) :=
    match str with
    | String "0" (String "x" r) | String "0" (String "X" r) => (16, r)
    | _ => (10, str)
    end in
  match digits radix str None with
  | Some n => Some (sign * n)
  | None => None
  end.

End ParseInt.

(** ** Values of the report *)

#[local] Set Warnings "-register-all".

Inductive JSValue : Type :=
| JUndefined
| JNull
| JBool (b : bool)
| JNum (x : Number.number)
| JStr (s : string)
| JArr (elements : list JSValue)
| JObj (properties : list (string * JSValue)).

Inductive JSError : Type :=
| SyntaxError
| TypeError.

(** The completion of an evaluation that may throw. *)
Inductive completion (A : Type) : Type :=
| Normal (a : A)
| Throw (e : JSError).
Arguments Normal {A} a.
Arguments Throw {A} e.

Definition bind {A B : Type} (c : completion A) (k : A -> completion B)
  : completion B :=
  match c with
  | Normal a => k a
  | Throw e => Throw e
  end.

Notation "'let*' x ':=' c 'in' k" := (bind c (fun x => k))
  (at level 10, x name, c at level 100, k at level 200).

(** The built-in functions of the engine that the extension calls and
    that are not unfolded here. *)
Class Engine : Type := {
  (** [JSON.parse(text)], [None] when it throws a SyntaxError *)
  JSON_parse : string -> option JSValue;
  (** ToNumber applied to a String *)
  StringToNumber : string -> Number.number;
  (** [parseFloat] applied to a String *)
  parseFloatString : string -> Number.number;
  (** Number::toString of a finite value that is not an integer below
      2^53 in magnitude (shortest round-trip digits, exponent form) *)
  NumberToStringOther : Number.number -> string;
}.

(** ** Coercions and property reads *)

Section Coercions.

Context `{engine : Engine}.

Import Number.

(** ToBoolean *)
Definition truthy (v : JSValue) : bool :=
  match v with
  | JUndefined | JNull => false
  | JBool b => b
  | JNum x => toBoolean x
  | JStr s => negb (String.eqb s "")
  | JArr _ | JObj _ => true
  end.

(** [a || b] *)
Definition or_else (a b : JSValue) : JSValue := if truthy a then a else b.

(** Number::toString *)
Definition Number_toString (x : number) : string :=
  match x with
  | S754_nan => "NaN"
  | S754_zero _ => "0"
  | S754_infinity s => if s then "-Infinity" else "Infinity"
  | S754_finite _ _ _ =>
      match integerValue x with
      | Some n =>
          if (Z.abs n <? 2 ^ 53)%Z
          then (if (n <? 0)%Z then "-" else "") +:+ JSString.of_N (Z.abs_N n)
          else NumberToStringOther x
      | None => NumberToStringOther x
      end
  end.

(** [x.toFixed(2)] *)
Definition toFixed2 (x : number) : string :=
  match x with
  | S754_nan | S754_infinity _ => Number_toString x
  | S754_zero _ => "0.00"
  | S754_finite s m e =>
      (if s then "-" else "")
      +:+ (if atLeast1e21 m e then Number_toString (S754_finite false m e)
           else withTwoDecimals (nearestHundredth m e))
  end.

(** ToString; an array joins its elements with commas, null and
    undefined elements as the empty string. *)
Fixpoint ToString (v : JSValue) : string :=
  match v with
  | JUndefined => "undefined"
  | JNull => "null"
  | JBool b => if b then "true" else "false"
  | JNum x => Number_toString x
  | JStr s => s
  | JObj _ => "[object Object]"
  | JArr l =>
      (fix join (l : list JSValue) : string :=
         match l with
         | [] => ""
         | x :: r =>
             match x with
             | JUndefined | JNull => ""
             | _ => ToString x
             end
             +:+ match r with
                 | [] => ""
                 | _ :: _ => "," +:+ join r
                 end
         end) l
  end.

(** ToNumber; an object made by [JSON.parse] has the default
    [valueOf] and [toString], an array converts through its string. *)
Definition ToNumber (v : JSValue) : number :=
  match v with
  | JUndefined => NaN
  | JNull => zero
  | JBool b => if b then of_Z 1 else zero
  | JNum x => x
  | JStr s => StringToNumber s
  | JArr _ => StringToNumber (ToString v)
  | JObj _ => NaN
  end.

(** [parseFloat(v)] reads a Number back from its string; the string of
    a Number denotes that Number, -0 excepted whose string is "0". *)
Definition parseFloat (v : JSValue) : number :=
  match v with
  | JNum (S754_zero _) => zero
  | JNum x => x
  | _ => parseFloatString (ToString v)
  end.

(** The own property [name] of an object, undefined when there is
    none. *)
Fixpoint lookup_property (name : string) (ps : list (string * JSValue))
  : JSValue :=
  match ps with
  | [] => JUndefined
  | (k, v) :: r => if String.eqb k name then v else lookup_property name r
  end.

(** [v.name] for the names the extension reads ([cells], [lines],
    [percent_time], [total_time], [total_hits], [memory_delta_mb],
    [time], [percent]): none of them is inherited, so only an object
    can have one; reading from null or undefined throws. *)
Definition get (v : JSValue) (name : string) : completion JSValue :=
  match v with
  | JUndefined | JNull => Throw TypeError
  | JObj ps => Normal (lookup_property name ps)
  | _ => Normal JUndefined
  end.

(** The one-character strings of a string (one per byte: exact on
    ASCII text). *)
Fixpoint characters (s : string) : list JSValue :=
  match s with
  | EmptyString => []
  | String c r => JStr (String c EmptyString) :: characters r
  end.

(** [v[i]] for an array index [i]. *)
Definition get_index (v : JSValue) (i : nat) : completion JSValue :=
  match v with
  | JUndefined | JNull => Throw TypeError
  | JArr l => Normal (nth i l JUndefined)
  | JStr s => Normal (nth i (characters s) JUndefined)
  | JObj ps => Normal (lookup_property (JSString.of_nat i) ps)
  | _ => Normal JUndefined
  end.

(** [Object.entries(v)] *)
Definition Object_entries (v : JSValue) : completion (list (string * JSValue)) :=
  match v with
  | JUndefined | JNull => Throw TypeError
  | JObj ps => Normal ps
  | JArr l => Normal (imap (fun i x => (JSString.of_nat i, x)) l)
  | JStr s => Normal (imap (fun i x => (JSString.of_nat i, x)) (characters s))
  | _ => Normal []
  end.

End Coercions.

(** ** The host editor's view of a notebook *)

Inductive NotebookCellKind : Type :=
| Markup
| Code.

Record TextDocument : Type := {
  uri : string;        (* [document.uri.toString()] *)
  getText : string;    (* [document.getText()] *)
}.

Record NotebookCell : Type := {
  kind : NotebookCellKind;
  document : option TextDocument;
}.

(** A decoration: an empty range at [(line, character)] and the
    rendering options of the text put after it. *)
Record Decoration : Type := {
  line : nat;
  character : nat;
  contentText : string;
  color : string;
  fontStyle : string;
  margin : string;
  fontWeight : string;
}.

Record Position : Type := {
  position_line : nat;
  position_character : nat;
}.

Inductive Notification : Type :=
| ProfilerError                        (* "Profiler error: ..." *)
| OutputNotFound                       (* "Profiler output not found at: ..." *)
| AnnotationsAdded                     (* "Profiler annotations added to notebook cells" *)
| FailedToParse (err : JSError).       (* "Failed to parse profiler output: ..." *)

(** The state of the extension between two events. *)
Record ExtensionState : Type := {
  cellDecorationsMap : gmap string (list Decoration);
  hoverProviderRegistered : bool;
}.

(** ** The extension *)

Section Extension.

Context `{engine : Engine}.

Import Number.

Definition formatTime (timeInMicroseconds : JSValue) : string :=
  if negb (truthy timeInMicroseconds) then "N/A"
  else
    let timeInMicroseconds := div (parseFloat timeInMicroseconds) (of_Z 10) in
    let timeInMilliseconds := div timeInMicroseconds (of_Z 1000) in
    let timeInSeconds := div timeInMilliseconds (of_Z 1000) in
    let timeInMinutes := div timeInSeconds (of_Z 60) in
    if ge timeInMinutes (of_Z 1) then toFixed2 timeInMinutes +:+ " min"
    else if ge timeInSeconds (of_Z 1) then toFixed2 timeInSeconds +:+ " s"
    else if ge timeInMilliseconds (of_Z 1) then toFixed2 timeInMilliseconds +:+ " ms"
    else toFixed2 timeInMicroseconds +:+ " µs".

Definition classifyCell (cellData : JSValue) : completion string :=
  let* percent_time := get cellData "percent_time" in
  let percent_runtime := or_else percent_time (JNum zero) in
  let* total_time := get cellData "total_time" in
  let* total_hits := get cellData "total_hits" in
  let avg_time_per_hit :=
    div (ToNumber (or_else total_time (JNum zero)))
        (ToNumber (or_else total_hits (JNum (of_Z 1)))) in
  let total_hits := or_else total_hits (JNum zero) in
  let* memory_delta_mb := get cellData "memory_delta_mb" in
  let mem_impact := or_else memory_delta_mb (JNum zero) in
  if gt (ToNumber percent_runtime) (of_Z 30) then Normal "Performance-Critical"
  else if gt avg_time_per_hit (of_Z 1000) then Normal "CPU-Intensive"
  else if gt (ToNumber total_hits) (of_Z 10000)
          && lt avg_time_per_hit (of_Z 100) then Normal "Loop-Intensive"
  else if gt (ToNumber mem_impact) three_tenths then Normal "Memory-Intensive"
  else Normal "Normal".

Definition colorForCategory (category : string) : string :=
  if String.eqb category "Performance-Critical" then "red"
  else if String.eqb category "CPU-Intensive" then "orange"
  else if String.eqb category "Loop-Intensive" then "green"
  else if String.eqb category "Memory-Intensive" then "purple"
  else "gray".

(** [parseInt(lineNumStr) - 1], [None] for NaN. *)
Definition lineNumberOf (lineNumStr : string) : option Z :=
  match ParseInt.parseInt lineNumStr with
  | Some n => Some (n - 1)%Z
  | None => None
  end.

(** [lineNumber >= 0 && lineNumber < lines.length] *)
Definition inRange (lines : list string) (lineNumber : option Z) : bool :=
  match lineNumber with
  | Some n => (0 <=? n)%Z && (n <? Z.of_nat (length lines))%Z
  | None => false
  end.

(** [lineData.percent ? lineData.percent.toFixed(2) : 'N/A']: only a
    Number has [toFixed]. *)
Definition percentText (lineData : JSValue) : completion string :=
  let* percent := get lineData "percent" in
  if truthy percent
  then match percent with
       | JNum x => Normal (toFixed2 x)
       | _ => Throw TypeError
       end
  else Normal "N/A".

(** The decoration pushed for an entry of [cellData.lines] whose line
    number is in range. *)
Definition lineDecoration (lines : list string) (lineNumber : nat)
    (lineData : JSValue) : completion Decoration :=
  let lineLength := JSString.length (nth lineNumber lines "") in
  let* category := classifyCell lineData in
  let color := colorForCategory category in
  let* time := get lineData "time" in
  let* percent := percentText lineData in
  Normal {| line := lineNumber; character := lineLength;
            contentText := "⏱ " +:+ formatTime time +:+ "  | ⚡ " +:+ percent +:+ "%";
            color := color; fontStyle := "italic"; margin := "0 0 0 1rem";
            fontWeight := "bold" |}.

(** [Object.entries(cellData.lines).forEach(...)], pushing onto
    [decorations]. *)
Fixpoint forEachLine (lines : list string) (entries : list (string * JSValue))
    (decorations : list Decoration) : completion (list Decoration) :=
  match entries with
  | [] => Normal decorations
  | (lineNumStr, lineData) :: rest =>
      let lineNumber := lineNumberOf lineNumStr in
      if inRange lines lineNumber
      then
        let* d := lineDecoration lines (Z.to_nat (default 0%Z lineNumber)) lineData in
        forEachLine lines rest (decorations ++ [d])
      else forEachLine lines rest decorations
  end.

(** The cell summary, placed at the end of the last line. *)
Definition summaryDecoration (lines : list string) (cellData : JSValue)
  : completion Decoration :=
  let* total_time := get cellData "total_time" in
  let totalTime := or_else total_time (JNum zero) in
  let* total_hits := get cellData "total_hits" in
  let totalHits := or_else total_hits (JNum zero) in
  let* category := classifyCell cellData in
  let color := colorForCategory category in
  let summaryText :=
    "Total time: ⏱ " +:+ formatTime totalTime +:+ " | Total hits: "
    +:+ ToString totalHits +:+ " | Classification: " +:+ category in
  let lastLineIndex := (length lines - 1)%nat in
  let lastLineLength := JSString.length (nth lastLineIndex lines "") in
  Normal {| line := lastLineIndex; character := lastLineLength;
            contentText := " | " +:+ summaryText;
            color := color; fontStyle := "italic"; margin := "0 0 0 1rem";
            fontWeight := "bold" |}.

(** The body of the guarded block for one cell: the decorations that
    are stored for its document. *)
Definition cellDecorations (cellData : JSValue) (textDocument : TextDocument)
  : completion (list Decoration) :=
  let lines := JSString.split_newline (getText textDocument) in
  let* lineStats := get cellData "lines" in
  let* entries := Object_entries lineStats in
  let* decorations := forEachLine lines entries [] in
  let* summary := summaryDecoration lines cellData in
  Normal (decorations ++ [summary]).

(** The guard of the loop body: the document of a code cell that has
    a truthy report entry. *)
Definition processed (cell : NotebookCell) (cellData : JSValue)
  : option TextDocument :=
  match kind cell with
  | Code => if truthy cellData then document cell else None
  | Markup => None
  end.

(** One iteration of the loop over the notebook's cells. *)
Definition processCell (profilingCells : JSValue) (cellIndex : nat)
    (cell : NotebookCell) (map : gmap string (list Decoration))
  : completion (gmap string (list Decoration)) :=
  let* cellData := get_index profilingCells cellIndex in
  match processed cell cellData with
  | Some textDocument =>
      let* decorations := cellDecorations cellData textDocument in
      Normal (<[uri textDocument := decorations]> map)
  | None => Normal map
  end.

(** The loop, from [cellIndex] on; an exception leaves the map as the
    earlier iterations made it. *)
Fixpoint forCells (profilingCells : JSValue) (cells : list NotebookCell)
    (cellIndex : nat) (map : gmap string (list Decoration))
  : gmap string (list Decoration) * option JSError :=
  match cells with
  | [] => (map, None)
  | cell :: rest =>
      match processCell profilingCells cellIndex cell map with
      | Normal map' => forCells profilingCells rest (S cellIndex) map'
      | Throw e => (map, Some e)
      end
  end.

(** The [try] block and its [catch], on the text of the report file. *)
Definition annotate (raw : string) (allCells : list NotebookCell)
    (st : ExtensionState) : ExtensionState * Notification :=
  let cleared := (∅ : gmap string (list Decoration)) in
  let failed map err :=
    ({| cellDecorationsMap := map;
        hoverProviderRegistered := hoverProviderRegistered st |},
     FailedToParse err) in
  match JSON_parse raw with
  | None => failed cleared SyntaxError
  | Some profilingData =>
      match get profilingData "cells" with
      | Throw e => failed cleared e
      | Normal profilingCells =>
          match forCells profilingCells allCells 0 cleared with
          | (map, Some e) => failed map e
          | (map, None) =>
              ({| cellDecorationsMap := map; hoverProviderRegistered := true |},
               AnnotationsAdded)
          end
      end
  end.

(** The callback run when the profiler process has ended. *)
Definition onProfilerExit (error : bool) (outputExists : bool)
    (raw : string) (allCells : list NotebookCell) (st : ExtensionState)
  : ExtensionState * Notification :=
  if error then (st, ProfilerError)
  else if negb outputExists then (st, OutputNotFound)
  else annotate raw allCells st.

Definition deactivate (st : ExtensionState) : ExtensionState :=
  {| cellDecorationsMap := ∅;
     hoverProviderRegistered := hoverProviderRegistered st |}.

(** The hover provider, over the map as it is when the query comes. *)
Definition provideHover (map : gmap string (list Decoration))
    (docUri : string) (position : Position) : option string :=
  match map !! docUri with
  | Some decorations =>
      match find (fun d => Nat.eqb (line d) (position_line position)) decorations with
      | Some d => Some (contentText d)
      | None => None
      end
  | None => None
  end.

End Extension.

(** ** The specification's reading of the classifier

    The decision table of the specification, stated on a record whose
    fields have been given their defaults, to be compared with
    [classifyCell]. *)

Section DecisionTable.

Import Number.

(** [max(total_hits, 1)] *)
Definition max_one (total_hits : number) : number :=
if ge total_hits (of_Z 1) then total_hits else of_Z 1.

(** The five rules, the first that matches wins. *)
Definition classify_rules
  (percent_time total_time total_hits memory_delta_mb : number) : string :=
if gt percent_time (of_Z 30) then "Performance-Critical"
else
  let avg_time_per_hit := div total_time (max_one total_hits) in
  if gt avg_time_per_hit (of_Z 1000) then "CPU-Intensive"
  else if gt total_hits (of_Z 10000) && lt avg_time_per_hit (of_Z 100)
  then "Loop-Intensive"
  else if gt memory_delta_mb three_tenths then "Memory-Intensive"
  else "Normal".

(** A field of a stats record is absent (or null), or a Number; the
    numbers of a JSON text are never NaN. *)
Definition isStat (v : JSValue) : bool :=
match v with
| JUndefined | JNull => true
| JNum S754_nan => false
| JNum _ => true
| _ => false
end.

(** An absent field reads as 0. *)
Definition statValue (v : JSValue) : number :=
match v with
| JNum x => x
| _ => zero
end.

(** [total_hits] is a count: zero, or at least one. *)
Definition isCount (v : JSValue) : bool :=
isStat v && (negb (toBoolean (statValue v)) || ge (statValue v) (of_Z 1)).

Definition isStatsRecord (ps : list (string * JSValue)) : bool :=
isStat (lookup_property "percent_time" ps)
&& isStat (lookup_property "total_time" ps)
&& isCount (lookup_property "total_hits" ps)
&& isStat (lookup_property "memory_delta_mb" ps).

Definition categories : list string :=
["Performance-Critical"; "CPU-Intensive"; "Loop-Intensive";
 "Memory-Intensive"; "Normal"].

End DecisionTable.

(** ** An engine for the examples

    The examples need an engine to run on. This one answers
    [JSON.parse] from a table of the report texts the examples use, as
    the real function answers on them, and rejects every other text;
    its other three built-ins are never reached by the examples. *)

Definition quote : string := String (ascii_of_nat 34) EmptyString.

Definition num (z : Z) : JSValue := JNum (Number.of_Z z).

(** The number [n / d] as the engine reads the decimal literal. *)
Definition ratio (n d : Z) : JSValue :=
JNum (Number.div (Number.of_Z n) (Number.of_Z d)).

(** {"cells":[{"total_time":500,"total_hits":20000,"percent_time":12.5,
     "lines":{"1":{"time":10000,"percent":0},"3":{"time":20,"percent":12.5},
              "7":{"time":5,"percent":1}}}]} *)
Definition sampleLines : list (string * JSValue) :=
[("1", JObj [("time", num 10000); ("percent", num 0)]);
 ("3", JObj [("time", num 20); ("percent", ratio 25 2)]);
 ("7", JObj [("time", num 5); ("percent", num 1)])].

Definition sampleFields : list (string * JSValue) :=
[("total_time", num 500); ("total_hits", num 20000);
 ("percent_time", ratio 25 2); ("lines", JObj sampleLines)].

Definition sampleCell : JSValue := JObj sampleFields.

Definition sampleReport : JSValue := JObj [("cells", JArr [sampleCell])].

Definition sampleText : string :=
"{" +:+ quote +:+ "cells" +:+ quote +:+ ":[{"
+:+ quote +:+ "total_time" +:+ quote +:+ ":500,"
+:+ quote +:+ "total_hits" +:+ quote +:+ ":20000,"
+:+ quote +:+ "percent_time" +:+ quote +:+ ":12.5,"
+:+ quote +:+ "lines" +:+ quote +:+ ":{"
+:+ quote +:+ "1" +:+ quote +:+ ":{" +:+ quote +:+ "time" +:+ quote +:+ ":10000,"
+:+ quote +:+ "percent" +:+ quote +:+ ":0},"
+:+ quote +:+ "3" +:+ quote +:+ ":{" +:+ quote +:+ "time" +:+ quote +:+ ":20,"
+:+ quote +:+ "percent" +:+ quote +:+ ":12.5},"
+:+ quote +:+ "7" +:+ quote +:+ ":{" +:+ quote +:+ "time" +:+ quote +:+ ":5,"
+:+ quote +:+ "percent" +:+ quote +:+ ":1}}}]}".

(** {"cells":[{"total_time":5}]}: the entry of the cell has no [lines]. *)
Definition noLinesReport : JSValue :=
JObj [("cells", JArr [JObj [("total_time", num 5)]])].

Definition noLinesText : string :=
"{" +:+ quote +:+ "cells" +:+ quote +:+ ":[{"
+:+ quote +:+ "total_time" +:+ quote +:+ ":5}]}".

Definition tableEngine : Engine := {|
  JSON_parse := fun text =>
    if String.eqb text sampleText then Some sampleReport
    else if String.eqb text noLinesText then Some noLinesReport
    else if String.eqb text "{}" then Some (JObj [])
    else if String.eqb text "null" then Some JNull
    else None;
  StringToNumber := fun _ => Number.NaN;
  parseFloatString := fun _ => Number.NaN;
  NumberToStringOther := fun _ => "";
|}.

(** A notebook of one code cell of three lines. *)
Definition sampleDocument : TextDocument :=
{| uri := "vscode-notebook-cell:/nb.ipynb#W0";
   getText := "import time" +:+ String JSString.newline "time.sleep(1)"
              +:+ String JSString.newline "x = 1" |}.

Definition sampleNotebook : list NotebookCell :=
[{| kind := Code; document := Some sampleDocument |}].

(** The decorations of the sample cell: the records of lines 1 and 3
    and the summary; the entry of line 7 is beyond the cell's text. *)
Definition sampleRecord1 : Decoration :=
{| line := 0; character := 11; contentText := "⏱ 1.00 ms  | ⚡ N/A%";
   color := "gray"; fontStyle := "italic"; margin := "0 0 0 1rem";
   fontWeight := "bold" |}.

Definition sampleRecord3 : Decoration :=
{| line := 2; character := 5; contentText := "⏱ 2.00 µs  | ⚡ 12.50%";
   color := "gray"; fontStyle := "italic"; margin := "0 0 0 1rem";
   fontWeight := "bold" |}.

Definition sampleSummary : Decoration :=
{| line := 2; character := 5;
   contentText :=
     " | Total time: ⏱ 50.00 µs | Total hits: 20000 | Classification: Loop-Intensive";
   color := "green"; fontStyle := "italic"; margin := "0 0 0 1rem";
   fontWeight := "bold" |}.

Definition sampleDecorations : list Decoration :=
[sampleRecord1; sampleRecord3; sampleSummary].

(** A state left by an earlier run, with one annotated document. *)
Definition earlierState : ExtensionState :=
{| cellDecorationsMap :=
     {[ "vscode-notebook-cell:/old.ipynb#W0" :=
          [{| line := 0; character := 5; contentText := "⏱ 2.00 µs  | ⚡ N/A%";
              color := "gray"; fontStyle := "italic"; margin := "0 0 0 1rem";
              fontWeight := "bold" |}] ]};
   hoverProviderRegistered := true |}.

(** ** Readings of the builder used in the statements *)

Section Readings.

Context `{engine : Engine}.

(** An entry of [cellData.lines] passes the range test of the loop. *)
Definition entryInRange (lines : list string) (entry : string * JSValue) : bool :=
inRange lines (lineNumberOf entry.1).

(** The 0-based line an entry in range stands for. *)
Definition entryLine (entry : string * JSValue) : nat :=
Z.to_nat (default 0%Z (lineNumberOf entry.1)).

Definition entryDecoration (lines : list string) (entry : string * JSValue)
  : completion Decoration :=
lineDecoration lines (entryLine entry) entry.2.

(** The specification's [build]: the decorations of the processed
    cells, by document, in the order of the notebook. *)
Fixpoint build (profilingCells : JSValue) (cells : list NotebookCell)
    (cellIndex : nat) : completion (list (string * list Decoration)) :=
match cells with
| [] => Normal []
| cell :: rest =>
    let* cellData := get_index profilingCells cellIndex in
    match processed cell cellData with
    | Some textDocument =>
        let* decorations := cellDecorations cellData textDocument in
        let* others := build profilingCells rest (S cellIndex) in
        Normal ((uri textDocument, decorations) :: others)
    | None => build profilingCells rest (S cellIndex)
    end
end.

(** The specification's [replaceAll]: clear, then insert in order. *)
Definition replaceAll (built : list (string * list Decoration))
  : gmap string (list Decoration) :=
foldl (fun m kv => <[kv.1 := kv.2]> m) ∅ built.

(** The text of a line record as the specification words it: one
    space before the bar, and N/A for an absent percent only. *)
Definition specLineText (time percent : JSValue) : string :=
"⏱ " +:+ formatTime time +:+ " | ⚡ "
+:+ match percent with
    | JNum x => toFixed2 x
    | _ => "N/A"
    end
+:+ "%".

(** The text of a line record as the extension writes it. *)
Definition lineText (time percent : JSValue) : string :=
"⏱ " +:+ formatTime time +:+ "  | ⚡ "
+:+ match percent with
    | JNum x => if Number.toBoolean x then toFixed2 x else "N/A"
    | _ => "N/A"
    end
+:+ "%".

(** The decoded report has no [cells] to index: it is null, or its
    [cells] is missing or null. *)
Definition lacksCells (profilingData : JSValue) : bool :=
match get profilingData "cells" with
| Throw _ => true
| Normal JUndefined | Normal JNull => true
| Normal _ => false
end.

End Readings.

(** ** The path of the report

    The methods of a String that the command applies to the path of
    the notebook, on the bytes of the strings. The patterns of the
    extension are ASCII, and an ASCII pattern occurs among the bytes of
    a text where it occurs among its code units. *)

Module StringMethods.

(** [s.slice(n)] for [n] within the string. *)
Fixpoint slice (n : nat) (s : string) : string :=
  match n, s with
  | S n', String _ r => slice n' r
  | _, _ => s
  end.

(** [s.endsWith(p)] *)
Fixpoint endsWith (s p : string) : bool :=
  String.eqb s p
  || match s with
     | String _ r => endsWith r p
     | EmptyString => false
     end.

(** [s.includes(p)] *)
Fixpoint includes (s p : string) : bool :=
  String.prefix p s
  || match s with
     | String _ r => includes r p
     | EmptyString => false
     end.

(** [s.replace(p, r)] for a String pattern [p] and a replacement [r]
    without [$]: the first occurrence of [p] is replaced, the others
    stay. *)
Fixpoint replace (s p r : string) : string :=
  if String.prefix p s then r +:+ slice (String.length p) s
  else match s with
       | String c rest => String c (replace rest p r)
       | EmptyString => s
       end.

End StringMethods.

(** The notebook of the active notebook editor. *)
Record NotebookEditor : Type := {
  fsPath : string;                 (* [notebook.uri.fsPath] *)
  getCells : list NotebookCell;    (* [notebook.getCells()] *)
}.

(** The guard of the command: there is an active notebook editor and
    the path of its notebook ends with the extension of a notebook. *)
Definition acceptsNotebook (notebookEditor : option NotebookEditor) : bool :=
match notebookEditor with
| Some editor => StringMethods.endsWith (fsPath editor) ".ipynb"
| None => false
end.

(** The file the report is looked for and read from. *)
Definition profilerOutput (filePath : string) : string :=
StringMethods.replace filePath ".ipynb" "_profile.json".

(** ** The visible editors

    A text editor shows, for the one decoration type of the extension,
    the decorations that were last set on it. *)

Record TextEditor : Type := {
  editorUri : string;                     (* [editor.document.uri.toString()] *)
  shownDecorations : list Decoration;
}.

(** [editor.setDecorations(sharedDecorationType, decorations)] *)
Definition setDecorations (editor : TextEditor) (decorations : list Decoration)
  : TextEditor :=
{| editorUri := editorUri editor; shownDecorations := decorations |}.

(** An array, even an empty one, is truthy: the second branch is the
    branch of a document that is not in the map. *)
Definition applyDecorationsToEditor (map : gmap string (list Decoration))
    (editor : TextEditor) : TextEditor :=
let docUri := editorUri editor in
match map !! docUri with
| Some decorations => setDecorations editor decorations
| None => setDecorations editor []
end.

(** The listener of the changes of the visible editors, on the editors
    that are visible after the change. *)
Definition onDidChangeVisibleTextEditors (map : gmap string (list Decoration))
    (editors : list TextEditor) : list TextEditor :=
applyDecorationsToEditor map <$> editors.

(** The extension and the editors it draws on. *)
Record Workbench : Type := {
  extensionState : ExtensionState;
  visibleTextEditors : list TextEditor;
}.

Section Workbench.

Context `{engine : Engine}.

(** The [try] block and its [catch] with the editors: they are
    redrawn after the loop, which an exception never reaches. *)
Definition annotateEditors (raw : string) (allCells : list NotebookCell)
    (w : Workbench) : Workbench * Notification :=
let '(st, notification) := annotate raw allCells (extensionState w) in
match notification with
| AnnotationsAdded =>
    ({| extensionState := st;
        visibleTextEditors :=
          applyDecorationsToEditor (cellDecorationsMap st) <$> visibleTextEditors w |},
     notification)
| _ => ({| extensionState := st; visibleTextEditors := visibleTextEditors w |},
        notification)
end.

(** The editor shows what the map holds for its document. *)
Definition upToDate (map : gmap string (list Decoration)) (editor : TextEditor)
  : Prop :=
shownDecorations editor = default [] (map !! editorUri editor).

End Workbench.

(** ** A session

    The extension from its activation on, over the runs of the command
    that came to the callback of the profiler process: its state, and
    the number of hover providers it has registered. *)

Record Session : Type := {
  sessionState : ExtensionState;
  registrations : nat;
}.

(** The state of [activate]: an empty map, no hover provider. *)
Definition activated : Session :=
{| sessionState := {| cellDecorationsMap := ∅; hoverProviderRegistered := false |};
   registrations := 0 |}.

(** What a run of the command finds when the profiler has ended. *)
Record ProfilerRun : Type := {
  exitError : bool;                  (* the process ended with an error *)
  outputExists : bool;               (* [fs.existsSync(profilerOutput)] *)
  reportText : string;               (* [fs.readFileSync(profilerOutput, 'utf-8')] *)
  notebookCells : list NotebookCell; (* [notebook.getCells()] *)
}.

Section Session.

Context `{engine : Engine}.

Definition notificationOf (run : ProfilerRun) (st : ExtensionState) : Notification :=
(onProfilerExit (exitError run) (outputExists run) (reportText run)
   (notebookCells run) st).2.

(** One run: a hover provider is registered on the path of the success
    message, when the flag is not set. *)
Definition runCommand (s : Session) (run : ProfilerRun) : Session :=
let '(st, notification) :=
  onProfilerExit (exitError run) (outputExists run) (reportText run)
    (notebookCells run) (sessionState s) in
{| sessionState := st;
   registrations :=
     match notification with
     | AnnotationsAdded =>
         if hoverProviderRegistered (sessionState s) then registrations s
         else S (registrations s)
     | _ => registrations s
     end |}.

End Session.

(** ** The first variant of the extension (extension.js)

    The same command without the classifier, the time scale and the
    summary: a line record gives the time and the percentage of the
    report as they are, with two decimals, in gray. The functions keep
    their names, in a module of their own. A decoration of this variant
    has no [fontWeight]: the field is the empty string. Where the two
    are compared, this variant is the first and the richer one, embedded
    above, the second. *)

Module Basic.

Section Extension.

Context `{engine : Engine}.

(** [v.toFixed(2)] for a value read from the report: only a Number
    has the method. *)
Definition toFixed (v : JSValue) : completion string :=
  match v with
  | JNum x => Normal (toFixed2 x)
  | _ => Throw TypeError
  end.

Definition lineDecoration (lines : list string) (lineNumber : nat)
    (lineData : JSValue) : completion Decoration :=
  let lineLength := JSString.length (nth lineNumber lines "") in
  let* time := get lineData "time" in
  let* time := toFixed time in
  let* percent := get lineData "percent" in
  let* percent := toFixed percent in
  Normal {| line := lineNumber; character := lineLength;
            contentText := " ⏱ " +:+ time +:+ " µs | ⚡ " +:+ percent +:+ "%";
            color := "gray"; fontStyle := "italic"; margin := "0 0 0 1rem";
            fontWeight := "" |}.

Fixpoint forEachLine (lines : list string) (entries : list (string * JSValue))
    (decorations : list Decoration) : completion (list Decoration) :=
  match entries with
  | [] => Normal decorations
  | (lineNumStr, lineData) :: rest =>
      let lineNumber := lineNumberOf lineNumStr in
      if inRange lines lineNumber
      then
        let* d := lineDecoration lines (Z.to_nat (default 0%Z lineNumber)) lineData in
        forEachLine lines rest (decorations ++ [d])
      else forEachLine lines rest decorations
  end.

Definition cellDecorations (cellData : JSValue) (textDocument : TextDocument)
  : completion (list Decoration) :=
  let lines := JSString.split_newline (getText textDocument) in
  let* lineStats := get cellData "lines" in
  let* entries := Object_entries lineStats in
  forEachLine lines entries [].

Definition processCell (profilingCells : JSValue) (cellIndex : nat)
    (cell : NotebookCell) (map : gmap string (list Decoration))
  : completion (gmap string (list Decoration)) :=
  let* cellData := get_index profilingCells cellIndex in
  match processed cell cellData with
  | Some textDocument =>
      let* decorations := cellDecorations cellData textDocument in
      Normal (<[uri textDocument := decorations]> map)
  | None => Normal map
  end.

Fixpoint forCells (profilingCells : JSValue) (cells : list NotebookCell)
    (cellIndex : nat) (map : gmap string (list Decoration))
  : gmap string (list Decoration) * option JSError :=
  match cells with
  | [] => (map, None)
  | cell :: rest =>
      match processCell profilingCells cellIndex cell map with
      | Normal map' => forCells profilingCells rest (S cellIndex) map'
      | Throw e => (map, Some e)
      end
  end.

Definition annotate (raw : string) (allCells : list NotebookCell)
    (st : ExtensionState) : ExtensionState * Notification :=
  let cleared := (∅ : gmap string (list Decoration)) in
  let failed map err :=
    ({| cellDecorationsMap := map;
        hoverProviderRegistered := hoverProviderRegistered st |},
     FailedToParse err) in
  match JSON_parse raw with
  | None => failed cleared SyntaxError
  | Some profilingData =>
      match get profilingData "cells" with
      | Throw e => failed cleared e
      | Normal profilingCells =>
          match forCells profilingCells allCells 0 cleared with
          | (map, Some e) => failed map e
          | (map, None) =>
              ({| cellDecorationsMap := map; hoverProviderRegistered := true |},
               AnnotationsAdded)
          end
      end
  end.

End Extension.

Section Readings.

Context `{engine : Engine}.

Definition entryDecoration (lines : list string) (entry : string * JSValue)
  : completion Decoration :=
  lineDecoration lines (entryLine entry) entry.2.

(** The record of a line whose entry has the Numbers [time] and
    [percent]. *)
Definition lineRecord (lines : list string) (lineNumber : nat)
    (time percent : Number.number) : Decoration :=
  {| line := lineNumber; character := JSString.length (nth lineNumber lines "");
     contentText := " ⏱ " +:+ toFixed2 time +:+ " µs | ⚡ " +:+ toFixed2 percent +:+ "%";
     color := "gray"; fontStyle := "italic"; margin := "0 0 0 1rem";
     fontWeight := "" |}.

End Readings.

End Basic.

(** What the second variant needs of the entry of a line to give it a
    record: that it is not null (nor absent), and that its [percent] is
    falsy or a Number. *)
Definition lineDataAccepted (lineData : JSValue) : bool :=
match get lineData "percent" with
| Normal percent =>
    negb (truthy percent)
    || match percent with
       | JNum _ => true
       | _ => false
       end
| Throw _ => false
end.

(** Two decorations at the same place. *)
Definition sameAnchor (d d' : Decoration) : Prop :=
line d' = line d /\ character d' = character d.

(** The sequence of a cell in the second variant against its sequence
    in the first: records at the same places, and the summary after
    them. *)
Definition extends (basic rich : list Decoration) : Prop :=
exists records summary,
  rich = records ++ [summary] /\ Forall2 sameAnchor basic records.

(** ** More examples

    A report of two cells, the second without [lines]:
    {"cells":[{"total_time":500,...},{"total_time":5}]} with the first
    entry as in the sample report; and a notebook of a text cell between
    two code cells. *)

Definition twoCellsReport : JSValue :=
JObj [("cells", JArr [sampleCell; JObj [("total_time", num 5)]])].

Definition twoCellsText : string :=
"{" +:+ quote +:+ "cells" +:+ quote +:+ ":[{"
+:+ quote +:+ "total_time" +:+ quote +:+ ":500,"
+:+ quote +:+ "total_hits" +:+ quote +:+ ":20000,"
+:+ quote +:+ "percent_time" +:+ quote +:+ ":12.5,"
+:+ quote +:+ "lines" +:+ quote +:+ ":{"
+:+ quote +:+ "1" +:+ quote +:+ ":{" +:+ quote +:+ "time" +:+ quote +:+ ":10000,"
+:+ quote +:+ "percent" +:+ quote +:+ ":0},"
+:+ quote +:+ "3" +:+ quote +:+ ":{" +:+ quote +:+ "time" +:+ quote +:+ ":20,"
+:+ quote +:+ "percent" +:+ quote +:+ ":12.5},"
+:+ quote +:+ "7" +:+ quote +:+ ":{" +:+ quote +:+ "time" +:+ quote +:+ ":5,"
+:+ quote +:+ "percent" +:+ quote +:+ ":1}}},{"
+:+ quote +:+ "total_time" +:+ quote +:+ ":5}]}".

(** The engine of the examples, with the report of two cells. *)
Definition exampleEngine : Engine := {|
  JSON_parse := fun text =>
    if String.eqb text twoCellsText then Some twoCellsReport
    else @JSON_parse tableEngine text;
  StringToNumber := @StringToNumber tableEngine;
  parseFloatString := @parseFloatString tableEngine;
  NumberToStringOther := @NumberToStringOther tableEngine;
|}.

Definition secondDocument : TextDocument :=
{| uri := "vscode-notebook-cell:/nb.ipynb#W2"; getText := "y = 2" |}.

Definition twoCellsNotebook : list NotebookCell :=
[{| kind := Code; document := Some sampleDocument |};
 {| kind := Code; document := Some secondDocument |}].

(** The records of the sample cell in the first variant. *)
Definition basicDecorations : list Decoration :=
[{| line := 0; character := 11; contentText := " ⏱ 10000.00 µs | ⚡ 0.00%";
    color := "gray"; fontStyle := "italic"; margin := "0 0 0 1rem";
    fontWeight := "" |};
 {| line := 2; character := 5; contentText := " ⏱ 20.00 µs | ⚡ 12.50%";
    color := "gray"; fontStyle := "italic"; margin := "0 0 0 1rem";
    fontWeight := "" |}].

(** An editor on the document of the sample cell that shows a record
    of an earlier run. *)
Definition staleEditor : TextEditor :=
{| editorUri := uri sampleDocument;
   shownDecorations :=
     [{| line := 0; character := 11; contentText := "⏱ 2.00 µs  | ⚡ N/A%";
         color := "gray"; fontStyle := "italic"; margin := "0 0 0 1rem";
         fontWeight := "bold" |}] |}.

Arguments Number.of_Z : simpl never.
Arguments Number.div : simpl never.
Arguments Number.gt : simpl never.
Arguments Number.ge : simpl never.
Arguments Number.lt : simpl never.
Arguments Number.three_tenths : simpl never.
Arguments toFixed2 : simpl never.
Arguments formatTime : simpl never.

(** * Properties *)

(** ** Binary64 division and the thresholds of the time scale

    [formatTime] tests the quotients of the number of microseconds by
    1000, 1000 and 60 against 1. These tests are tests of the number of
    microseconds itself against 1,000, 1,000,000 and 60,000,000: the
    correctly rounded quotient of a binary64 number by such a constant
    reaches 1 exactly when the number reaches the constant. The proof
    follows the division and rounding of the standard library's
    specification on the fields of the numbers. *)

Module Binary64.

Import Number.

Local Open Scope Z_scope.



Lemma digits2_bounds p :
  2 ^ (Z.pos (digits2_pos p) - 1) <= Z.pos p < 2 ^ Z.pos (digits2_pos p).
Proof.
  induction p as [p IH|p IH|]; cbn [digits2_pos]; [| |cbn; lia];
    rewrite Pos2Z.inj_succ;
    set (d := Z.pos (digits2_pos p)) in *;
    assert (Hd : 0 < d) by (unfold d; lia);
    replace (Z.succ d - 1) with d by lia;
    assert (E1 : 2 ^ d = 2 * 2 ^ (d - 1))
      by (rewrite <- Z.pow_succ_r by lia; f_equal; lia);
    rewrite Z.pow_succ_r by lia; lia.
Qed.

Lemma digits2_unique p k :
  0 < k -> 2 ^ (k - 1) <= Z.pos p < 2 ^ k -> Z.pos (digits2_pos p) = k.
Proof.
  intros Hk [Hlo Hhi]. pose proof (digits2_bounds p) as [Hlo' Hhi'].
  assert (k - 1 < Z.pos (digits2_pos p)).
  { apply (Z.pow_lt_mono_r_iff 2); lia. }
  assert (Z.pos (digits2_pos p) - 1 < k).
  { apply (Z.pow_lt_mono_r_iff 2); lia. }
  lia.
Qed.

Lemma digits2_le p k : 0 <= k -> Z.pos p < 2 ^ k -> Z.pos (digits2_pos p) <= k.
Proof.
  intros Hk Hhi. pose proof (digits2_bounds p) as [Hlo' _].
  assert (Z.pos (digits2_pos p) - 1 < k).
  { apply (Z.pow_lt_mono_r_iff 2); lia. }
  lia.
Qed.

Lemma shr_1_m mrs : 0 <= shr_m mrs -> shr_m (shr_1 mrs) = shr_m mrs / 2.
Proof.
  destruct mrs as [m r s]. cbn [shr_m]. intros Hm.
  destruct m as [|[p|p|]|p]; cbn; try lia; try reflexivity.
  - rewrite Pos2Z.inj_xI. apply Z.div_unique with 1; lia.
  - rewrite Pos2Z.inj_xO. apply Z.div_unique with 0; lia.
Qed.

Lemma shr_1_nonneg mrs : 0 <= shr_m mrs -> 0 <= shr_m (shr_1 mrs).
Proof. intros H. rewrite shr_1_m by assumption. apply Z.div_pos; lia. Qed.

Lemma pow2_xI p : 2 ^ Z.pos p~1 = 2 * 2 ^ Z.pos p * 2 ^ Z.pos p.
Proof.
  assert (E : Z.pos p~1 = 1 + Z.pos p + Z.pos p) by lia.
  rewrite E, !Z.pow_add_r by lia. reflexivity.
Qed.

Lemma pow2_xO p : 2 ^ Z.pos p~0 = 2 ^ Z.pos p * 2 ^ Z.pos p.
Proof.
  assert (E : Z.pos p~0 = Z.pos p + Z.pos p) by lia.
  rewrite E, !Z.pow_add_r by lia. reflexivity.
Qed.

Lemma iter_shr_m p : forall mrs,
  0 <= shr_m mrs ->
  shr_m (SpecFloat.iter_pos shr_1 p mrs) = shr_m mrs / 2 ^ Z.pos p.
Proof.
  induction p as [p IH|p IH|]; intros mrs Hm; cbn [SpecFloat.iter_pos].
  - assert (H1 := shr_1_nonneg mrs Hm).
    assert (H2 : 0 <= shr_m (SpecFloat.iter_pos shr_1 p (shr_1 mrs))).
    { rewrite IH by assumption. apply Z.div_pos; lia. }
    rewrite IH, IH, shr_1_m by assumption.
    rewrite !Z.div_div by lia. rewrite pow2_xI; f_equal; lia.
  - assert (H2 : 0 <= shr_m (SpecFloat.iter_pos shr_1 p mrs)).
    { rewrite IH by assumption. apply Z.div_pos; lia. }
    rewrite IH, IH by assumption.
    rewrite !Z.div_div by lia. rewrite pow2_xO; f_equal; lia.
  - rewrite shr_1_m by assumption. reflexivity.
Qed.


Local Abbreviation fexp := (SpecFloat.fexp prec emax).

Lemma fexp_eq e : fexp e = Z.max (e - 53) (-1074).
Proof. reflexivity. Qed.

Lemma loc_of_record_of_loc m l : loc_of_shr_record (shr_record_of_loc m l) = l.
Proof. by destruct l as [|[]]. Qed.

Lemma shr_m_record_of_loc m l : shr_m (shr_record_of_loc m l) = m.
Proof. by destruct l as [|[]]. Qed.

(** The shift that brings a mantissa to its canonical exponent. *)
Lemma shr_fexp_spec m e l :
  0 <= m ->
  let e' := Z.max e (fexp (Zdigits2 m + e)) in
  snd (shr_fexp prec emax m e l) = e'
  /\ shr_m (fst (shr_fexp prec emax m e l)) = m / 2 ^ (e' - e).
Proof.
  intros Hm e'. unfold shr_fexp, shr.
  destruct (fexp (Zdigits2 m + e) - e) as [|p|p] eqn:Hn; cbn [fst snd].
  - replace e' with e by (unfold e'; lia).
    rewrite Z.sub_diag, Z.pow_0_r, Z.div_1_r. by rewrite shr_m_record_of_loc.
  - replace e' with (e + Z.pos p) by (unfold e'; lia). split; [done|].
    rewrite iter_shr_m by (by rewrite shr_m_record_of_loc).
    rewrite shr_m_record_of_loc. f_equal. f_equal. lia.
  - replace e' with e by (unfold e'; lia).
    rewrite Z.sub_diag, Z.pow_0_r, Z.div_1_r. by rewrite shr_m_record_of_loc.
Qed.

Lemma shr_fexp_0 m e l :
  fexp (Zdigits2 m + e) <= e ->
  shr_fexp prec emax m e l = (shr_record_of_loc m l, e).
Proof.
  intros H. unfold shr_fexp, shr.
  by destruct (fexp (Zdigits2 m + e) - e) as [|p|p] eqn:Hn; [|lia|].
Qed.

Lemma shr_fexp_1 m e l :
  fexp (Zdigits2 m + e) = e + 1 ->
  shr_fexp prec emax m e l = (shr_1 (shr_record_of_loc m l), e + 1).
Proof.
  intros H. unfold shr_fexp. by replace (fexp (Zdigits2 m + e) - e) with 1 by lia.
Qed.

Lemma Zdigits2_53 q : 2 ^ 52 <= q < 2 ^ 53 -> Zdigits2 q = 53.
Proof.
  intros Hq. destruct q as [|p|p]; try (cbn in Hq; lia).
  cbn [Zdigits2]. by apply digits2_unique.
Qed.

Lemma Zdigits2_54 q : 2 ^ 53 <= q < 2 ^ 54 -> Zdigits2 q = 54.
Proof.
  intros Hq. destruct q as [|p|p]; try (cbn in Hq; lia).
  cbn [Zdigits2]. by apply digits2_unique.
Qed.

Lemma round_nearest_even_cases m l :
  round_nearest_even m l = m \/ round_nearest_even m l = m + 1.
Proof. destruct l as [|[]]; cbn; auto. destruct (Z.even m); auto. Qed.

(** Rounding a mantissa of 53 bits: it stays, or moves up by one, and
    is renormalised when it reaches 2^53. *)
Lemma round_aux_53 q e l :
  2 ^ 52 <= q < 2 ^ 53 -> -1074 <= e -> e + 1 <= 971 ->
  binary_round_aux prec emax false q e l
  = let m := round_nearest_even q l in
    if m <? 2 ^ 53 then S754_finite false (Z.to_pos m) e
    else S754_finite false (Z.to_pos (2 ^ 52)) (e + 1).
Proof.
  intros Hq He He'. unfold binary_round_aux.
  rewrite shr_fexp_0 by (rewrite Zdigits2_53, fexp_eq by done; lia).
  rewrite shr_m_record_of_loc, loc_of_record_of_loc. cbv zeta.
  set (m := round_nearest_even q l).
  assert (Hm : m = q \/ m = q + 1) by apply round_nearest_even_cases.
  destruct (Z.ltb_spec m (2 ^ 53)) as [Hlt|Hge].
  - rewrite shr_fexp_0 by (rewrite Zdigits2_53, fexp_eq by lia; lia).
    cbn [shr_m shr_record_of_loc].
    destruct m as [|p|p]; try lia.
    cbn [Z.to_pos]. by replace (e <=? emax - prec) with true by (symmetry; apply Z.leb_le; unfold emax, prec; lia).
  - assert (m = 2 ^ 53) as -> by lia.
    rewrite shr_fexp_1 by (rewrite Zdigits2_54, fexp_eq by lia; lia).
    cbn [shr_m shr_record_of_loc shr_1].
    change (2 ^ 53) with (Z.pos (xO (Z.to_pos (2 ^ 52)))). cbn [shr_m].
    by replace (e + 1 <=? emax - prec) with true by (symmetry; apply Z.leb_le; unfold emax, prec; lia).
Qed.


(** Rounding a mantissa of 54 bits: one bit is shifted out first, and
    the mantissa moves up only when that bit was set. *)
Lemma round_aux_54 q e l :
  2 ^ 53 <= q < 2 ^ 54 -> -1075 <= e -> e + 2 <= 971 ->
  binary_round_aux prec emax false q e l
  = let mrs := shr_1 (shr_record_of_loc q l) in
    let m := round_nearest_even (shr_m mrs) (loc_of_shr_record mrs) in
    if m <? 2 ^ 53 then S754_finite false (Z.to_pos m) (e + 1)
    else S754_finite false (Z.to_pos (2 ^ 52)) (e + 2).
Proof.
  intros Hq He He'. unfold binary_round_aux.
  rewrite shr_fexp_1 by (rewrite Zdigits2_54, fexp_eq by done; lia).
  cbv zeta. set (mrs := shr_1 (shr_record_of_loc q l)).
  assert (Hmrs : shr_m mrs = q / 2).
  { unfold mrs. rewrite shr_1_m; rewrite shr_m_record_of_loc; [done|lia]. }
  set (m := round_nearest_even (shr_m mrs) (loc_of_shr_record mrs)).
  assert (Hm : m = q / 2 \/ m = q / 2 + 1).
  { unfold m. rewrite <- Hmrs. apply round_nearest_even_cases. }
  assert (Hhalf : 2 ^ 52 <= q / 2 < 2 ^ 53).
  { split; [apply Z.div_le_lower_bound; lia|apply Z.div_lt_upper_bound; lia]. }
  destruct (Z.ltb_spec m (2 ^ 53)) as [Hlt|Hge].
  - rewrite shr_fexp_0 by (rewrite Zdigits2_53, fexp_eq by lia; lia).
    cbn [shr_m shr_record_of_loc].
    destruct m as [|p|p]; try lia.
    cbn [Z.to_pos]. by replace (e + 1 <=? emax - prec) with true by (symmetry; apply Z.leb_le; unfold emax, prec; lia).
  - assert (m = 2 ^ 53) as -> by lia.
    rewrite shr_fexp_1 by (rewrite Zdigits2_54, fexp_eq by lia; lia).
    cbn [shr_m shr_record_of_loc shr_1].
    change (2 ^ 53) with (Z.pos (xO (Z.to_pos (2 ^ 52)))). cbn [shr_m].
    replace (e + 1 + 1) with (e + 2) by lia.
    by replace (e + 2 <=? emax - prec) with true by (symmetry; apply Z.leb_le; unfold emax, prec; lia).
Qed.

(** The mantissa after one bit was shifted out moves up only when that
    bit was set. *)
Lemma round_after_shr_1 q l :
  0 < q ->
  let mrs := shr_1 (shr_record_of_loc q l) in
  let m := round_nearest_even (shr_m mrs) (loc_of_shr_record mrs) in
  m = q / 2 \/ (m = q / 2 + 1 /\ q mod 2 = 1).
Proof.
  intros Hq mrs m.
  assert (Hmrs : shr_m mrs = q / 2).
  { unfold mrs. rewrite shr_1_m; rewrite shr_m_record_of_loc; [done|lia]. }
  destruct (Z.eq_dec m (q / 2)) as [|Hne]; [by left|right].
  assert (Hm : m = q / 2 + 1).
  { destruct (round_nearest_even_cases (shr_m mrs) (loc_of_shr_record mrs)) as [H|H];
      fold m in H; rewrite Hmrs in H; [done|done]. }
  split; [done|].
  unfold m, mrs in Hne. rewrite <- Hmrs in Hne. unfold mrs in Hne.
  destruct q as [|[p|p|]|p]; try lia; [by rewrite Zmod_odd| |done].
  exfalso. apply Hne. by destruct l as [|[]].
Qed.

(** The location of a remainder against an even divisor. *)
Lemma round_new_location q d r :
  Z.even d = true -> 0 < d -> 0 <= r ->
  let m := round_nearest_even q (new_location d r) in
  (m = q /\ 2 * r <= d) \/ (m = q + 1 /\ d <= 2 * r).
Proof.
  intros Hd Hpos Hr m. unfold m, new_location, new_location_even. rewrite Hd.
  destruct (Z.eqb_spec r 0) as [->|Hne]; cbn [round_nearest_even].
  - left. split; [done|lia].
  - destruct (Z.compare_spec (2 * r) d) as [Heq|Hlt|Hgt]; cbn [round_nearest_even].
    + destruct (Z.even q); [left|right]; split; (done || lia).
    + left. split; [done|lia].
    + right. split; [done|lia].
Qed.

(** The quotient and its location, for two mantissas of 53 bits and a
    result within the normal range. *)
Lemma div_core_normal my ey mc ec :
  Z.pos (digits2_pos my) = 53 -> Z.pos (digits2_pos mc) = 53 ->
  -1074 <= ey - ec - 53 ->
  SFdiv_core_binary prec emax (Z.pos my) ey (Z.pos mc) ec
  = (Z.pos my * 2 ^ 53 / Z.pos mc, ey - ec - 53,
     new_location (Z.pos mc) ((Z.pos my * 2 ^ 53) mod Z.pos mc)).
Proof.
  intros Hy Hc He. unfold SFdiv_core_binary. cbn [Zdigits2]. rewrite Hy, Hc.
  replace (Z.min (fexp (53 + ey - (53 + ec))) (ey - ec)) with (ey - ec - 53)
    by (rewrite fexp_eq; lia).
  replace (ey - ec - (ey - ec - 53)) with 53 by lia.
  cbv zeta iota beta. rewrite Z.shiftl_mul_pow2 by lia.
  unfold Z.div, Z.modulo. by destruct (Z.div_eucl (Z.pos my * 2 ^ 53) (Z.pos mc)).
Qed.

(** Comparison of two positive finite numbers, on their fields. *)
Lemma SFleb_finite m1 e1 m2 e2 :
  SFleb (S754_finite false m1 e1) (S754_finite false m2 e2)
  = (e1 <? e2) || ((e1 =? e2) && (Z.pos m1 <=? Z.pos m2)).
Proof.
  unfold SFleb, SFcompare.
  destruct (Z.compare_spec e1 e2) as [->|Hlt|Hgt].
  - rewrite Z.ltb_irrefl, Z.eqb_refl. cbn [orb andb].
    change (Pos.compare_cont Eq m1 m2) with (Pos.compare m1 m2).
    unfold Z.leb. cbn [Z.compare]. by destruct (Pos.compare m1 m2).
  - by replace (e1 <? e2) with true by (symmetry; by apply Z.ltb_lt).
  - replace (e1 <? e2) with false by (symmetry; apply Z.ltb_ge; lia).
    by replace (e1 =? e2) with false by (symmetry; apply Z.eqb_neq; lia).
Qed.


(** The quotient of two positive numbers with mantissas of 53 bits,
    when the result is within the normal range: its mantissa and its
    exponent, from the integer quotient [q] and remainder [r] of
    [my * 2^53] by [mc]. *)
Lemma div_normal_form my ey mc ec :
  2 ^ 52 <= Z.pos my < 2 ^ 53 -> 2 ^ 52 <= Z.pos mc < 2 ^ 53 ->
  Z.even (Z.pos mc) = true ->
  -1074 <= ey - ec - 53 -> ey - ec - 51 <= 971 ->
  exists q r mz ez,
    Z.pos my * 2 ^ 53 = Z.pos mc * q + r /\ 0 <= r < Z.pos mc
    /\ SFdiv prec emax (S754_finite false my ey) (S754_finite false mc ec)
       = S754_finite false mz ez
    /\ 2 ^ 52 <= Z.pos mz < 2 ^ 53
    /\ ((q < 2 ^ 53
         /\ ((Z.pos mz = q /\ 2 * r <= Z.pos mc /\ ez = ey - ec - 53)
             \/ (Z.pos mz = q + 1 /\ Z.pos mc <= 2 * r /\ ez = ey - ec - 53)
             \/ (q + 1 = 2 ^ 53 /\ Z.pos mc <= 2 * r /\ Z.pos mz = 2 ^ 52
                 /\ ez = ey - ec - 52)))
        \/ (2 ^ 53 <= q
            /\ exists h b,
                q = 2 * h + b /\ 0 <= b <= 1
                /\ ((Z.pos mz = h /\ ez = ey - ec - 52)
                    \/ (Z.pos mz = h + 1 /\ b = 1 /\ ez = ey - ec - 52)
                    \/ (h + 1 = 2 ^ 53 /\ b = 1 /\ Z.pos mz = 2 ^ 52
                        /\ ez = ey - ec - 51)))).
Proof.
  intros Hy Hc Heven Hlo Hhi.
  unfold SFdiv. rewrite div_core_normal by (try apply digits2_unique; done || lia).
  cbn [xorb].
  set (q := Z.pos my * 2 ^ 53 / Z.pos mc).
  set (r := (Z.pos my * 2 ^ 53) mod Z.pos mc).
  assert (Hqr : Z.pos my * 2 ^ 53 = Z.pos mc * q + r) by (apply Z.div_mod; lia).
  assert (Hr : 0 <= r < Z.pos mc) by (apply Z.mod_pos_bound; lia).
  assert (Hq : 2 ^ 52 <= q < 2 ^ 54).
  { split; [apply Z.div_le_lower_bound; lia|apply Z.div_lt_upper_bound; lia]. }
  exists q, r.
  destruct (Z_lt_le_dec q (2 ^ 53)) as [Hq53|Hq54].
  - rewrite round_aux_53 by lia. cbv zeta.
    destruct (round_new_location q (Z.pos mc) r Heven ltac:(lia) ltac:(lia))
      as [[Hm Hle]|[Hm Hge]]; rewrite Hm.
    + replace (q <? 2 ^ 53) with true by (symmetry; by apply Z.ltb_lt).
      exists (Z.to_pos q), (ey - ec - 53). rewrite Z2Pos.id by lia.
      repeat split; lia.
    + destruct (Z.ltb_spec (q + 1) (2 ^ 53)) as [Hlt|Hcarry].
      * exists (Z.to_pos (q + 1)), (ey - ec - 53). rewrite Z2Pos.id by lia.
        repeat split; lia.
      * exists (Z.to_pos (2 ^ 52)), (ey - ec - 53 + 1). rewrite Z2Pos.id by lia.
        repeat split; lia.
  - rewrite round_aux_54 by lia. cbv zeta.
    pose proof (round_after_shr_1 q (new_location (Z.pos mc) r) ltac:(lia)) as Hm.
    cbv zeta in Hm.
    set (m := round_nearest_even _ _) in *.
    pose proof (Z.div_mod q 2 ltac:(lia)) as Hdm.
    pose proof (Z.mod_pos_bound q 2 ltac:(lia)) as Hb.
    destruct (Z.ltb_spec m (2 ^ 53)) as [Hlt|Hcarry].
    + exists (Z.to_pos m), (ey - ec - 53 + 1).
      assert (0 < m) by lia. rewrite Z2Pos.id by lia.
      repeat split; try lia. right. split; [done|].
      exists (q / 2), (q mod 2). repeat split; lia.
    + exfalso. lia.
Qed.


Ltac bool_cases :=
  repeat match goal with
  | |- context [?a <? ?b] => destruct (Z.ltb_spec a b)
  | |- context [?a <=? ?b] => destruct (Z.leb_spec a b)
  | |- context [?a =? ?b] => destruct (Z.eqb_spec a b)
  end.

Ltac numerals :=
  change (2 ^ 52) with 4503599627370496 in *;
  change (2 ^ 53) with 9007199254740992 in *.

(** [y / c >= a] exactly when [y >= a * c], for a positive [y] with a
    mantissa of 53 bits and a quotient within the normal range. *)
Ltac threshold_normal my ey mc ec :=
  let q := fresh "q" in let r := fresh "r" in
  let mz := fresh "mz" in let ez := fresh "ez" in
  let Hqr := fresh "Hqr" in let Hr := fresh "Hr" in
  let Hdiv := fresh "Hdiv" in let Hmz := fresh "Hmz" in
  let Hcases := fresh "Hcases" in
  destruct (div_normal_form my ey mc ec) as (q & r & mz & ez & Hqr & Hr & Hdiv & Hmz & Hcases);
  [done|done|done|lia|lia|];
  unfold div; rewrite Hdiv, !SFleb_finite;
  numerals;
  destruct Hcases as [[Hq [(? & ? & ?)|[(? & ? & ?)|(? & ? & ? & ?)]]]
                     |[Hq (h & b & ? & ? & [(? & ?)|[(? & ? & ?)|(? & ? & ? & ?)]])]];
  bool_cases; cbn [orb andb]; try reflexivity; exfalso; lia.

Ltac constants :=
  change (of_Z 1) with (S754_finite false 4503599627370496 (-52));
  change (of_Z 10) with (S754_finite false 5629499534213120 (-49));
  change (of_Z 60) with (S754_finite false 8444249301319680 (-47));
  change (of_Z 1000) with (S754_finite false 8796093022208000 (-43));
  change (of_Z 60000) with (S754_finite false 8246337208320000 (-37));
  change (of_Z 1000000) with (S754_finite false 8589934592000000 (-33));
  change (of_Z 60000000) with (S754_finite false 8053063680000000 (-27)).

Lemma threshold_1000_1 my ey :
  2 ^ 52 <= Z.pos my < 2 ^ 53 -> -1064 <= ey <= 971 ->
  SFleb (of_Z 1) (div (S754_finite false my ey) (of_Z 1000))
  = SFleb (of_Z 1000) (S754_finite false my ey).
Proof.
  intros Hy He. constants.
  threshold_normal my ey 8796093022208000%positive (-43).
Qed.

Lemma threshold_1000_1000 my ey :
  2 ^ 52 <= Z.pos my < 2 ^ 53 -> -1064 <= ey <= 971 ->
  SFleb (of_Z 1000) (div (S754_finite false my ey) (of_Z 1000))
  = SFleb (of_Z 1000000) (S754_finite false my ey).
Proof.
  intros Hy He. constants.
  threshold_normal my ey 8796093022208000%positive (-43).
Qed.

Lemma threshold_1000_60 my ey :
  2 ^ 52 <= Z.pos my < 2 ^ 53 -> -1064 <= ey <= 971 ->
  SFleb (of_Z 60) (div (S754_finite false my ey) (of_Z 1000))
  = SFleb (of_Z 60000) (S754_finite false my ey).
Proof.
  intros Hy He. constants.
  threshold_normal my ey 8796093022208000%positive (-43).
Qed.

Lemma threshold_1000_60000 my ey :
  2 ^ 52 <= Z.pos my < 2 ^ 53 -> -1064 <= ey <= 971 ->
  SFleb (of_Z 60000) (div (S754_finite false my ey) (of_Z 1000))
  = SFleb (of_Z 60000000) (S754_finite false my ey).
Proof.
  intros Hy He. constants.
  threshold_normal my ey 8796093022208000%positive (-43).
Qed.

Lemma threshold_60_1 my ey :
  2 ^ 52 <= Z.pos my < 2 ^ 53 -> -1064 <= ey <= 971 ->
  SFleb (of_Z 1) (div (S754_finite false my ey) (of_Z 60))
  = SFleb (of_Z 60) (S754_finite false my ey).
Proof.
  intros Hy He. constants.
  threshold_normal my ey 8444249301319680%positive (-47).
Qed.


(** *** Numbers too small to matter *)

Lemma Zdigits2_bounds x :
  0 < x -> 0 < Zdigits2 x /\ 2 ^ (Zdigits2 x - 1) <= x < 2 ^ Zdigits2 x.
Proof.
  destruct x as [|p|p]; try lia. intros _. cbn [Zdigits2].
  split; [lia|apply digits2_bounds].
Qed.

Lemma Zdigits2_le x k : 0 <= x -> 0 <= k -> x < 2 ^ k -> Zdigits2 x <= k.
Proof.
  destruct x as [|p|p]; try lia; intros _ Hk Hx; cbn [Zdigits2]; [lia|].
  by apply digits2_le.
Qed.

Lemma Zdigits2_shift x k :
  0 <= x -> 0 <= k -> 0 < x / 2 ^ k -> Zdigits2 (x / 2 ^ k) + k <= Zdigits2 x.
Proof.
  intros Hx Hk Hpos.
  assert (H2k : 0 < 2 ^ k) by (apply Z.pow_pos_nonneg; lia).
  assert (Hx' : 0 < x).
  { destruct (Z.eq_dec x 0) as [->|]; [|lia]. rewrite Z.div_0_l in Hpos; lia. }
  destruct (Zdigits2_bounds x Hx') as (Hd & Hlo & Hhi).
  assert (Hge : 2 ^ k <= x).
  { destruct (Z_lt_le_dec x (2 ^ k)) as [Hlt|]; [|done].
    rewrite Z.div_small in Hpos; lia. }
  assert (Hkd : k < Zdigits2 x) by (apply (Z.pow_lt_mono_r_iff 2); lia).
  cut (Zdigits2 (x / 2 ^ k) <= Zdigits2 x - k); [lia|].
  apply Zdigits2_le; [lia|lia|].
  apply Z.div_lt_upper_bound; [lia|].
  rewrite <- Z.pow_add_r by lia. by replace (k + (Zdigits2 x - k)) with (Zdigits2 x) by lia.
Qed.

Lemma Zdigits2_succ x : 0 <= x -> Zdigits2 (x + 1) <= Zdigits2 x + 1.
Proof.
  intros Hx. destruct (Z.eq_dec x 0) as [->|Hne]; [done|].
  destruct (Zdigits2_bounds x ltac:(lia)) as (Hd & Hlo & Hhi).
  apply Zdigits2_le; [lia|lia|]. rewrite Z.pow_add_r, Z.pow_1_r by lia. lia.
Qed.

Lemma round_aux_tiny q e l :
  0 <= q -> (q = 0 \/ Zdigits2 q + e <= -1013) -> e <= -1065 ->
  Tiny (binary_round_aux prec emax false q e l).
Proof.
  intros Hq Hdq He. unfold binary_round_aux.
  pose proof (shr_fexp_spec q e l Hq) as H1. cbv zeta in H1.
  destruct (shr_fexp prec emax q e l) as [mrs1 e1]. cbn [fst snd] in H1.
  destruct H1 as [He1 Hm1]. rewrite <- He1 in Hm1.
  set (m := round_nearest_even (shr_m mrs1) (loc_of_shr_record mrs1)).
  assert (Hm1' : 0 <= shr_m mrs1).
  { rewrite Hm1. apply Z.div_pos; [lia|]. apply Z.pow_pos_nonneg; lia. }
  assert (Hm : m = shr_m mrs1 \/ m = shr_m mrs1 + 1)
    by apply round_nearest_even_cases.
  clearbody m.
  assert (Hee1 : e <= e1) by lia.
  assert (He1' : e1 <= -1065).
  { rewrite He1, fexp_eq. destruct Hdq as [->|]; cbn [Zdigits2]; lia. }
  assert (Hd1 : shr_m mrs1 = 0 \/ Zdigits2 (shr_m mrs1) + e1 <= -1013).
  { destruct (Z.eq_dec (shr_m mrs1) 0) as [|Hne]; [by left|right].
    destruct Hdq as [->|Hdq].
    { exfalso. apply Hne. rewrite Hm1. apply Z.div_0_l, Z.pow_nonzero; lia. }
    pose proof (Zdigits2_shift q (e1 - e) Hq ltac:(lia) ltac:(lia)) as Hs.
    rewrite <- Hm1 in Hs. lia. }
  assert (Hdm : Zdigits2 m + e1 <= -1012).
  { destruct Hd1 as [H0|Hd1].
    - rewrite H0 in Hm.
      destruct Hm as [->| ->];
        [change (Zdigits2 0) with 0|change (Zdigits2 (0 + 1)) with 1]; lia.
    - destruct Hm as [->| ->]; [lia|].
      pose proof (Zdigits2_succ (shr_m mrs1) Hm1'). lia. }
  assert (Hm0 : 0 <= m) by lia.
  pose proof (shr_fexp_spec m e1 loc_Exact Hm0) as H2. cbv zeta in H2.
  destruct (shr_fexp prec emax m e1 loc_Exact) as [mrs2 e2]. cbn [fst snd] in H2.
  destruct H2 as [He2 Hm2]. rewrite <- He2 in Hm2.
  assert (Hee2 : e1 <= e2) by lia.
  assert (He2' : e2 <= -1065) by (rewrite He2, fexp_eq; lia).
  assert (Hm2' : 0 <= shr_m mrs2).
  { rewrite Hm2. apply Z.div_pos; [lia|]. apply Z.pow_pos_nonneg; lia. }
  destruct (shr_m mrs2) as [|p|p] eqn:Hp; [by left| |lia].
  replace (e2 <=? emax - prec) with true
    by (symmetry; apply Z.leb_le; unfold emax, prec; lia).
  right. exists p, e2. split; [done|]. split; [|done].
  pose proof (Zdigits2_shift m (e2 - e1) Hm0 ltac:(lia) ltac:(lia)) as Hs.
  rewrite <- Hm2 in Hs. cbn [Zdigits2] in Hs. lia.
Qed.


Lemma div_tiny my ey mc ec :
  Z.pos (digits2_pos my) + ey <= -1012 ->
  2 ^ 52 <= Z.pos mc < 2 ^ 53 -> -51 <= ec ->
  Tiny (SFdiv prec emax (S754_finite false my ey) (S754_finite false mc ec)).
Proof.
  intros Hy Hc Hec. unfold SFdiv, SFdiv_core_binary. cbn [xorb Zdigits2].
  rewrite (digits2_unique mc 53) by (done || lia).
  set (d1 := Z.pos (digits2_pos my)) in *.
  set (e' := Z.min (fexp (d1 + ey - (53 + ec))) (ey - ec)).
  set (s := ey - ec - e').
  assert (Hs : 0 <= s) by (unfold s, e'; lia).
  assert (He' : e' <= -1065) by (unfold e'; rewrite fexp_eq; lia).
  set (m' := match s with Z.pos _ => Z.shiftl (Z.pos my) s | 0 => Z.pos my | Z.neg _ => 0 end).
  assert (Hm' : m' = Z.pos my * 2 ^ s).
  { unfold m'. destruct s as [|p|p] eqn:Hp; [lia| |lia].
    by rewrite Z.shiftl_mul_pow2. }
  assert (H2s : 0 < 2 ^ s) by (apply Z.pow_pos_nonneg; lia).
  destruct (digits2_bounds my) as [_ Hmy]. fold d1 in Hmy.
  assert (Hd1 : 0 < d1) by (unfold d1; lia).
  assert (Hm'hi : 0 < m' < 2 ^ (d1 + s)).
  { rewrite Hm', Z.pow_add_r by lia. split; [lia|].
    apply Z.mul_lt_mono_pos_r; lia. }
  pose proof (Z.div_mod m' (Z.pos mc) ltac:(lia)) as Hdm.
  pose proof (Z.mod_pos_bound m' (Z.pos mc) ltac:(lia)) as Hr.
  unfold Z.div, Z.modulo in Hdm, Hr.
  destruct (Z.div_eucl m' (Z.pos mc)) as [q r].
  assert (Hq : 0 <= q) by nia.
  apply round_aux_tiny; [done| |done].
  destruct (Z.eq_dec q 0) as [|Hne]; [by left|right].
  assert (Hge : 2 ^ 52 <= m') by nia.
  assert (Hk : 52 < d1 + s) by (apply (Z.pow_lt_mono_r_iff 2); lia).
  cut (Zdigits2 q <= d1 + s - 52); [unfold s; lia|].
  apply Zdigits2_le; [done|lia|].
  assert (E : 2 ^ (d1 + s) = 2 ^ 52 * 2 ^ (d1 + s - 52)).
  { rewrite <- Z.pow_add_r by lia. f_equal. lia. }
  assert (0 < 2 ^ (d1 + s - 52)) by (apply Z.pow_pos_nonneg; lia).
  nia.
Qed.


(** *** The numbers the divisions are made on *)

Lemma round_aux_sign q e l : NonPositive (binary_round_aux prec emax true q e l).
Proof.
  unfold binary_round_aux.
  destruct (shr_fexp prec emax q e l) as [mrs1 e1].
  destruct (shr_fexp prec emax _ e1 loc_Exact) as [mrs2 e2].
  destruct (shr_m mrs2); [done| |done]. by destruct (e2 <=? emax - prec).
Qed.

Lemma div_nonpos y c : Divisor c -> NonPositive y -> NonPositive (div y c).
Proof.
  intros (mc & ec & -> & _) Hy. unfold div, SFdiv.
  destruct y as [s|s| |s my ey]; cbn [NonPositive] in Hy |- *; try done; subst s.
  - by cbn.
  - cbn [xorb].
    destruct (SFdiv_core_binary prec emax (Z.pos my) ey (Z.pos mc) ec) as [[q e] l].
    apply round_aux_sign.
Qed.

Lemma div_regular y c : Divisor c -> Regular y -> Regular (div y c).
Proof.
  intros Hc [Hy|[Hy|[Hy| ->]]].
  - destruct Hc as (mc & ec & -> & Hmc & Heven & Hec).
    destruct Hy as (my & ey & -> & Hmy & Hey).
    destruct (div_normal_form my ey mc ec) as (q & r & mz & ez & _ & _ & Hdiv & Hmz & Hcases);
      [done|done|done|lia|lia|].
    unfold div. rewrite Hdiv.
    assert (Hez : ey - ec - 53 <= ez <= ey - ec - 51).
    { destruct Hcases as [[_ [(_ & _ & ->)|[(_ & _ & ->)|(_ & _ & _ & ->)]]]
                         |[_ (h & b & _ & _ & [(_ & ->)|[(_ & _ & ->)|(_ & _ & _ & ->)]])]]; lia. }
    destruct (Z_le_gt_dec (-1064) ez) as [Hn|Hs].
    + left. exists mz, ez. repeat split; (done || lia).
    + right. left. right. exists mz, ez. split; [done|].
      rewrite (digits2_unique mz 53) by (done || lia). lia.
  - right. left. destruct Hc as (mc & ec & -> & Hmc & Heven & Hec).
    destruct Hy as [->|(my & ey & -> & Hd & He)]; [by left|].
    apply div_tiny; (done || lia).
  - right. right. left. by apply div_nonpos.
  - right. right. right. by destruct Hc as (mc & ec & -> & _).
Qed.

Lemma valid_regular y : valid_binary prec emax y = true -> Regular y.
Proof.
  destruct y as [s|s| |s m e]; cbn [valid_binary]; intros Hv.
  - right. right. by left.
  - destruct s; [right; right; by left|by do 3 right].
  - right. right. by left.
  - destruct s; [right; right; by left|].
    unfold bounded, canonical_mantissa in Hv.
    apply andb_prop in Hv as [Hcan Hmax].
    apply Z.eqb_eq in Hcan. apply Z.leb_le in Hmax.
    rewrite fexp_eq in Hcan. unfold emax, prec in Hmax.
    destruct (Z_le_gt_dec (-1064) e) as [Hn|Hs].
    + left. exists m, e. split; [done|]. split; [|lia].
      pose proof (digits2_bounds m) as Hb.
      replace (Z.pos (digits2_pos m)) with 53 in Hb by lia. done.
    + right. left. right. exists m, e. split; [done|]. lia.
Qed.

Lemma Divisor_10 : Divisor (of_Z 10).
Proof. by exists 5629499534213120%positive, (-49). Qed.

Lemma Divisor_60 : Divisor (of_Z 60).
Proof. by exists 8444249301319680%positive, (-47). Qed.

Lemma Divisor_1000 : Divisor (of_Z 1000).
Proof. by exists 8796093022208000%positive, (-43). Qed.

Lemma SFleb_tiny m e z :
  -1064 <= e -> Tiny z -> SFleb (S754_finite false m e) z = false.
Proof.
  intros He [->|(mz & ez & -> & _ & Hez)]; [done|].
  rewrite SFleb_finite.
  replace (e <? ez) with false by (symmetry; apply Z.ltb_ge; lia).
  by replace (e =? ez) with false by (symmetry; apply Z.eqb_neq; lia).
Qed.

Lemma SFleb_nonpos m e z : NonPositive z -> SFleb (S754_finite false m e) z = false.
Proof. destruct z as [s|s| |s mz ez]; cbn; try done; by intros ->. Qed.

(** [y / c >= a] exactly when [y >= t], from the same fact on the
    numbers of the normal range. *)
Lemma threshold_regular a c t y :
  Divisor c ->
  (exists ma ea, a = S754_finite false ma ea /\ -1064 <= ea) ->
  (exists mt et, t = S754_finite false mt et /\ -1064 <= et) ->
  (forall my ey, 2 ^ 52 <= Z.pos my < 2 ^ 53 -> -1064 <= ey <= 971 ->
                 SFleb a (div (S754_finite false my ey) c)
                 = SFleb t (S754_finite false my ey)) ->
  Regular y -> SFleb a (div y c) = SFleb t y.
Proof.
  intros Hc (ma & ea & -> & Hea) (mt & et & -> & Het) Hnormal [Hy|[Hy|[Hy| ->]]].
  - destruct Hy as (my & ey & -> & Hmy & Hey). by apply Hnormal.
  - rewrite (SFleb_tiny mt et y) by done.
    assert (Hz : Regular (div y c)) by (apply div_regular; [done|right; by left]).
    assert (Hs : Tiny (div y c)).
    { destruct Hc as (mc & ec & -> & Hmc & Heven & Hec).
      destruct Hy as [->|(my & ey & -> & Hd & He)]; [by left|].
      apply div_tiny; (done || lia). }
    by apply SFleb_tiny.
  - rewrite (SFleb_nonpos mt et y) by done.
    apply SFleb_nonpos. by apply div_nonpos.
  - by destruct Hc as (mc & ec & -> & _).
Qed.

(** The three tests of the scale on the quotients are tests of the
    number of microseconds against 60,000,000, 1,000,000 and 1,000. *)
Theorem scale_thresholds us :
  Regular us ->
  let ms := div us (of_Z 1000) in
  let s := div ms (of_Z 1000) in
  let min := div s (of_Z 60) in
  SFleb (of_Z 1) min = SFleb (of_Z 60000000) us
  /\ SFleb (of_Z 1) s = SFleb (of_Z 1000000) us
  /\ SFleb (of_Z 1) ms = SFleb (of_Z 1000) us.
Proof.
  intros Hus ms s min.
  assert (Hms : Regular ms) by (apply div_regular; [apply Divisor_1000|done]).
  assert (Hs : Regular s) by (apply div_regular; [apply Divisor_1000|done]).
  split; [|split].
  - unfold min.
    rewrite (threshold_regular (of_Z 1) (of_Z 60) (of_Z 60) s);
      [|apply Divisor_60|by eexists _, _|by eexists _, _|apply threshold_60_1|done].
    unfold s.
    rewrite (threshold_regular (of_Z 60) (of_Z 1000) (of_Z 60000) ms);
      [|apply Divisor_1000|by eexists _, _|by eexists _, _|apply threshold_1000_60|done].
    unfold ms.
    apply (threshold_regular (of_Z 60000) (of_Z 1000) (of_Z 60000000) us);
      [apply Divisor_1000|by eexists _, _|by eexists _, _|apply threshold_1000_60000|done].
  - unfold s.
    rewrite (threshold_regular (of_Z 1) (of_Z 1000) (of_Z 1000) ms);
      [|apply Divisor_1000|by eexists _, _|by eexists _, _|apply threshold_1000_1|done].
    unfold ms.
    apply (threshold_regular (of_Z 1000) (of_Z 1000) (of_Z 1000000) us);
      [apply Divisor_1000|by eexists _, _|by eexists _, _|apply threshold_1000_1000|done].
  - unfold ms.
    apply (threshold_regular (of_Z 1) (of_Z 1000) (of_Z 1000) us);
      [apply Divisor_1000|by eexists _, _|by eexists _, _|apply threshold_1000_1|done].
Qed.


End Binary64.

(** ** Numbers: the sign of a zero is not observed by the classifier *)

Module NumberFacts.

Import Number.

(** Equal, or two zeros. *)
Definition same (x y : number) : Prop :=
x = y \/ exists s s', x = S754_zero s /\ y = S754_zero s'.

Lemma same_refl x : same x x.
Proof. by left. Qed.

Lemma gt_same x y c : same x y -> gt x c = gt y c.
Proof.
  intros [-> | (s & s' & -> & ->)]; [done|].
  unfold gt, SFltb. by destruct c as [sc|sc| |sc mc ec], s, s'.
Qed.

Lemma lt_same x y c : same x y -> lt x c = lt y c.
Proof.
  intros [-> | (s & s' & -> & ->)]; [done|].
  unfold lt, SFltb. by destruct c as [sc|sc| |sc mc ec], s, s'.
Qed.

Lemma div_same x y d : same x y -> same (div x d) (div y d).
Proof.
  intros [-> | (s & s' & -> & ->)]; [apply same_refl|].
  unfold div. destruct d as [sd|sd| |sd md ed]; cbn.
  - by left.
  - right. by eexists _, _.
  - by left.
  - right. by eexists _, _.
Qed.

(** [x || 0] on a Number that is not NaN. *)
Lemma default_zero_same x :
  x <> S754_nan -> same (if toBoolean x then x else zero) x.
Proof.
  intros Hx. destruct x as [s|s| |s m e]; cbn; [|apply same_refl|done|apply same_refl].
  right. by eexists _, _.
Qed.

(** [h || 1] is [max(h, 1)] on a count. *)
Lemma default_one_max h :
  toBoolean h = false /\ h <> S754_nan \/ ge h (of_Z 1) = true ->
  (if toBoolean h then h else of_Z 1) = max_one h.
Proof.
  unfold max_one. intros [[Hz Hn] | Hge].
  - rewrite Hz. by destruct h as [s|s| |s m e].
  - rewrite Hge. by destruct h as [s|s| |s m e].
Qed.

End NumberFacts.

(** ** The classifier *)

Section ClassifierFacts.

Context `{engine : Engine}.

Import Number NumberFacts.

Lemma or_else_stat v d :
  isStat v = true ->
  ToNumber (or_else v (JNum d))
  = if toBoolean (statValue v) then statValue v else d.
Proof.
  destruct v as [| |b|x|s|l|ps]; try done.
  intros _. unfold or_else. cbn. by destruct (toBoolean x).
Qed.

Lemma isStat_not_nan v : isStat v = true -> statValue v <> S754_nan.
Proof. destruct v as [| |b|x|s|l|ps]; try done. by destruct x. Qed.

Lemma classifyCell_object ps :
  classifyCell (JObj ps)
  = let field name := lookup_property name ps in
    let percent_runtime := ToNumber (or_else (field "percent_time") (JNum zero)) in
    let avg_time_per_hit :=
      div (ToNumber (or_else (field "total_time") (JNum zero)))
          (ToNumber (or_else (field "total_hits") (JNum (of_Z 1)))) in
    let total_hits := ToNumber (or_else (field "total_hits") (JNum zero)) in
    let mem_impact := ToNumber (or_else (field "memory_delta_mb") (JNum zero)) in
    Normal
      (if gt percent_runtime (of_Z 30) then "Performance-Critical"
       else if gt avg_time_per_hit (of_Z 1000) then "CPU-Intensive"
       else if gt total_hits (of_Z 10000) && lt avg_time_per_hit (of_Z 100)
       then "Loop-Intensive"
       else if gt mem_impact three_tenths then "Memory-Intensive"
       else "Normal").
Proof.
  unfold classifyCell. cbn [get bind].
  repeat match goal with |- context [if ?b then _ else _] =>
    lazymatch b with gt _ _ => destruct b | andb _ _ => destruct b end
  end; reflexivity.
Qed.

Lemma classifyCell_total v :
  v <> JUndefined -> v <> JNull ->
  exists category, classifyCell v = Normal category /\ category ∈ categories.
Proof.
  intros Hu Hn. unfold classifyCell, categories.
  destruct v as [| |b|x|s|l|ps]; try done; cbn [get bind];
    repeat match goal with |- context [if ?b then _ else _] =>
      lazymatch b with gt _ _ => destruct b | andb _ _ => destruct b end
    end; eexists; (split; [reflexivity|]); set_solver.
Qed.

Lemma classifyCell_stats ps :
  isStatsRecord ps = true ->
  classifyCell (JObj ps)
  = Normal (classify_rules (statValue (lookup_property "percent_time" ps))
              (statValue (lookup_property "total_time" ps))
              (statValue (lookup_property "total_hits" ps))
              (statValue (lookup_property "memory_delta_mb" ps))).
Proof.
  unfold isStatsRecord, isCount. intros H.
  apply andb_prop in H as [H Hmem]. apply andb_prop in H as [H Hhits].
  apply andb_prop in H as [Hpt Htt]. apply andb_prop in Hhits as [Hhits Hcount].
  rewrite classifyCell_object. cbv beta zeta.
  rewrite !or_else_stat by done.
  set (pt := statValue (lookup_property "percent_time" ps)).
  set (tt := statValue (lookup_property "total_time" ps)).
  set (th := statValue (lookup_property "total_hits" ps)).
  set (mem := statValue (lookup_property "memory_delta_mb" ps)).
  assert (Hden : (if toBoolean th then th else of_Z 1) = max_one th).
  { apply default_one_max. apply orb_prop in Hcount as [Hz|Hge]; [left|by right].
    split; [by apply negb_true_iff|by apply isStat_not_nan]. }
  rewrite Hden.
  pose proof (default_zero_same pt (isStat_not_nan _ Hpt)) as Spt.
  pose proof (default_zero_same tt (isStat_not_nan _ Htt)) as Stt.
  pose proof (default_zero_same th (isStat_not_nan _ Hhits)) as Sth.
  pose proof (default_zero_same mem (isStat_not_nan _ Hmem)) as Smem.
  pose proof (div_same _ _ (max_one th) Stt) as Savg.
  unfold classify_rules. cbv zeta.
  rewrite (gt_same _ _ (of_Z 30) Spt), (gt_same _ _ (of_Z 1000) Savg),
    (lt_same _ _ (of_Z 100) Savg), (gt_same _ _ (of_Z 10000) Sth),
    (gt_same _ _ three_tenths Smem).
  reflexivity.
Qed.

End ClassifierFacts.

(** C2: over any stats record (each field absent or a Number, the hit
    count zero or at least one) [classifyCell] returns the category of
    the five rules taken in order, absent fields read as 0 and the
    average taken over [max(total_hits, 1)]; it returns one of the five
    categories on every value that is not null or undefined; a record
    with [percent_time = 35] is Performance-Critical whatever else it
    holds, and the three records of the specification are CPU-Intensive,
    Loop-Intensive and Normal. *)
Theorem classifyCell_decision_table :
  (forall (engine : Engine) (ps : list (string * JSValue)),
      isStatsRecord ps = true ->
      classifyCell (JObj ps)
      = Normal (classify_rules (statValue (lookup_property "percent_time" ps))
                  (statValue (lookup_property "total_time" ps))
                  (statValue (lookup_property "total_hits" ps))
                  (statValue (lookup_property "memory_delta_mb" ps))))
  /\ (forall (engine : Engine) (v : JSValue),
         v <> JUndefined -> v <> JNull ->
         exists category, classifyCell v = Normal category /\ category ∈ categories)
  /\ (forall (engine : Engine) (ps : list (string * JSValue)),
         lookup_property "percent_time" ps = num 35 ->
         classifyCell (JObj ps) = Normal "Performance-Critical")
  /\ (forall engine : Engine,
         classifyCell (JObj [("total_time", num 5000); ("total_hits", num 1);
                             ("memory_delta_mb", num 0)])
         = Normal "CPU-Intensive")
  /\ (forall engine : Engine,
         classifyCell (JObj [("total_hits", num 20000); ("total_time", num 500)])
         = Normal "Loop-Intensive")
  /\ (forall engine : Engine,
         classifyCell (JObj [("percent_time", num 0); ("total_time", num 0);
                             ("total_hits", num 0); ("memory_delta_mb", num 0)])
         = Normal "Normal").
Proof.
  split; [intros; by apply classifyCell_stats|].
  split; [intros; by apply classifyCell_total|].
  split.
  { intros engine ps Hpt. rewrite classifyCell_object. cbv beta zeta. rewrite Hpt.
    by vm_compute. }
  repeat split; intros engine; by vm_compute.
Qed.

Lemma classifyCell_decision_table_witness :
  isStatsRecord sampleFields = true
  /\ @classifyCell tableEngine (JObj sampleFields)
     = Normal (classify_rules (statValue (lookup_property "percent_time" sampleFields))
                 (statValue (lookup_property "total_time" sampleFields))
                 (statValue (lookup_property "total_hits" sampleFields))
                 (statValue (lookup_property "memory_delta_mb" sampleFields))).
Proof.
  split; [by vm_compute|].
  apply (proj1 classifyCell_decision_table tableEngine sampleFields).
  by vm_compute.
Defined.

(** ** The time formatter *)

Section FormatFacts.

Context `{engine : Engine}.

Import Number.

Lemma formatTime_falsy v : truthy v = false -> formatTime v = "N/A".
Proof. intros H. unfold formatTime. by rewrite H. Qed.

Lemma parseFloat_truthy x : toBoolean x = true -> parseFloat (JNum x) = x.
Proof. by destruct x. Qed.

Lemma formatTime_number x :
  toBoolean x = true ->
  formatTime (JNum x)
  = let microseconds := div x (of_Z 10) in
    let milliseconds := div microseconds (of_Z 1000) in
    let seconds := div milliseconds (of_Z 1000) in
    let minutes := div seconds (of_Z 60) in
    if ge minutes (of_Z 1) then toFixed2 minutes +:+ " min"
    else if ge seconds (of_Z 1) then toFixed2 seconds +:+ " s"
    else if ge milliseconds (of_Z 1) then toFixed2 milliseconds +:+ " ms"
    else toFixed2 microseconds +:+ " µs".
Proof.
  intros H. unfold formatTime. cbn [truthy]. rewrite H. cbn [negb].
  by rewrite parseFloat_truthy.
Qed.

(** [formatTime(x || 0)] is [formatTime(x)]. *)
Lemma formatTime_or_zero v : formatTime (or_else v (JNum zero)) = formatTime v.
Proof.
  unfold or_else. destruct (truthy v) eqn:Hv; [done|].
  by rewrite (formatTime_falsy v Hv).
Qed.

End FormatFacts.

(** C6: [formatTime] answers "N/A" on every falsy input (absent, null,
    zero). On any other Number it divides by 10 to get microseconds and
    renders the first scale that matches, with two decimals: minutes
    when the microseconds are at least 60,000,000, else seconds when
    they are at least 1,000,000, else milliseconds when they are at
    least 1,000, else microseconds. [formatTime(0)] is "N/A",
    [formatTime(10000)] is "1.00 ms" and [formatTime(600000000)] is
    "1.00 min". *)
Theorem formatTime_scales :
  (forall (engine : Engine) (v : JSValue),
      truthy v = false -> formatTime v = "N/A")
  /\ (forall (engine : Engine) (x : Number.number),
         Number.valid x = true -> Number.toBoolean x = true ->
         let microseconds := Number.div x (Number.of_Z 10) in
         let milliseconds := Number.div microseconds (Number.of_Z 1000) in
         let seconds := Number.div milliseconds (Number.of_Z 1000) in
         let minutes := Number.div seconds (Number.of_Z 60) in
         formatTime (JNum x)
         = if Number.ge microseconds (Number.of_Z 60000000)
           then toFixed2 minutes +:+ " min"
           else if Number.ge microseconds (Number.of_Z 1000000)
           then toFixed2 seconds +:+ " s"
           else if Number.ge microseconds (Number.of_Z 1000)
           then toFixed2 milliseconds +:+ " ms"
           else toFixed2 microseconds +:+ " µs")
  /\ (forall engine : Engine,
         formatTime JUndefined = "N/A" /\ formatTime JNull = "N/A"
         /\ formatTime (num 0) = "N/A"
         /\ formatTime (num 10000) = "1.00 ms"
         /\ formatTime (num 600000000) = "1.00 min").
Proof.
  split; [intros; by apply formatTime_falsy|].
  split; [|intros engine; repeat split; by vm_compute].
  intros engine x Hvalid Htruthy. cbv zeta.
  rewrite formatTime_number by done. cbv zeta.
  assert (Hus : Number.Regular (Number.div x (Number.of_Z 10))).
  { apply Binary64.div_regular; [apply Binary64.Divisor_10|].
    by apply Binary64.valid_regular. }
  destruct (Binary64.scale_thresholds _ Hus) as (Hmin & Hs & Hms).
  unfold Number.ge. by rewrite Hmin, Hs, Hms.
Qed.

Lemma formatTime_scales_witness :
  Number.valid (Number.of_Z 10000) = true
  /\ Number.toBoolean (Number.of_Z 10000) = true
  /\ @formatTime tableEngine (num 10000) = "1.00 ms".
Proof.
  assert (Hvalid : Number.valid (Number.of_Z 10000) = true) by (by vm_compute).
  assert (Htruthy : Number.toBoolean (Number.of_Z 10000) = true) by (by vm_compute).
  split; [exact Hvalid|]. split; [exact Htruthy|].
  unfold num.
  rewrite (proj1 (proj2 formatTime_scales) tableEngine _ Hvalid Htruthy).
  by vm_compute.
Defined.

(** ** The builder *)

Section BuilderFacts.

Context `{engine : Engine}.

Lemma split_newline_nonempty s : JSString.split_newline s <> [].
Proof.
  induction s as [|c r IH]; cbn; [done|].
  destruct (Ascii.eqb c JSString.newline); [done|].
  by destruct (JSString.split_newline r).
Qed.

Lemma nth_last_line (lines : list string) lastLine :
  last lines = Some lastLine -> nth (length lines - 1) lines "" = lastLine.
Proof.
  rewrite last_lookup. replace (Init.Nat.pred (length lines)) with (length lines - 1) by lia.
  apply nth_lookup_Some.
Qed.

Lemma last_split_newline s : is_Some (last (JSString.split_newline s)).
Proof.
  pose proof (split_newline_nonempty s) as H.
  destruct (JSString.split_newline s) as [|l ls] using rev_ind; [done|].
  rewrite last_snoc. by eexists.
Qed.

(** What the range test tells about an entry that passes it. *)
Lemma entryInRange_line lines entry :
  entryInRange lines entry = true ->
  ParseInt.parseInt entry.1 = Some (Z.of_nat (entryLine entry) + 1)%Z
  /\ entryLine entry < length lines.
Proof.
  unfold entryInRange, entryLine, lineNumberOf, inRange.
  destruct (ParseInt.parseInt entry.1) as [n|]; [|done]. cbn.
  intros [H0 Hlt]%andb_prop.
  apply Z.leb_le in H0. apply Z.ltb_lt in Hlt.
  split; [f_equal; lia|lia].
Qed.

Lemma forEachLine_cons lines entry rest acc :
  forEachLine lines (entry :: rest) acc
  = if entryInRange lines entry
    then let* d := entryDecoration lines entry in
         forEachLine lines rest (acc ++ [d])
    else forEachLine lines rest acc.
Proof. by destruct entry. Qed.

(** The loop over the entries pushes the decorations of the entries in
    range, in order, and nothing else. *)
Lemma forEachLine_spec lines entries acc ds :
  forEachLine lines entries acc = Normal ds <->
  exists records,
    ds = acc ++ records
    /\ Forall2 (fun entry d => entryDecoration lines entry = Normal d)
         (filter (fun entry => entryInRange lines entry) entries) records.
Proof.
  revert acc ds. induction entries as [|entry rest IH]; intros acc ds.
  - rewrite filter_nil. cbn. split.
    + intros [= <-]. exists []. by rewrite app_nil_r.
    + intros (records & -> & H). apply Forall2_nil_inv_l in H as ->.
      by rewrite app_nil_r.
  - rewrite forEachLine_cons.
    destruct (entryInRange lines entry) eqn:Hin.
    + rewrite filter_cons_True by (by rewrite Hin).
      destruct (entryDecoration lines entry) as [d|e] eqn:Hd; cbn [bind].
      * rewrite IH. split.
        -- intros (records & -> & H). exists (d :: records).
           rewrite <- app_assoc. split; [done|]. by constructor.
        -- intros (records & -> & H). apply Forall2_cons_inv_l in H
             as (d' & records' & Hd' & H & ->).
           assert (d' = d) as -> by congruence.
           exists records'. by rewrite <- app_assoc.
      * split; [done|]. intros (records & _ & H).
        apply Forall2_cons_inv_l in H as (d' & records' & Hd' & _). congruence.
    + rewrite filter_cons_False by (rewrite Hin; intros []). apply IH.
Qed.

Lemma forEachLine_succeeds lines entries :
  Forall (fun entry => entryInRange lines entry = true ->
                       exists d, entryDecoration lines entry = Normal d) entries ->
  exists records, forEachLine lines entries [] = Normal records.
Proof.
  intros H.
  cut (exists records,
          Forall2 (fun entry d => entryDecoration lines entry = Normal d)
            (filter (fun entry => entryInRange lines entry) entries) records).
  { intros [records Hr]. exists records. apply forEachLine_spec. by exists records. }
  induction H as [|entry rest Hentry _ [records IH]]; [by exists []|].
  destruct (entryInRange lines entry) eqn:Hin.
  - destruct (Hentry eq_refl) as [d Hd]. exists (d :: records).
    rewrite filter_cons_True by (by rewrite Hin). by constructor.
  - exists records. by rewrite filter_cons_False by (rewrite Hin; intros []).
Qed.

Lemma length_filter_all {A} (P : A -> Prop) `{forall x, Decision (P x)} (l : list A) :
  length (filter P l) = length l <-> Forall P l.
Proof.
  split.
  - intros Hlen. apply Forall_forall. intros x Hx.
    destruct (decide (P x)) as [|Hn]; [done|].
    pose proof (length_filter_lt P l x Hx Hn). lia.
  - induction 1 as [|x l' Hx _ IH]; [done|].
    rewrite filter_cons_True by done. cbn. by rewrite IH.
Qed.

(** The decorations stored for a cell are its line records followed by
    its summary. *)
Lemma cellDecorations_inv cellData textDocument ds :
  cellDecorations cellData textDocument = Normal ds ->
  exists lineStats entries records summary,
    get cellData "lines" = Normal lineStats
    /\ Object_entries lineStats = Normal entries
    /\ forEachLine (JSString.split_newline (getText textDocument)) entries []
       = Normal records
    /\ summaryDecoration (JSString.split_newline (getText textDocument)) cellData
       = Normal summary
    /\ ds = records ++ [summary].
Proof.
  unfold cellDecorations.
  destruct (get cellData "lines") as [lineStats|] eqn:H1; [|done]. cbn.
  destruct (Object_entries lineStats) as [entries|] eqn:H2; [|done]. cbn.
  destruct (forEachLine _ entries []) as [records|] eqn:H3; [|done]. cbn.
  destruct (summaryDecoration _ cellData) as [summary|] eqn:H4; [|done]. cbn.
  intros [= <-]. by exists lineStats, entries, records, summary.
Qed.

Lemma summaryDecoration_inv lines cellData summary :
  summaryDecoration lines cellData = Normal summary ->
  exists total_time total_hits category,
    get cellData "total_time" = Normal total_time
    /\ get cellData "total_hits" = Normal total_hits
    /\ classifyCell cellData = Normal category
    /\ summary
       = {| line := length lines - 1;
            character := JSString.length (nth (length lines - 1) lines "");
            contentText :=
              " | " +:+ ("Total time: ⏱ " +:+ formatTime (or_else total_time (JNum Number.zero))
              +:+ " | Total hits: " +:+ ToString (or_else total_hits (JNum Number.zero))
              +:+ " | Classification: " +:+ category);
            color := colorForCategory category; fontStyle := "italic";
            margin := "0 0 0 1rem"; fontWeight := "bold" |}.
Proof.
  unfold summaryDecoration.
  destruct (get cellData "total_time") as [total_time|] eqn:H1; [|done]. cbn.
  destruct (get cellData "total_hits") as [total_hits|] eqn:H2; [|done]. cbn.
  destruct (classifyCell cellData) as [category|] eqn:H3; [|done]. cbn.
  intros [= <-]. by exists total_time, total_hits, category.
Qed.

Lemma summaryDecoration_succeeds lines cellData :
  cellData <> JUndefined -> cellData <> JNull ->
  exists summary, summaryDecoration lines cellData = Normal summary.
Proof.
  intros Hu Hn. destruct (classifyCell_total cellData Hu Hn) as (category & Hc & _).
  unfold summaryDecoration. rewrite Hc.
  destruct cellData; try done; cbn; by eexists.
Qed.

Lemma lineDecoration_inv lines n lineData d :
  lineDecoration lines n lineData = Normal d ->
  exists category time percent,
    classifyCell lineData = Normal category
    /\ get lineData "time" = Normal time
    /\ get lineData "percent" = Normal percent
    /\ (truthy percent = false \/ exists x, percent = JNum x)
    /\ d = {| line := n; character := JSString.length (nth n lines "");
              contentText := lineText time percent;
              color := colorForCategory category; fontStyle := "italic";
              margin := "0 0 0 1rem"; fontWeight := "bold" |}.
Proof.
  unfold lineDecoration, percentText.
  destruct (classifyCell lineData) as [category|] eqn:H1; [|done]. cbn.
  destruct (get lineData "time") as [time|] eqn:H2; [|done]. cbn.
  destruct (get lineData "percent") as [percent|] eqn:H3; [|done]. cbn.
  destruct (truthy percent) eqn:H4.
  - destruct percent as [| |b|x|s|l|ps]; try done. cbn. intros [= <-].
    exists category, time, (JNum x). repeat split; eauto.
    unfold lineText. cbn in H4. by rewrite H4.
  - cbn. intros [= <-]. exists category, time, percent. repeat split; eauto.
    unfold lineText. destruct percent as [| |b|x|s|l|ps]; try done.
    cbn in H4. by rewrite H4.
Qed.

(** A line record stands at the line its entry names. *)
Lemma records_in_range lines entries records :
  Forall2 (fun entry d => entryDecoration lines entry = Normal d)
    (filter (fun entry => entryInRange lines entry) entries) records ->
  Forall2 (fun entry d =>
             entryDecoration lines entry = Normal d
             /\ ParseInt.parseInt entry.1 = Some (Z.of_nat (line d) + 1)%Z
             /\ line d < length lines)
    (filter (fun entry => entryInRange lines entry) entries) records.
Proof.
  revert records. induction entries as [|entry rest IH]; intros records.
  - rewrite filter_nil. intros ->%Forall2_nil_inv_l. constructor.
  - destruct (entryInRange lines entry) eqn:Hin.
    + rewrite filter_cons_True by (by rewrite Hin).
      intros (d & records' & Hd & H & ->)%Forall2_cons_inv_l.
      constructor; [|by apply IH].
      split; [done|].
      apply lineDecoration_inv in Hd as (? & ? & ? & _ & _ & _ & _ & ->). cbn.
      by apply entryInRange_line.
    + rewrite filter_cons_False by (rewrite Hin; intros []). apply IH.
Qed.

End BuilderFacts.

(** C3: the decorations of a processed cell are line records followed
    by one summary; the line records are those of the entries of
    [cellData.lines] whose key, read as a 1-based line number and
    turned into a 0-based index, lies within the split source, one per
    such entry and in the order of the entries; an entry out of range
    adds nothing and raises nothing, so there are at most as many line
    records as entries, and as many exactly when every entry is in
    range. A cell of three lines with report lines 1 and 3 gets two
    line records and the summary, at lines 0, 2 and 2. *)
Theorem line_records_of_entries :
  (forall (engine : Engine) (cellData : JSValue) (textDocument : TextDocument)
          (ds : list Decoration),
      cellDecorations cellData textDocument = Normal ds ->
      let lines := JSString.split_newline (getText textDocument) in
      exists lineStats entries records summary,
        get cellData "lines" = Normal lineStats
        /\ Object_entries lineStats = Normal entries
        /\ ds = records ++ [summary]
        /\ Forall2 (fun entry d =>
                      entryDecoration lines entry = Normal d
                      /\ ParseInt.parseInt entry.1 = Some (Z.of_nat (line d) + 1)%Z
                      /\ line d < length lines)
             (filter (fun entry => entryInRange lines entry) entries) records
        /\ length records <= length entries
        /\ (length records = length entries
            <-> Forall (fun entry => entryInRange lines entry) entries))
  /\ (forall (engine : Engine) (lines : list string)
             (entries : list (string * JSValue)),
         Forall (fun entry => entryInRange lines entry = true ->
                              exists d, entryDecoration lines entry = Normal d)
           entries ->
         exists records, forEachLine lines entries [] = Normal records)
  /\ (forall (engine : Engine) (cellData : JSValue) (textDocument : TextDocument)
             (line1 line3 : JSValue) (ds : list Decoration),
         length (JSString.split_newline (getText textDocument)) = 3 ->
         get cellData "lines" = Normal (JObj [("1", line1); ("3", line3)]) ->
         cellDecorations cellData textDocument = Normal ds ->
         line <$> ds = [0; 2; 2])
  /\ @cellDecorations tableEngine sampleCell sampleDocument = Normal sampleDecorations.
Proof.
  split; [|split; [|split]].
  - intros engine cellData textDocument ds Hds lines.
    apply cellDecorations_inv in Hds
      as (lineStats & entries & records & summary & H1 & H2 & H3 & H4 & ->).
    apply forEachLine_spec in H3 as (records' & -> & H3). cbn [app] in *.
    exists lineStats, entries, records', summary.
    split; [done|]. split; [done|]. split; [done|].
    assert (Hlen : length records'
                   = length (filter (fun entry => entryInRange lines entry) entries))
      by (symmetry; by eapply Forall2_length).
    split; [by apply records_in_range|]. rewrite Hlen. split.
    + apply length_filter.
    + apply length_filter_all.
  - intros engine lines entries. apply forEachLine_succeeds.
  - intros engine cellData textDocument line1 line3 ds Hlen Hlines Hds.
    apply cellDecorations_inv in Hds
      as (lineStats & entries & records & summary & H1 & H2 & H3 & H4 & ->).
    rewrite Hlines in H1. injection H1 as <-. cbn in H2. injection H2 as <-.
    apply forEachLine_spec in H3 as (records' & -> & H3). cbn [app] in *.
    apply records_in_range in H3.
    assert (Hin : forall key lineData,
               ParseInt.parseInt key = Some 1%Z \/ ParseInt.parseInt key = Some 3%Z ->
               entryInRange (JSString.split_newline (getText textDocument))
                 (key, lineData) = true).
    { intros key lineData Hkey. unfold entryInRange, lineNumberOf, inRange. cbn [fst].
      rewrite Hlen. by destruct Hkey as [-> | ->]. }
    rewrite !filter_cons_True, filter_nil in H3
      by (rewrite Hin; [done|by (left + right)]).
    apply Forall2_cons_inv_l in H3 as (d1 & rest & (_ & Hk1 & _) & H3 & ->).
    apply Forall2_cons_inv_l in H3 as (d3 & rest' & (_ & Hk3 & _) & H3 & ->).
    apply Forall2_nil_inv_l in H3 as ->.
    apply summaryDecoration_inv in H4 as (? & ? & ? & _ & _ & _ & ->).
    change (ParseInt.parseInt ("1", line1).1) with (Some 1%Z) in Hk1.
    change (ParseInt.parseInt ("3", line3).1) with (Some 3%Z) in Hk3.
    injection Hk1 as Hk1. injection Hk3 as Hk3.
    cbn [app fmap list_fmap line]. rewrite Hlen.
    replace (line d1) with 0 by lia. by replace (line d3) with 2 by lia.
  - by vm_compute.
Qed.

Lemma line_records_of_entries_witness :
  @cellDecorations tableEngine sampleCell sampleDocument = Normal sampleDecorations
  /\ exists records summary,
       sampleDecorations = records ++ [summary]
       /\ length records <= length sampleLines.
Proof.
  assert (H : @cellDecorations tableEngine sampleCell sampleDocument
              = Normal sampleDecorations) by (by vm_compute).
  split; [exact H|].
  destruct (proj1 line_records_of_entries tableEngine sampleCell sampleDocument
              sampleDecorations H)
    as (lineStats & entries & records & summary & H1 & H2 & H3 & _ & H5 & _).
  exists records, summary. split; [exact H3|].
  cbn in H1. injection H1 as <-. cbn in H2. injection H2 as <-. exact H5.
Defined.

(** C4: the decorations of a processed cell end with exactly one
    summary, after all the line records of the cell; it stands on the
    last line ([lineCount - 1]) at the column that is the length of
    that line, its text is " | Total time: ⏱ " then the formatted
    [total_time], " | Total hits: " then [total_hits] (0 when absent),
    " | Classification: " then the category of the cell-level stats,
    and its color is the color of that category. *)
Theorem cell_summary_last :
  forall (engine : Engine) (cellData : JSValue) (textDocument : TextDocument)
         (ds : list Decoration),
    cellDecorations cellData textDocument = Normal ds ->
    let lines := JSString.split_newline (getText textDocument) in
    exists lineStats entries records summary lastLine total_time total_hits category,
      get cellData "lines" = Normal lineStats
      /\ Object_entries lineStats = Normal entries
      /\ forEachLine lines entries [] = Normal records
      /\ ds = records ++ [summary]
      /\ last lines = Some lastLine
      /\ line summary = length lines - 1
      /\ character summary = JSString.length lastLine
      /\ get cellData "total_time" = Normal total_time
      /\ get cellData "total_hits" = Normal total_hits
      /\ classifyCell cellData = Normal category
      /\ contentText summary
         = " | Total time: ⏱ " +:+ formatTime total_time
           +:+ " | Total hits: " +:+ ToString (or_else total_hits (JNum Number.zero))
           +:+ " | Classification: " +:+ category
      /\ color summary = colorForCategory category.
Proof.
  intros engine cellData textDocument ds Hds lines.
  apply cellDecorations_inv in Hds
    as (lineStats & entries & records & summary & H1 & H2 & H3 & H4 & ->).
  apply summaryDecoration_inv in H4
    as (total_time & total_hits & category & Ht & Hh & Hc & ->).
  destruct (last_split_newline (getText textDocument)) as [lastLine Hlast].
  eexists lineStats, entries, records, _, lastLine, total_time, total_hits, category.
  do 3 (split; [done|]). split; [reflexivity|].
  cbn [line character contentText color]. fold lines.
  rewrite (nth_last_line lines lastLine Hlast), formatTime_or_zero.
  repeat split; done.
Qed.

Lemma cell_summary_last_witness :
  @cellDecorations tableEngine sampleCell sampleDocument = Normal sampleDecorations
  /\ exists records summary,
       sampleDecorations = records ++ [summary]
       /\ line summary = 2 /\ character summary = 5
       /\ contentText summary
          = " | Total time: ⏱ 50.00 µs | Total hits: 20000 | Classification: Loop-Intensive".
Proof.
  assert (H : @cellDecorations tableEngine sampleCell sampleDocument
              = Normal sampleDecorations) by (by vm_compute).
  split; [exact H|].
  destruct (cell_summary_last tableEngine sampleCell sampleDocument
              sampleDecorations H)
    as (lS & es & records & summary & lastLine & tt & th & cat
        & _ & _ & _ & Hds & _ & Hline & _).
  exists records, summary. split; [exact Hds|].
  destruct (app_inj_tail [sampleRecord1; sampleRecord3] records
              sampleSummary summary Hds) as [_ Hsummary].
  subst summary. repeat split; reflexivity.
Defined.

(** C7, as amended: every line record stands at the 0-based line its
    entry names, at the column that is the length of that line; its
    text is "⏱ ", the formatted [time], two spaces, "| ⚡ ", then
    [percent] with two decimals, or N/A when [percent] is absent or
    zero, and "%"; its color is the color of the category of the line's
    data, by the table red, orange, green, purple, and gray for Normal
    and for any other string. *)
Theorem line_record_content :
  (forall (engine : Engine) (lines : list string)
          (entries : list (string * JSValue)) (records : list Decoration),
      forEachLine lines entries [] = Normal records ->
      Forall (fun d =>
                exists key lineData sourceLine time percent category,
                  (key, lineData) ∈ entries
                  /\ ParseInt.parseInt key = Some (Z.of_nat (line d) + 1)%Z
                  /\ lines !! line d = Some sourceLine
                  /\ character d = JSString.length sourceLine
                  /\ get lineData "time" = Normal time
                  /\ get lineData "percent" = Normal percent
                  /\ (truthy percent = false \/ exists x, percent = JNum x)
                  /\ classifyCell lineData = Normal category
                  /\ contentText d = lineText time percent
                  /\ color d = colorForCategory category)
        records)
  /\ (forall engine : Engine,
         colorForCategory "Performance-Critical" = "red"
         /\ colorForCategory "CPU-Intensive" = "orange"
         /\ colorForCategory "Loop-Intensive" = "green"
         /\ colorForCategory "Memory-Intensive" = "purple"
         /\ colorForCategory "Normal" = "gray"
         /\ forall category,
              category ∉ ["Performance-Critical"; "CPU-Intensive";
                          "Loop-Intensive"; "Memory-Intensive"] ->
              colorForCategory category = "gray").
Proof.
  split.
  - intros engine lines entries records H.
    apply forEachLine_spec in H as (records' & -> & H). cbn [app].
    apply records_in_range in H.
    apply Forall_forall. intros d Hd.
    apply list_elem_of_lookup in Hd as [i Hi].
    destruct (Forall2_lookup_r _ _ _ _ _ H Hi)
      as ([key lineData] & Hentry & Hdec & Hkey & Hlt).
    apply list_elem_of_lookup_2, list_elem_of_filter in Hentry as [_ Hentry].
    apply lineDecoration_inv in Hdec
      as (category & time & percent & Hc & Ht & Hp & Hnum & ->).
    cbn [line character contentText color] in *.
    destruct (lookup_lt_is_Some_2 lines _ Hlt) as [sourceLine Hline].
    exists key, lineData, sourceLine, time, percent, category.
    rewrite (nth_lookup_Some _ _ _ _ Hline). repeat split; done.
  - intros engine. repeat split.
    intros category Hc. unfold colorForCategory.
    repeat match goal with |- context [String.eqb ?a ?b] =>
      destruct (String.eqb_spec a b) as [->|_]; [exfalso; apply Hc; set_solver|]
    end.
    done.
Qed.

Lemma line_record_content_witness :
  @forEachLine tableEngine (JSString.split_newline (getText sampleDocument))
    sampleLines [] = Normal [sampleRecord1; sampleRecord3]
  /\ Forall (fun d => exists time percent,
                        contentText d = @lineText tableEngine time percent)
       [sampleRecord1; sampleRecord3].
Proof.
  assert (H : @forEachLine tableEngine
                (JSString.split_newline (getText sampleDocument)) sampleLines []
              = Normal [sampleRecord1; sampleRecord3]) by (by vm_compute).
  split; [exact H|].
  eapply Forall_impl; [exact (proj1 line_record_content tableEngine _ _ _ H)|].
  intros d (key & lineData & sourceLine & time & percent & category & Hd).
  exists time, percent. apply Hd.
Defined.

(** C7 as the specification words it fails on the extension: it writes
    two spaces before the bar where the specification has one, and N/A
    for a percent that is present and zero. *)
Lemma line_text_differs_from_spec :
  (exists d,
      @lineDecoration tableEngine ["x = 1"] 0
        (JObj [("time", num 10000); ("percent", ratio 25 2)]) = Normal d
      /\ contentText d = "⏱ 1.00 ms  | ⚡ 12.50%"
      /\ @specLineText tableEngine (num 10000) (ratio 25 2) = "⏱ 1.00 ms | ⚡ 12.50%"
      /\ contentText d <> @specLineText tableEngine (num 10000) (ratio 25 2))
  /\ (exists d,
         @lineDecoration tableEngine ["x = 1"] 0
           (JObj [("time", num 10000); ("percent", num 0)]) = Normal d
         /\ contentText d = "⏱ 1.00 ms  | ⚡ N/A%"
         /\ @specLineText tableEngine (num 10000) (num 0) = "⏱ 1.00 ms | ⚡ 0.00%").
Proof.
  split; eexists; (split; [by vm_compute|]); by vm_compute.
Qed.

(** ** The run and the store *)

Section RunFacts.

Context `{engine : Engine}.

Local Abbreviation insertPair :=
  (fun (m : gmap string (list Decoration)) kv => <[kv.1 := kv.2]> m).

(** The loop ends normally exactly when the builder does, and has then
    inserted what was built, in order. *)
Lemma forCells_build profilingCells cells cellIndex map map' :
  forCells profilingCells cells cellIndex map = (map', None) <->
  exists built,
    build profilingCells cells cellIndex = Normal built
    /\ map' = foldl insertPair map built.
Proof.
  revert cellIndex map.
  induction cells as [|cell rest IH]; intros cellIndex map; cbn [forCells build].
  - split.
    + intros [= <-]. by exists [].
    + by intros (built & [= <-] & ->).
  - unfold processCell.
    destruct (get_index profilingCells cellIndex) as [cellData|e]; cbn [bind];
      [|split; [done|by intros (? & ? & _)]].
    destruct (processed cell cellData) as [textDocument|]; [|apply IH].
    destruct (cellDecorations cellData textDocument) as [decorations|e]; cbn [bind];
      [|split; [done|by intros (? & ? & _)]].
    rewrite IH. split.
    + intros (built & -> & ->). by eexists.
    + intros (built & Hb & ->).
      destruct (build profilingCells rest (S cellIndex)) as [others|]; [|done].
      injection Hb as <-. by exists others.
Qed.

Lemma foldl_insert_notin built (map : gmap string (list Decoration)) docUri :
  docUri ∉ built.*1 -> foldl insertPair map built !! docUri = map !! docUri.
Proof.
  revert map. induction built as [|[k v] rest IH]; intros map Hnot; [done|].
  cbn in *. apply not_elem_of_cons in Hnot as [Hne Hnot].
  rewrite IH by done. by rewrite lookup_insert_ne.
Qed.

Lemma foldl_insert_last pre docUri decorations post
    (map : gmap string (list Decoration)) :
  docUri ∉ post.*1 ->
  foldl insertPair map (pre ++ (docUri, decorations) :: post) !! docUri
  = Some decorations.
Proof.
  intros Hnot. rewrite foldl_app. cbn [foldl].
  rewrite foldl_insert_notin by done. apply lookup_insert_eq.
Qed.

Lemma foldl_insert_Some built (map : gmap string (list Decoration)) docUri decorations :
  foldl insertPair map built !! docUri = Some decorations ->
  (docUri, decorations) ∈ built \/ map !! docUri = Some decorations.
Proof.
  revert map. induction built as [|[k v] rest IH]; intros map H; [by right|].
  cbn in H. apply IH in H as [H|H]; [left; by right|].
  destruct (decide (k = docUri)) as [->|Hne].
  - rewrite lookup_insert_eq in H. injection H as ->. left. by left.
  - rewrite lookup_insert_ne in H by done. by right.
Qed.

Lemma foldl_insert_is_Some built (map : gmap string (list Decoration)) docUri :
  docUri ∈ built.*1 -> is_Some (foldl insertPair map built !! docUri).
Proof.
  revert map. induction built as [|[k v] rest IH]; intros map Hin.
  - by apply elem_of_nil in Hin.
  - cbn in *. destruct (decide (docUri ∈ rest.*1)) as [Hrest|Hrest]; [by apply IH|].
    apply elem_of_cons in Hin as [->|Hin]; [|done].
    rewrite foldl_insert_notin by done. rewrite lookup_insert_eq. by eexists.
Qed.

(** What a run that ends with the success message has done. *)
Lemma annotate_success raw allCells st st' :
  annotate raw allCells st = (st', AnnotationsAdded) ->
  exists profilingData profilingCells built,
    JSON_parse raw = Some profilingData
    /\ get profilingData "cells" = Normal profilingCells
    /\ build profilingCells allCells 0 = Normal built
    /\ st' = {| cellDecorationsMap := replaceAll built;
                hoverProviderRegistered := true |}.
Proof.
  unfold annotate.
  destruct (JSON_parse raw) as [profilingData|] eqn:Hparse; [|done].
  destruct (get profilingData "cells") as [profilingCells|] eqn:Hcells; [|done].
  destruct (forCells profilingCells allCells 0 ∅) as [map [e|]] eqn:Hloop; [done|].
  intros [= <-]. apply forCells_build in Hloop as (built & Hb & ->).
  by exists profilingData, profilingCells, built.
Qed.

(** What the run does to the map does not depend on the state it
    starts from; the flag of the hover provider is kept or set. *)
Lemma annotate_from_any_state raw allCells st1 st2 :
  cellDecorationsMap (annotate raw allCells st1).1
  = cellDecorationsMap (annotate raw allCells st2).1
  /\ (annotate raw allCells st1).2 = (annotate raw allCells st2).2.
Proof.
  unfold annotate.
  destruct (JSON_parse raw) as [profilingData|]; [|done].
  destruct (get profilingData "cells") as [profilingCells|]; [|done].
  by destruct (forCells profilingCells allCells 0 ∅) as [map [e|]].
Qed.

Lemma annotate_twice raw allCells st :
  annotate raw allCells (annotate raw allCells st).1 = annotate raw allCells st.
Proof.
  unfold annotate.
  destruct (JSON_parse raw) as [profilingData|]; [|done].
  destruct (get profilingData "cells") as [profilingCells|]; [|done].
  by destruct (forCells profilingCells allCells 0 ∅) as [map [e|]].
Qed.

End RunFacts.

(** C8: a run that ends with the success message leaves in the store
    exactly what it built, whatever the store held before: a document
    is in the store if and only if the run built decorations for it,
    its entry is the sequence built for it (the last one, should two
    cells share a document), and a document of an earlier run that the
    run did not touch is absent. The store, a map, holds at most one
    entry per document in every state. *)
Theorem successful_run_replaces_store :
  (forall (engine : Engine) (raw : string) (allCells : list NotebookCell)
          (st st' : ExtensionState),
      annotate raw allCells st = (st', AnnotationsAdded) ->
      exists profilingData profilingCells built,
        JSON_parse raw = Some profilingData
        /\ get profilingData "cells" = Normal profilingCells
        /\ build profilingCells allCells 0 = Normal built
        /\ cellDecorationsMap st' = replaceAll built
        /\ (forall docUri, is_Some (cellDecorationsMap st' !! docUri)
                           <-> docUri ∈ built.*1)
        /\ (forall docUri decorations,
               cellDecorationsMap st' !! docUri = Some decorations ->
               (docUri, decorations) ∈ built)
        /\ (forall pre docUri decorations post,
               built = pre ++ (docUri, decorations) :: post ->
               docUri ∉ post.*1 ->
               cellDecorationsMap st' !! docUri = Some decorations)
        /\ (forall docUri, docUri ∉ built.*1 ->
                           cellDecorationsMap st' !! docUri = None))
  /\ (forall st : ExtensionState,
         NoDup (map_to_list (cellDecorationsMap st)).*1).
Proof.
  split; [|intros st; apply NoDup_fst_map_to_list].
  intros engine raw allCells st st' Hrun.
  apply annotate_success in Hrun
    as (profilingData & profilingCells & built & Hparse & Hcells & Hbuilt & ->).
  exists profilingData, profilingCells, built. cbn [cellDecorationsMap].
  unfold replaceAll. repeat split; try done.
  - intros [decorations H]. apply foldl_insert_Some in H as [H|H]; [|done].
    apply list_elem_of_fmap. by exists (docUri, decorations).
  - apply foldl_insert_is_Some.
  - intros docUri decorations H. by apply foldl_insert_Some in H as [H|H].
  - intros pre docUri decorations post -> Hnot. by apply foldl_insert_last.
  - intros docUri Hnot. by rewrite foldl_insert_notin.
Qed.

Lemma successful_run_replaces_store_witness :
  @annotate tableEngine sampleText sampleNotebook earlierState
  = ({| cellDecorationsMap := {[ uri sampleDocument := sampleDecorations ]};
        hoverProviderRegistered := true |}, AnnotationsAdded)
  /\ ({[ uri sampleDocument := sampleDecorations ]} : gmap string (list Decoration))
       !! "vscode-notebook-cell:/old.ipynb#W0" = None.
Proof.
  assert (H : @annotate tableEngine sampleText sampleNotebook earlierState
              = ({| cellDecorationsMap := {[ uri sampleDocument := sampleDecorations ]};
                    hoverProviderRegistered := true |}, AnnotationsAdded))
    by (by vm_compute).
  split; [exact H|].
  destruct (proj1 successful_run_replaces_store tableEngine _ _ _ _ H)
    as (profilingData & profilingCells & built & Hparse & Hcells & Hbuilt & _
        & _ & _ & _ & Habsent).
  apply Habsent.
  injection Hparse as <-. injection Hcells as <-.
  assert (Hb : @build tableEngine (JArr [sampleCell]) sampleNotebook 0
               = Normal [(uri sampleDocument, sampleDecorations)]) by (by vm_compute).
  rewrite Hb in Hbuilt. injection Hbuilt as <-.
  cbn [fmap list_fmap fst]. intros Hin%list_elem_of_singleton. discriminate Hin.
Defined.

(** C9: running the pipeline a second time on the same notebook and
    report gives the same store and the same message as the first run;
    the store a run leaves does not depend on the state it started
    from. *)
Theorem run_twice_same_store :
  forall (engine : Engine) (error outputExists : bool) (raw : string)
         (allCells : list NotebookCell) (st other : ExtensionState),
    let once := onProfilerExit error outputExists raw allCells st in
    let twice := onProfilerExit error outputExists raw allCells once.1 in
    twice = once
    /\ cellDecorationsMap (annotate raw allCells other).1
       = cellDecorationsMap (annotate raw allCells st).1.
Proof.
  intros engine error outputExists raw allCells st other. cbv zeta. split.
  - unfold onProfilerExit. destruct error; [done|]. destruct outputExists; [|done].
    cbn [negb]. apply annotate_twice.
  - apply annotate_from_any_state.
Qed.

(** ** The hover provider *)

Section HoverFacts.

Lemma find_first_match {A} (f : A -> bool) pre x post :
  f x = true -> Forall (fun y => f y = false) pre ->
  find f (pre ++ x :: post) = Some x.
Proof.
  intros Hx Hpre. induction Hpre as [|y pre Hy _ IH]; cbn.
  - by rewrite Hx.
  - by rewrite Hy.
Qed.

Lemma find_no_match {A} (f : A -> bool) l :
  Forall (fun y => f y = false) l -> find f l = None.
Proof. induction 1 as [|y l Hy _ IH]; cbn; [done|by rewrite Hy]. Qed.

(** The first element that satisfies a decidable property. *)
Lemma Exists_first {A} (P : A -> Prop) `{forall x, Decision (P x)} l :
  Exists P l ->
  exists pre x post, l = pre ++ x :: post /\ P x /\ Forall (fun y => ~ P y) pre.
Proof.
  induction l as [|y l IH]; intros HE; [by apply Exists_nil in HE|].
  destruct (decide (P y)) as [Hy|Hy].
  - by exists [], y, l.
  - apply Exists_cons in HE as [?|HE]; [done|].
    destruct (IH HE) as (pre & x & post & -> & Hx & Hpre).
    exists (y :: pre), x, post. repeat split; [done|]. by constructor.
Qed.

Lemma provideHover_first (map : gmap string (list Decoration)) docUri position
    decorations pre d post :
  map !! docUri = Some decorations ->
  decorations = pre ++ d :: post ->
  line d = position_line position ->
  Forall (fun d' => line d' <> position_line position) pre ->
  provideHover map docUri position = Some (contentText d).
Proof.
  intros Hmap -> Hd Hpre. unfold provideHover. rewrite Hmap.
  rewrite (find_first_match _ pre d post); [done|by apply Nat.eqb_eq|].
  eapply Forall_impl; [exact Hpre|]. intros d' Hd'. by apply Nat.eqb_neq.
Qed.

Lemma provideHover_none (map : gmap string (list Decoration)) docUri position
    decorations :
  map !! docUri = Some decorations ->
  Forall (fun d' => line d' <> position_line position) decorations ->
  provideHover map docUri position = None.
Proof.
  intros Hmap Hall. unfold provideHover. rewrite Hmap.
  rewrite find_no_match; [done|].
  eapply Forall_impl; [exact Hall|]. intros d' Hd'. by apply Nat.eqb_neq.
Qed.

(** A line record and a summary never have the same text. *)
Lemma lineText_not_summary `{engine : Engine} time percent rest :
  lineText time percent <> " | " +:+ rest.
Proof. unfold lineText. cbn. discriminate. Qed.

End HoverFacts.

(** C10: for a document that is in the store, the hover provider
    answers the text of the first stored record whose line is the
    queried line, and nothing when no record stands on that line or the
    document is not in the store; the queried column plays no part. On
    the last line of a cell, where the summary stands after the line
    records, a line record of that line is answered before the summary,
    and the summary when there is none. *)
Theorem provideHover_first_on_line :
  (forall (map : gmap string (list Decoration)) (docUri : string)
          (position : Position) (decorations : list Decoration),
      map !! docUri = Some decorations ->
      (forall pre d post,
          decorations = pre ++ d :: post ->
          line d = position_line position ->
          Forall (fun d' => line d' <> position_line position) pre ->
          provideHover map docUri position = Some (contentText d))
      /\ (Forall (fun d' => line d' <> position_line position) decorations ->
          provideHover map docUri position = None))
  /\ (forall (map : gmap string (list Decoration)) (docUri : string)
             (position : Position),
         map !! docUri = None -> provideHover map docUri position = None)
  /\ (forall (map : gmap string (list Decoration)) (docUri : string)
             (queried column column' : nat),
         provideHover map docUri
           {| position_line := queried; position_character := column |}
         = provideHover map docUri
             {| position_line := queried; position_character := column' |})
  /\ (forall (engine : Engine) (cellData : JSValue) (textDocument : TextDocument)
             (decorations : list Decoration) (map : gmap string (list Decoration))
             (position : Position),
         cellDecorations cellData textDocument = Normal decorations ->
         map !! uri textDocument = Some decorations ->
         position_line position
         = length (JSString.split_newline (getText textDocument)) - 1 ->
         exists records summary,
           decorations = records ++ [summary]
           /\ (Exists (fun d => line d = position_line position) records ->
               exists d, d ∈ records
                         /\ line d = position_line position
                         /\ contentText d <> contentText summary
                         /\ provideHover map (uri textDocument) position
                            = Some (contentText d))
           /\ (Forall (fun d => line d <> position_line position) records ->
               provideHover map (uri textDocument) position
               = Some (contentText summary))).
Proof.
  split; [|split; [|split]].
  - intros map docUri position decorations Hmap. split.
    + intros pre d post. by apply provideHover_first.
    + by apply provideHover_none.
  - intros map docUri position Hmap. unfold provideHover. by rewrite Hmap.
  - done.
  - intros engine cellData textDocument decorations map position Hds Hmap Hpos.
    apply cellDecorations_inv in Hds
      as (lineStats & entries & records & summary & _ & _ & H3 & H4 & ->).
    apply summaryDecoration_inv in H4 as (tt & th & category & _ & _ & _ & Hs).
    exists records, summary. split; [done|]. split.
    + intros HE. apply Exists_first in HE
        as (pre & d & post & -> & Hd & Hpre); [|intros d; apply _].
      exists d. split; [apply elem_of_app; right; by left|].
      split; [done|]. split.
      * apply forEachLine_spec in H3 as (records' & Heq & H3).
        cbn [app] in Heq. subst records'.
        assert (Hin : d ∈ pre ++ d :: post)
          by (apply elem_of_app; right; by left).
        apply list_elem_of_lookup in Hin as [i Hi].
        destruct (Forall2_lookup_r _ _ _ _ _ H3 Hi) as (entry & _ & Hdec).
        apply lineDecoration_inv in Hdec as (? & time & percent & _ & _ & _ & _ & ->).
        rewrite Hs. cbn [contentText]. apply lineText_not_summary.
      * eapply provideHover_first; [exact Hmap|by rewrite <- app_assoc|done|done].
    + intros Hall. eapply provideHover_first; [exact Hmap|done| |done].
      rewrite Hs, Hpos. done.
Qed.

Lemma provideHover_first_on_line_witness :
  ({[ uri sampleDocument := sampleDecorations ]} : gmap string (list Decoration))
    !! uri sampleDocument = Some sampleDecorations
  /\ provideHover {[ uri sampleDocument := sampleDecorations ]} (uri sampleDocument)
       {| position_line := 2; position_character := 0 |}
     = Some "⏱ 2.00 µs  | ⚡ 12.50%".
Proof.
  assert (Hmap : ({[ uri sampleDocument := sampleDecorations ]}
                    : gmap string (list Decoration))
                   !! uri sampleDocument = Some sampleDecorations)
    by apply lookup_singleton_eq.
  split; [exact Hmap|].
  destruct (proj1 provideHover_first_on_line _ _
              {| position_line := 2; position_character := 0 |} _ Hmap)
    as [Hfirst _].
  apply (Hfirst [sampleRecord1] sampleRecord3 [sampleSummary]); [done|done|].
  repeat constructor. cbn. lia.
Defined.

(** ** Failures of the run *)

Section FailureFacts.

Context `{engine : Engine}.

Lemma annotate_syntax_error raw allCells st :
  JSON_parse raw = None ->
  annotate raw allCells st
  = ({| cellDecorationsMap := ∅;
        hoverProviderRegistered := hoverProviderRegistered st |},
     FailedToParse SyntaxError).
Proof. intros H. unfold annotate. by rewrite H. Qed.

Lemma annotate_lacks_cells raw allCells st profilingData :
  JSON_parse raw = Some profilingData ->
  lacksCells profilingData = true ->
  allCells <> [] \/ profilingData = JNull ->
  annotate raw allCells st
  = ({| cellDecorationsMap := ∅;
        hoverProviderRegistered := hoverProviderRegistered st |},
     FailedToParse TypeError).
Proof.
  intros Hparse Hlacks Hcells. unfold annotate. rewrite Hparse.
  destruct Hcells as [Hcells | ->]; [|done].
  unfold lacksCells in Hlacks.
  destruct (get profilingData "cells") as [profilingCells|e] eqn:Hget.
  - destruct allCells as [|cell rest]; [done|].
    by destruct profilingCells.
  - destruct profilingData; cbn in Hget; by simplify_eq.
Qed.

(** A cell entry without [lines] makes the body of the cell throw. *)
Lemma cellDecorations_no_lines cellData textDocument :
  get cellData "lines" = Normal JUndefined \/ get cellData "lines" = Normal JNull ->
  cellDecorations cellData textDocument = Throw TypeError.
Proof. unfold cellDecorations. by intros [-> | ->]. Qed.

(** A cell whose report entry is falsy (absent, null) is passed over. *)
Lemma processCell_skips profilingCells cellIndex cell map cellData :
  get_index profilingCells cellIndex = Normal cellData ->
  truthy cellData = false ->
  processCell profilingCells cellIndex cell map = Normal map.
Proof.
  intros Hget Hfalsy. unfold processCell, processed. rewrite Hget. cbn [bind].
  rewrite Hfalsy. by destruct (kind cell).
Qed.

End FailureFacts.

(** C1, as amended: when the report text is not valid JSON, or the
    decoded report is null, or it has no [cells] (or a null one) and
    the notebook has a cell, the run ends with the message "Failed to
    parse profiler output" and the store is empty, whatever it held
    before the run; the flag of the hover provider is as it was. *)
Theorem malformed_report_clears_store :
  forall (engine : Engine) (raw : string) (allCells : list NotebookCell)
         (st : ExtensionState),
    JSON_parse raw = None
    \/ (exists profilingData,
           JSON_parse raw = Some profilingData
           /\ lacksCells profilingData = true
           /\ (allCells <> [] \/ profilingData = JNull)) ->
    exists err,
      annotate raw allCells st
      = ({| cellDecorationsMap := ∅;
            hoverProviderRegistered := hoverProviderRegistered st |},
         FailedToParse err)
      /\ (JSON_parse raw = None -> err = SyntaxError).
Proof.
  intros engine raw allCells st [Hparse | (profilingData & Hparse & Hlacks & Hcells)].
  - exists SyntaxError. split; [by apply annotate_syntax_error|done].
  - exists TypeError. split; [by eapply annotate_lacks_cells|].
    by rewrite Hparse.
Qed.

Lemma malformed_report_clears_store_witness :
  @JSON_parse tableEngine "not json" = None
  /\ exists err,
       @annotate tableEngine "not json" sampleNotebook earlierState
       = ({| cellDecorationsMap := ∅; hoverProviderRegistered := true |},
          FailedToParse err).
Proof.
  assert (H : @JSON_parse tableEngine "not json" = None) by reflexivity.
  split; [exact H|].
  destruct (malformed_report_clears_store tableEngine "not json" sampleNotebook
              earlierState (or_introl H)) as (err & Hrun & _).
  by exists err.
Defined.

(** C1 as the specification words it fails on the extension: after a
    report that does not parse, the store that held a document holds
    none; and a report without [cells] for a notebook without cells is
    no failure at all. *)
Lemma malformed_report_store_not_kept :
  @annotate tableEngine "not json" sampleNotebook earlierState
  = ({| cellDecorationsMap := ∅; hoverProviderRegistered := true |},
     FailedToParse SyntaxError)
  /\ is_Some (cellDecorationsMap earlierState !! "vscode-notebook-cell:/old.ipynb#W0")
  /\ cellDecorationsMap
       (@annotate tableEngine "not json" sampleNotebook earlierState).1
     !! "vscode-notebook-cell:/old.ipynb#W0" = None
  /\ lacksCells (JObj []) = true
  /\ @annotate tableEngine "{}" [] earlierState
     = ({| cellDecorationsMap := ∅; hoverProviderRegistered := true |},
        AnnotationsAdded).
Proof.
  split; [by vm_compute|]. split; [by eexists|].
  split; [by vm_compute|]. split; by vm_compute.
Qed.

(** C5, the extension at a cell entry without [lines]: the body of the
    cell throws, and the run of the one-cell notebook on the report
    {"cells":[{"total_time":5}]} ends with the failure message and an
    empty store. The other half of the claim holds: a cell whose report
    entry is absent or null, or lies beyond the report, is passed over
    without a record and without an error. *)
Theorem missing_lines_fail_the_run :
  (forall (engine : Engine) (cellData : JSValue) (textDocument : TextDocument),
      get cellData "lines" = Normal JUndefined
      \/ get cellData "lines" = Normal JNull ->
      cellDecorations cellData textDocument = Throw TypeError)
  /\ @annotate tableEngine noLinesText sampleNotebook earlierState
     = ({| cellDecorationsMap := ∅; hoverProviderRegistered := true |},
        FailedToParse TypeError)
  /\ (forall (engine : Engine) (profilingCells : JSValue) (cellIndex : nat)
             (cell : NotebookCell) (map : gmap string (list Decoration))
             (cellData : JSValue),
         get_index profilingCells cellIndex = Normal cellData ->
         truthy cellData = false ->
         processCell profilingCells cellIndex cell map = Normal map)
  /\ (forall (engine : Engine) (entries : list JSValue) (cellIndex : nat)
             (cell : NotebookCell) (map : gmap string (list Decoration)),
         length entries <= cellIndex ->
         processCell (JArr entries) cellIndex cell map = Normal map).
Proof.
  split; [intros; by apply cellDecorations_no_lines|].
  split; [by vm_compute|].
  split; [intros; by eapply processCell_skips|].
  intros engine entries cellIndex cell map Hlen.
  apply (processCell_skips _ _ _ _ JUndefined); [|done].
  cbn. f_equal. by apply nth_overflow.
Qed.

(** * Further properties *)

(** ** The path of the report *)

Module PathFacts.

Import StringMethods.

Lemma append_cons c (a b : string) : String c a +:+ b = String c (a +:+ b).
Proof. reflexivity. Qed.

Lemma append_empty (b : string) : "" +:+ b = b.
Proof. reflexivity. Qed.

Lemma append_assoc (a b c : string) : (a +:+ b) +:+ c = a +:+ b +:+ c.
Proof.
  induction a as [|x a IH]; [done|]. by rewrite !append_cons, IH.
Qed.

Lemma append_inv_head (a b c : string) : a +:+ b = a +:+ c -> b = c.
Proof.
  induction a as [|x a IH]; [done|]. rewrite !append_cons. intros [= H].
  by apply IH.
Qed.

Lemma replace_unfold s p r :
  replace s p r
  = if String.prefix p s then r +:+ slice (String.length p) s
    else match s with
         | String c rest => String c (replace rest p r)
         | EmptyString => s
         end.
Proof. by destruct s. Qed.

Lemma includes_cons c s p :
  includes (String c s) p = String.prefix p (String c s) || includes s p.
Proof. done. Qed.

Lemma prefix_cons c p d s :
  String.prefix (String c p) (String d s)
  = if ascii_dec c d then String.prefix p s else false.
Proof. cbn. by destruct (ascii_dec c d). Qed.

Lemma prefix_refl_append p s : String.prefix p (p +:+ s) = true.
Proof.
  induction p as [|c p IH]; [by destruct s|].
  rewrite append_cons, prefix_cons. by destruct (ascii_dec c c).
Qed.

Lemma prefix_slice p s :
  String.prefix p s = true -> s = p +:+ slice (String.length p) s.
Proof.
  revert s. induction p as [|c p IH]; intros [|d s]; try done.
  rewrite prefix_cons. destruct (ascii_dec c d) as [->|]; [|done].
  intros H. cbn [String.length slice]. rewrite append_cons. f_equal.
  by apply IH.
Qed.

Lemma prefix_append_mono p a b :
  String.prefix p a = true -> String.prefix p (a +:+ b) = true.
Proof.
  revert a. induction p as [|c p IH]; intros [|d a]; try done.
  - intros _. by destruct b.
  - rewrite append_cons, !prefix_cons. destruct (ascii_dec c d); [apply IH|done].
Qed.

Lemma slice_append p s : slice (String.length p) (p +:+ s) = s.
Proof. induction p as [|c p IH]; [by destruct s|]. by rewrite append_cons. Qed.

Lemma endsWith_append a p : endsWith (a +:+ p) p = true.
Proof.
  induction a as [|c a IH].
  - rewrite append_empty. destruct p; cbn [endsWith]; by rewrite String.eqb_refl.
  - rewrite append_cons. cbn [endsWith]. rewrite IH. by rewrite orb_true_r.
Qed.

Lemma endsWith_stem s p : endsWith s p = true -> exists stem, s = stem +:+ p.
Proof.
  induction s as [|c s IH]; cbn [endsWith].
  - rewrite orb_false_r. intros ->%String.eqb_eq. by exists "".
  - intros [->%String.eqb_eq | H]%orb_true_iff; [by exists ""|].
    destruct (IH H) as [stem ->]. by exists (String c stem).
Qed.

(** Where the pattern occurs, it occurs a first time. *)
Lemma includes_first s p :
  includes "" p = false ->
  includes s p = true ->
  exists pre post, s = pre +:+ p +:+ post /\ includes pre p = false.
Proof.
  intros Hp. induction s as [|c s IH].
  - intros H. by rewrite Hp in H.
  - destruct (String.prefix p (String c s)) eqn:Hprefix.
    + intros _. exists "", (slice (String.length p) (String c s)).
      split; [|done]. by apply prefix_slice.
    + rewrite includes_cons, Hprefix. cbn [orb]. intros H.
      destruct (IH H) as (pre & post & -> & Hpre).
      exists (String c pre), post. split; [done|].
      rewrite includes_cons, Hpre, orb_false_r.
      destruct (String.prefix p (String c pre)) eqn:Hp'; [|done].
      apply (prefix_append_mono _ _ (p +:+ post)) in Hp'.
      rewrite append_cons in Hp'. congruence.
Qed.

Lemma includes_append a p post : includes (a +:+ p +:+ post) p = true.
Proof.
  induction a as [|c a IH].
  - rewrite append_empty. destruct (p +:+ post) eqn:E; cbn [includes];
      rewrite <- ?E, prefix_refl_append; done.
  - rewrite append_cons, includes_cons, IH. by rewrite orb_true_r.
Qed.

Lemma append_empty_r (a : string) : a +:+ "" = a.
Proof. induction a as [|c a IH]; [done|]. by rewrite append_cons, IH. Qed.

(** The extension of a notebook does not overlap itself: an occurrence
    that starts before another one ends before it. *)
Lemma ipynb_no_overlap c pre rest :
  String.prefix ".ipynb" (String c pre +:+ ".ipynb" +:+ rest) = true ->
  String.prefix ".ipynb" (String c pre) = true.
Proof.
  rewrite append_cons.
  repeat (rewrite !prefix_cons;
          match goal with
          | |- context [ascii_dec ?a ?b] => destruct (ascii_dec a b); [|done]
          end;
          destruct pre as [|? pre]; [by vm_compute|rewrite append_cons]).
  intros _. by destruct pre.
Qed.

Lemma replace_first pre post :
  includes pre ".ipynb" = false ->
  replace (pre +:+ ".ipynb" +:+ post) ".ipynb" "_profile.json"
  = pre +:+ "_profile.json" +:+ post.
Proof.
  induction pre as [|c pre IH]; intros Hpre.
  - rewrite !append_empty, replace_unfold, prefix_refl_append.
    by rewrite slice_append.
  - rewrite includes_cons in Hpre. apply orb_false_iff in Hpre as [Hc Hpre].
    rewrite replace_unfold.
    destruct (String.prefix ".ipynb" (String c pre +:+ ".ipynb" +:+ post)) eqn:H.
    + apply ipynb_no_overlap in H. congruence.
    + rewrite !(append_cons c pre). cbv iota beta. f_equal. by apply IH.
Qed.

End PathFacts.

(** X1: the report is looked for at the path of the notebook with the
    first [.ipynb] of the path, not the last, replaced by
    [_profile.json]: an occurrence with no [.ipynb] in front of it is
    replaced, and what follows it is kept. So the notebook
    [/work/nb.ipynb] has its report at [/work/nb_profile.json], and for
    a notebook in a checkpoint directory it is the name of the
    directory that is rewritten. *)
Theorem profilerOutput_first_occurrence :
  forall pre post : string,
    StringMethods.includes pre ".ipynb" = false ->
    profilerOutput (pre +:+ ".ipynb" +:+ post) = pre +:+ "_profile.json" +:+ post.
Proof.
  intros pre post. unfold profilerOutput.
  induction pre as [|c pre IH]; intros Hpre.
  - rewrite !PathFacts.append_empty, PathFacts.replace_unfold.
    by rewrite PathFacts.prefix_refl_append, PathFacts.slice_append.
  - rewrite PathFacts.includes_cons in Hpre.
    apply orb_false_iff in Hpre as [Hc Hpre].
    rewrite PathFacts.replace_unfold.
    destruct (String.prefix ".ipynb" (String c pre +:+ ".ipynb" +:+ post)) eqn:H.
    + apply PathFacts.ipynb_no_overlap in H. congruence.
    + rewrite !(PathFacts.append_cons c pre). cbv iota beta. f_equal. by apply IH.
Qed.

Lemma profilerOutput_first_occurrence_witness :
  StringMethods.includes "/work/" ".ipynb" = false
  /\ profilerOutput "/work/.ipynb_checkpoints/nb-checkpoint.ipynb"
     = "/work/_profile.json_checkpoints/nb-checkpoint.ipynb".
Proof.
  split; [reflexivity|].
  exact (profilerOutput_first_occurrence "/work/" "_checkpoints/nb-checkpoint.ipynb"
           eq_refl).
Defined.

(** X2: a notebook the command accepts has a path [stem.ipynb], and its
    report is never looked for at the path of the notebook itself.
    When [.ipynb] does not occur in the stem the report path is
    [stem_profile.json]; when it does, the report path still ends with
    [.ipynb]. *)
Theorem accepted_notebook_report_path :
  forall notebookEditor : NotebookEditor,
    acceptsNotebook (Some notebookEditor) = true ->
    exists stem,
      fsPath notebookEditor = stem +:+ ".ipynb"
      /\ profilerOutput (fsPath notebookEditor) <> fsPath notebookEditor
      /\ (StringMethods.includes stem ".ipynb" = false ->
          profilerOutput (fsPath notebookEditor) = stem +:+ "_profile.json")
      /\ (StringMethods.includes stem ".ipynb" = true ->
          StringMethods.endsWith (profilerOutput (fsPath notebookEditor)) ".ipynb"
          = true).
Proof.
  intros [filePath cells]. cbn [acceptsNotebook fsPath]. intros Hends.
  destruct (PathFacts.endsWith_stem _ _ Hends) as [stem ->].
  exists stem. unfold profilerOutput. cbn [fsPath]. split; [done|]. split; [|split].
  - destruct (PathFacts.includes_first (stem +:+ ".ipynb") ".ipynb" eq_refl)
      as (pre & post & Heq & Hpre).
    { change (stem +:+ ".ipynb") with (stem +:+ ".ipynb" +:+ "").
      apply PathFacts.includes_append. }
    rewrite Heq, PathFacts.replace_first by done.
    intros H%PathFacts.append_inv_head. discriminate H.
  - intros Hstem.
    change (stem +:+ ".ipynb") with (stem +:+ ".ipynb" +:+ "").
    rewrite PathFacts.replace_first by done.
    by rewrite PathFacts.append_empty_r.
  - intros Hstem.
    destruct (PathFacts.includes_first stem ".ipynb" eq_refl Hstem)
      as (pre & post & -> & Hpre).
    rewrite !PathFacts.append_assoc.
    rewrite PathFacts.replace_first by done.
    rewrite <- !PathFacts.append_assoc. apply PathFacts.endsWith_append.
Qed.

Lemma accepted_notebook_report_path_witness :
  exists stem,
    "/work/.ipynb_checkpoints/nb-checkpoint.ipynb" = stem +:+ ".ipynb"
    /\ profilerOutput "/work/.ipynb_checkpoints/nb-checkpoint.ipynb"
       <> "/work/.ipynb_checkpoints/nb-checkpoint.ipynb".
Proof.
  destruct (accepted_notebook_report_path
              {| fsPath := "/work/.ipynb_checkpoints/nb-checkpoint.ipynb";
                 getCells := [] |} eq_refl)
    as (stem & Hstem & Hneq & _).
  exists stem. split; [exact Hstem|exact Hneq].
Defined.

(** ** What the store holds, whatever the outcome of the run *)

Section StoreFacts.

Context `{engine : Engine}.

Local Abbreviation insertPair :=
  (fun (m : gmap string (list Decoration)) kv => <[kv.1 := kv.2]> m).

Lemma processed_Some cell cellData textDocument :
  processed cell cellData = Some textDocument ->
  kind cell = Code /\ truthy cellData = true /\ document cell = Some textDocument.
Proof.
  unfold processed. destruct (kind cell); [done|].
  by destruct (truthy cellData).
Qed.

(** A decoration sequence is in the map after the loop because it was
    there before, or because it is the whole sequence of a cell the
    loop has processed. *)
Lemma forCells_lookup profilingCells cells cellIndex map map' outcome
    docUri decorations :
  forCells profilingCells cells cellIndex map = (map', outcome) ->
  map' !! docUri = Some decorations ->
  map !! docUri = Some decorations
  \/ exists k cell textDocument cellData,
       cells !! k = Some cell
       /\ kind cell = Code
       /\ document cell = Some textDocument
       /\ uri textDocument = docUri
       /\ get_index profilingCells (cellIndex + k) = Normal cellData
       /\ truthy cellData = true
       /\ cellDecorations cellData textDocument = Normal decorations.
Proof.
  revert cellIndex map.
  induction cells as [|cell rest IH]; intros cellIndex map; cbn [forCells].
  - intros [= <- _]. by left.
  - unfold processCell.
    destruct (get_index profilingCells cellIndex) as [cellData|e] eqn:Hget;
      cbn [bind]; [|intros [= <- _]; by left].
    assert (Hlater : forall map0,
      forCells profilingCells rest (S cellIndex) map0 = (map', outcome) ->
      map' !! docUri = Some decorations ->
      map0 !! docUri = Some decorations
      \/ exists k cell' textDocument cellData',
           (cell :: rest) !! k = Some cell'
           /\ kind cell' = Code
           /\ document cell' = Some textDocument
           /\ uri textDocument = docUri
           /\ get_index profilingCells (cellIndex + k) = Normal cellData'
           /\ truthy cellData' = true
           /\ cellDecorations cellData' textDocument = Normal decorations).
    { intros map0 Hloop Hlookup.
      destruct (IH _ _ Hloop Hlookup)
        as [H | (k & cell' & doc & cellData' & Hk & Hkind & Hdoc & Huri & Hi & Ht & Hds)];
        [by left|right].
      exists (S k), cell', doc, cellData'.
      replace (cellIndex + S k) with (S cellIndex + k) by lia. done. }
    destruct (processed cell cellData) as [textDocument|] eqn:Hprocessed;
      [|apply Hlater].
    destruct (cellDecorations cellData textDocument) as [ds|e] eqn:Hds;
      cbn [bind]; [|intros [= <- _]; by left].
    intros Hloop Hlookup.
    destruct (Hlater _ Hloop Hlookup) as [H|H]; [|by right].
    destruct (decide (uri textDocument = docUri)) as [Huri|Hne].
    + right. rewrite Huri, lookup_insert_eq in H. injection H as ->.
      apply processed_Some in Hprocessed as (Hkind & Htruthy & Hdoc).
      exists 0, cell, textDocument, cellData.
      rewrite Nat.add_0_r. done.
    + left. by rewrite lookup_insert_ne in H.
Qed.

(** The map after the [try] block, and the outcome of the loop when
    the block came to it. *)
Lemma annotate_store raw allCells st :
  cellDecorationsMap (annotate raw allCells st).1 = ∅
  \/ exists profilingData profilingCells outcome,
       JSON_parse raw = Some profilingData
       /\ get profilingData "cells" = Normal profilingCells
       /\ forCells profilingCells allCells 0 ∅
          = (cellDecorationsMap (annotate raw allCells st).1, outcome).
Proof.
  unfold annotate.
  destruct (JSON_parse raw) as [profilingData|] eqn:Hparse; [|by left].
  destruct (get profilingData "cells") as [profilingCells|] eqn:Hcells; [|by left].
  destruct (forCells profilingCells allCells 0 ∅) as [map [e|]] eqn:Hloop;
    right; by eexists profilingData, profilingCells, _.
Qed.

Lemma annotate_entry raw allCells st docUri decorations :
  cellDecorationsMap (annotate raw allCells st).1 !! docUri = Some decorations ->
  exists profilingData profilingCells cellIndex cell textDocument cellData,
    JSON_parse raw = Some profilingData
    /\ get profilingData "cells" = Normal profilingCells
    /\ allCells !! cellIndex = Some cell
    /\ kind cell = Code
    /\ document cell = Some textDocument
    /\ uri textDocument = docUri
    /\ get_index profilingCells cellIndex = Normal cellData
    /\ truthy cellData = true
    /\ cellDecorations cellData textDocument = Normal decorations.
Proof.
  intros Hlookup.
  destruct (annotate_store raw allCells st)
    as [Hempty | (profilingData & profilingCells & outcome & Hparse & Hcells & Hloop)].
  - by rewrite Hempty in Hlookup.
  - destruct (forCells_lookup _ _ _ _ _ _ _ _ Hloop Hlookup) as [H|H]; [done|].
    destruct H as (k & cell & doc & cellData & H).
    by exists profilingData, profilingCells, k, cell, doc, cellData.
Qed.

(** The anchors of the decorations built for a cell are ends of lines
    of its text. *)
Lemma cellDecorations_anchors cellData textDocument decorations :
  cellDecorations cellData textDocument = Normal decorations ->
  Forall (fun d =>
            exists sourceLine,
              JSString.split_newline (getText textDocument) !! line d
              = Some sourceLine
              /\ character d = JSString.length sourceLine)
    decorations.
Proof.
  intros H. apply cellDecorations_inv in H
    as (lineStats & entries & records & summary & _ & _ & Hrecords & Hsummary & ->).
  set (lines := JSString.split_newline (getText textDocument)) in *.
  apply Forall_app. split.
  - apply forEachLine_spec in Hrecords as (records' & -> & H). cbn [app].
    apply records_in_range in H.
    apply Forall_forall. intros d Hd.
    apply list_elem_of_lookup in Hd as [i Hi].
    destruct (Forall2_lookup_r _ _ _ _ _ H Hi) as (entry & _ & Hdec & _ & Hlt).
    apply lineDecoration_inv in Hdec as (? & ? & ? & _ & _ & _ & _ & ->).
    cbn [line character] in *.
    destruct (lookup_lt_is_Some_2 lines _ Hlt) as [sourceLine Hline].
    exists sourceLine. by rewrite (nth_lookup_Some _ _ _ _ Hline).
  - apply Forall_singleton.
    apply summaryDecoration_inv in Hsummary as (? & ? & ? & _ & _ & _ & ->).
    cbn [line character].
    destruct (last_split_newline (getText textDocument)) as [lastLine Hlast].
    exists lastLine. fold lines in Hlast.
    rewrite (nth_last_line lines lastLine Hlast). split; [|done].
    rewrite last_lookup in Hlast. by rewrite Nat.sub_1_r.
Qed.

(** What makes the loop stop: the cells before the one that throws
    have been stored, that one and the later ones have not. *)
Lemma forCells_failure profilingCells cells cellIndex map map' err :
  forCells profilingCells cells cellIndex map = (map', Some err) ->
  exists pre cell post built,
    cells = pre ++ cell :: post
    /\ build profilingCells pre cellIndex = Normal built
    /\ map' = foldl insertPair map built
    /\ processCell profilingCells (cellIndex + length pre) cell map' = Throw err.
Proof.
  revert cellIndex map.
  induction cells as [|cell rest IH]; intros cellIndex map; cbn [forCells]; [done|].
  destruct (processCell profilingCells cellIndex cell map) as [map1|e] eqn:Hcell.
  - intros Hloop.
    destruct (IH _ _ Hloop) as (pre & cell' & post & built & -> & Hbuilt & -> & Hthrow).
    unfold processCell in Hcell.
    destruct (get_index profilingCells cellIndex) as [cellData|] eqn:Hget; [|done].
    cbn [bind] in Hcell.
    destruct (processed cell cellData) as [textDocument|] eqn:Hprocessed.
    + destruct (cellDecorations cellData textDocument) as [ds|] eqn:Hds; [|done].
      cbn [bind] in Hcell. injection Hcell as <-.
      exists (cell :: pre), cell', post, ((uri textDocument, ds) :: built).
      cbn [build]. rewrite Hget. cbn [bind]. rewrite Hprocessed, Hds. cbn [bind].
      rewrite Hbuilt. cbn [bind length foldl app].
      replace (cellIndex + S (length pre)) with (S cellIndex + length pre) by lia.
      done.
    + injection Hcell as <-.
      exists (cell :: pre), cell', post, built.
      cbn [build]. rewrite Hget. cbn [bind]. rewrite Hprocessed.
      cbn [length app].
      replace (cellIndex + S (length pre)) with (S cellIndex + length pre) by lia.
      done.
  - intros [= <- <-]. exists [], cell, rest, [].
    cbn [build foldl length app]. by rewrite Nat.add_0_r.
Qed.

End StoreFacts.

(** X3: when the [try] block has run, whatever its outcome, success
    or failure, a sequence that is in the store afterwards is the whole
    sequence of decorations of a code cell of this notebook, under the
    URI of its document, built from the truthy entry that the report
    has at the index of the cell: no text cell, no document of another
    notebook, and no part of the sequence of a cell whose processing
    threw. *)
Theorem stored_sequences_are_whole_cells :
  forall (engine : Engine) (raw : string) (allCells : list NotebookCell)
         (st : ExtensionState) (docUri : string) (decorations : list Decoration),
    cellDecorationsMap (annotate raw allCells st).1 !! docUri = Some decorations ->
    exists profilingData profilingCells cellIndex cell textDocument cellData,
      JSON_parse raw = Some profilingData
      /\ get profilingData "cells" = Normal profilingCells
      /\ allCells !! cellIndex = Some cell
      /\ kind cell = Code
      /\ document cell = Some textDocument
      /\ uri textDocument = docUri
      /\ get_index profilingCells cellIndex = Normal cellData
      /\ truthy cellData = true
      /\ cellDecorations cellData textDocument = Normal decorations.
Proof.
  intros engine raw allCells st docUri decorations Hlookup.
  destruct (annotate_store raw allCells st)
    as [Hempty | (profilingData & profilingCells & outcome & Hparse & Hcells & Hloop)].
  - by rewrite Hempty in Hlookup.
  - destruct (forCells_lookup _ _ _ _ _ _ _ _ Hloop Hlookup)
      as [H | (k & cell & textDocument & cellData & H)]; [done|].
    by exists profilingData, profilingCells, k, cell, textDocument, cellData.
Qed.

Lemma stored_sequences_are_whole_cells_witness :
  exists cell textDocument,
    twoCellsNotebook !! 0 = Some cell
    /\ document cell = Some textDocument
    /\ @cellDecorations exampleEngine sampleCell textDocument = Normal sampleDecorations.
Proof.
  destruct (stored_sequences_are_whole_cells exampleEngine twoCellsText
              twoCellsNotebook earlierState (uri sampleDocument) sampleDecorations)
    as (profilingData & profilingCells & cellIndex & cell & textDocument & cellData
        & Hparse & Hcells & Hcell & Hkind & Hdoc & Huri & Hdata & Htruthy & Hds).
  { by vm_compute. }
  injection Hparse as <-. injection Hcells as <-.
  destruct cellIndex as [|[|cellIndex]]; [| |done].
  - injection Hcell as <-. injection Hdata as <-. by eexists _, textDocument.
  - injection Hcell as <-. injection Hdoc as <-. discriminate Huri.
Defined.

(** X5: when the [try] block has run, whatever its outcome, every
    decoration in the store is anchored in the text of the cell it was
    built for: on a line that the text has, at the end of that line. *)
Theorem stored_anchors_are_line_ends :
  forall (engine : Engine) (raw : string) (allCells : list NotebookCell)
         (st : ExtensionState) (docUri : string) (decorations : list Decoration),
    cellDecorationsMap (annotate raw allCells st).1 !! docUri = Some decorations ->
    exists cell textDocument,
      cell ∈ allCells
      /\ document cell = Some textDocument
      /\ uri textDocument = docUri
      /\ Forall (fun d =>
                   exists sourceLine,
                     JSString.split_newline (getText textDocument) !! line d
                     = Some sourceLine
                     /\ character d = JSString.length sourceLine)
           decorations.
Proof.
  intros engine raw allCells st docUri decorations H.
  apply annotate_entry in H
    as (_ & _ & cellIndex & cell & textDocument & cellData
        & _ & _ & Hcell & _ & Hdoc & Huri & _ & _ & Hds).
  exists cell, textDocument. split; [by eapply list_elem_of_lookup_2|].
  do 2 (split; [done|]). by eapply cellDecorations_anchors.
Qed.

Lemma stored_anchors_are_line_ends_witness :
  exists cell textDocument,
    cell ∈ sampleNotebook
    /\ document cell = Some textDocument
    /\ uri textDocument = uri sampleDocument
    /\ Forall (fun d =>
                 exists sourceLine,
                   JSString.split_newline (getText textDocument) !! line d
                   = Some sourceLine
                   /\ character d = JSString.length sourceLine)
         sampleDecorations.
Proof.
  apply (stored_anchors_are_line_ends tableEngine sampleText sampleNotebook
           earlierState (uri sampleDocument) sampleDecorations).
  by vm_compute.
Defined.



(** X4: a run that fails in the loop over the cells keeps in the store
    what the loop has built so far: the store is the one a run on the
    cells before the failing cell builds ([replaceAll] of their
    [build]), and the flag of the hover provider is as before the run.
    A run that fails before the loop leaves the store empty. *)
Theorem failed_run_keeps_earlier_cells :
  forall (engine : Engine) (raw : string) (allCells : list NotebookCell)
         (st st' : ExtensionState) (err : JSError),
    annotate raw allCells st = (st', FailedToParse err) ->
    hoverProviderRegistered st' = hoverProviderRegistered st
    /\ ((cellDecorationsMap st' = ∅
         /\ (JSON_parse raw = None
             \/ exists profilingData,
                  JSON_parse raw = Some profilingData
                  /\ get profilingData "cells" = Throw err))
        \/ exists profilingData profilingCells pre cell post built,
             JSON_parse raw = Some profilingData
             /\ get profilingData "cells" = Normal profilingCells
             /\ allCells = pre ++ cell :: post
             /\ build profilingCells pre 0 = Normal built
             /\ cellDecorationsMap st' = replaceAll built
             /\ processCell profilingCells (length pre) cell (replaceAll built)
                = Throw err).
Proof.
  intros engine raw allCells st st' err. unfold annotate.
  destruct (JSON_parse raw) as [profilingData|] eqn:Hparse.
  - destruct (get profilingData "cells") as [profilingCells|e] eqn:Hcells.
    + destruct (forCells profilingCells allCells 0 ∅) as [map [e|]] eqn:Hloop;
        [|done].
      intros [= <- <-]. split; [done|right].
      apply forCells_failure in Hloop
        as (pre & cell & post & built & -> & Hbuilt & -> & Hthrow).
      by exists profilingData, profilingCells, pre, cell, post, built.
    + intros [= <- <-]. split; [done|left]. split; [done|right].
      by exists profilingData.
  - intros [= <- _]. split; [done|left]. split; [done|by left].
Qed.

Lemma failed_run_keeps_earlier_cells_witness :
  @annotate exampleEngine twoCellsText twoCellsNotebook earlierState
  = ({| cellDecorationsMap := {[ uri sampleDocument := sampleDecorations ]};
        hoverProviderRegistered := true |}, FailedToParse TypeError)
  /\ exists profilingCells pre cell post built,
       twoCellsNotebook = pre ++ cell :: post
       /\ @build exampleEngine profilingCells pre 0 = Normal built
       /\ ({[ uri sampleDocument := sampleDecorations ]}
             : gmap string (list Decoration)) = replaceAll built.
Proof.
  assert (Hrun : @annotate exampleEngine twoCellsText twoCellsNotebook earlierState
                 = ({| cellDecorationsMap := {[ uri sampleDocument := sampleDecorations ]};
                       hoverProviderRegistered := true |}, FailedToParse TypeError))
    by (by vm_compute).
  split; [exact Hrun|].
  destruct (failed_run_keeps_earlier_cells exampleEngine _ _ _ _ _ Hrun)
    as [_ [[Hempty _] | H]].
  - exfalso. cbn [cellDecorationsMap] in Hempty.
    apply (f_equal (fun m => m !! uri sampleDocument)) in Hempty.
    rewrite lookup_singleton_eq, lookup_empty in Hempty. discriminate Hempty.
  - destruct H as (profilingData & profilingCells & pre & cell & post & built
                   & _ & _ & Hnotebook & Hbuilt & Hstore & _).
    exists profilingCells, pre, cell, post, built.
    split; [exact Hnotebook|]. split; [exact Hbuilt|exact Hstore].
Defined.

(** ** The editors *)

Section EditorFacts.

Context `{engine : Engine}.

Lemma applyDecorationsToEditor_upToDate map editor :
  upToDate map (applyDecorationsToEditor map editor).
Proof.
  unfold upToDate, applyDecorationsToEditor.
  by destruct (map !! editorUri editor) eqn:H; cbn; rewrite H.
Qed.

Lemma applyDecorationsToEditor_uri map editor :
  editorUri (applyDecorationsToEditor map editor) = editorUri editor.
Proof.
  unfold applyDecorationsToEditor. by destruct (map !! editorUri editor).
Qed.

Lemma annotateEditors_success raw allCells w w' :
  annotateEditors raw allCells w = (w', AnnotationsAdded) ->
  annotate raw allCells (extensionState w) = (extensionState w', AnnotationsAdded)
  /\ visibleTextEditors w'
     = applyDecorationsToEditor (cellDecorationsMap (extensionState w'))
       <$> visibleTextEditors w.
Proof.
  unfold annotateEditors.
  destruct (annotate raw allCells (extensionState w)) as [st notification].
  destruct notification; intros [= <-]; done.
Qed.

Lemma annotateEditors_failure raw allCells w w' err :
  annotateEditors raw allCells w = (w', FailedToParse err) ->
  annotate raw allCells (extensionState w) = (extensionState w', FailedToParse err)
  /\ visibleTextEditors w' = visibleTextEditors w.
Proof.
  unfold annotateEditors.
  destruct (annotate raw allCells (extensionState w)) as [st notification].
  destruct notification; intros [= <-]; try done. by subst.
Qed.

End EditorFacts.

(** X12: after a run that ends with the success message the visible
    editors are the same editors, and each of them shows what the new
    store holds for its document: the whole sequence of the cell, or
    nothing when the run has stored nothing for the document, whatever
    the editor showed before. The same holds for the editors that the
    listener of the visible editors is called with. *)
Theorem successful_run_redraws_editors :
  forall (engine : Engine) (raw : string) (allCells : list NotebookCell)
         (w w' : Workbench),
    annotateEditors raw allCells w = (w', AnnotationsAdded) ->
    editorUri <$> visibleTextEditors w' = editorUri <$> visibleTextEditors w
    /\ Forall (upToDate (cellDecorationsMap (extensionState w')))
         (visibleTextEditors w')
    /\ (forall editor, editor ∈ visibleTextEditors w' ->
          cellDecorationsMap (extensionState w') !! editorUri editor = None ->
          shownDecorations editor = [])
    /\ forall editors,
         Forall (upToDate (cellDecorationsMap (extensionState w')))
           (onDidChangeVisibleTextEditors (cellDecorationsMap (extensionState w'))
              editors).
Proof.
  intros engine raw allCells w w' [_ Heditors]%annotateEditors_success.
  assert (Hall : forall map editors,
             Forall (upToDate map) (applyDecorationsToEditor map <$> editors)).
  { intros map editors. apply Forall_fmap, Forall_forall. intros editor _.
    apply applyDecorationsToEditor_upToDate. }
  rewrite Heditors. split; [|split; [apply Hall|split; [|apply Hall]]].
  - rewrite <- list_fmap_compose. apply list_fmap_ext. intros _ editor _.
    apply applyDecorationsToEditor_uri.
  - intros editor Hin Hnone.
    pose proof (Hall (cellDecorationsMap (extensionState w')) (visibleTextEditors w))
      as Hshown.
    rewrite Forall_forall in Hshown. specialize (Hshown editor Hin).
    unfold upToDate in Hshown. by rewrite Hnone in Hshown.
Qed.

Lemma successful_run_redraws_editors_witness :
  exists w',
    @annotateEditors tableEngine sampleText sampleNotebook
      {| extensionState := earlierState; visibleTextEditors := [staleEditor] |}
    = (w', AnnotationsAdded)
    /\ Forall (upToDate (cellDecorationsMap (extensionState w')))
         (visibleTextEditors w').
Proof.
  eexists. split; [by vm_compute|].
  eapply (successful_run_redraws_editors tableEngine sampleText sampleNotebook
            {| extensionState := earlierState; visibleTextEditors := [staleEditor] |}).
  by vm_compute.
Defined.

(** X13: a run that ends with the failure message leaves the visible
    editors as they are: the loop did not come to the redrawing. When
    the report is not valid JSON the store is empty by then, so that
    an editor that shows decorations shows ones the store does not
    hold, and the hover provider answers nothing on its document. *)
Theorem failed_run_leaves_stale_decorations :
  forall (engine : Engine) (raw : string) (allCells : list NotebookCell)
         (w w' : Workbench) (err : JSError),
    annotateEditors raw allCells w = (w', FailedToParse err) ->
    visibleTextEditors w' = visibleTextEditors w
    /\ (JSON_parse raw = None ->
        forall editor,
          editor ∈ visibleTextEditors w' ->
          shownDecorations editor <> [] ->
          ~ upToDate (cellDecorationsMap (extensionState w')) editor
          /\ forall position,
               provideHover (cellDecorationsMap (extensionState w'))
                 (editorUri editor) position = None).
Proof.
  intros engine raw allCells w w' err [Hrun Heditors]%annotateEditors_failure.
  split; [done|]. intros Hparse editor _ Hshown.
  rewrite (annotate_syntax_error _ _ _ Hparse) in Hrun.
  injection Hrun as <- _. cbn [cellDecorationsMap].
  split.
  - unfold upToDate. by rewrite lookup_empty.
  - intros position. unfold provideHover. by rewrite lookup_empty.
Qed.

Lemma failed_run_leaves_stale_decorations_witness :
  exists w',
    @annotateEditors tableEngine "{" sampleNotebook
      {| extensionState := earlierState; visibleTextEditors := [staleEditor] |}
    = (w', FailedToParse SyntaxError)
    /\ visibleTextEditors w' = [staleEditor]
    /\ ~ upToDate (cellDecorationsMap (extensionState w')) staleEditor.
Proof.
  eexists. split; [by vm_compute|].
  destruct (failed_run_leaves_stale_decorations tableEngine "{" sampleNotebook
              {| extensionState := earlierState; visibleTextEditors := [staleEditor] |}
              _ SyntaxError eq_refl) as [Heditors Hstale].
  split; [exact Heditors|].
  apply (Hstale eq_refl staleEditor); [rewrite Heditors; by left|done].
Defined.

(** ** The first variant of the extension *)

Section BasicFacts.

Context `{engine : Engine}.

Lemma basic_toFixed_inv v s :
  Basic.toFixed v = Normal s -> exists x, v = JNum x /\ s = toFixed2 x.
Proof. destruct v; try done. intros [= <-]. by eexists. Qed.

Lemma basic_lineDecoration_spec lines n lineData d :
  Basic.lineDecoration lines n lineData = Normal d <->
  exists time percent,
    get lineData "time" = Normal (JNum time)
    /\ get lineData "percent" = Normal (JNum percent)
    /\ d = Basic.lineRecord lines n time percent.
Proof.
  unfold Basic.lineDecoration. split.
  - destruct (get lineData "time") as [time|] eqn:Ht; [|done]. cbn [bind].
    destruct (Basic.toFixed time) as [t|] eqn:Htf; [|done]. cbn [bind].
    apply basic_toFixed_inv in Htf as (x & -> & ->).
    destruct (get lineData "percent") as [percent|] eqn:Hp; [|done]. cbn [bind].
    destruct (Basic.toFixed percent) as [p|] eqn:Hpf; [|done]. cbn [bind].
    apply basic_toFixed_inv in Hpf as (y & -> & ->).
    intros [= <-]. by exists x, y.
  - by intros (x & y & -> & -> & ->).
Qed.

Lemma basic_forEachLine_cons lines entry rest acc :
  Basic.forEachLine lines (entry :: rest) acc
  = if entryInRange lines entry
    then let* d := Basic.entryDecoration lines entry in
         Basic.forEachLine lines rest (acc ++ [d])
    else Basic.forEachLine lines rest acc.
Proof. by destruct entry. Qed.

Lemma basic_forEachLine_spec lines entries acc ds :
  Basic.forEachLine lines entries acc = Normal ds <->
  exists records,
    ds = acc ++ records
    /\ Forall2 (fun entry d => Basic.entryDecoration lines entry = Normal d)
         (filter (fun entry => entryInRange lines entry) entries) records.
Proof.
  revert acc ds. induction entries as [|entry rest IH]; intros acc ds.
  - rewrite filter_nil. cbn. split.
    + intros [= <-]. exists []. by rewrite app_nil_r.
    + intros (records & -> & H). apply Forall2_nil_inv_l in H as ->.
      by rewrite app_nil_r.
  - rewrite basic_forEachLine_cons.
    destruct (entryInRange lines entry) eqn:Hin.
    + rewrite filter_cons_True by (by rewrite Hin).
      destruct (Basic.entryDecoration lines entry) as [d|e] eqn:Hd; cbn [bind].
      * rewrite IH. split.
        -- intros (records & -> & H). exists (d :: records).
           rewrite <- app_assoc. split; [done|]. by constructor.
        -- intros (records & -> & H). apply Forall2_cons_inv_l in H
             as (d' & records' & Hd' & H & ->).
           assert (d' = d) as -> by congruence.
           exists records'. by rewrite <- app_assoc.
      * split; [done|]. intros (records & _ & H).
        apply Forall2_cons_inv_l in H as (d' & records' & Hd' & _). congruence.
    + rewrite filter_cons_False by (rewrite Hin; intros []). apply IH.
Qed.

(** An entry with Numbers for [time] and [percent] gets a record in
    the second variant too, at the same place. *)
Lemma lineDecoration_of_numbers lines n lineData time percent :
  get lineData "time" = Normal (JNum time) ->
  get lineData "percent" = Normal (JNum percent) ->
  exists d, lineDecoration lines n lineData = Normal d
            /\ sameAnchor (Basic.lineRecord lines n time percent) d.
Proof.
  intros Ht Hp.
  destruct lineData as [| |b|x|s|l|ps]; try done.
  unfold lineDecoration, percentText. rewrite classifyCell_object. cbn [bind].
  rewrite Ht, Hp. cbn [bind].
  destruct (truthy (JNum percent)); cbn [bind]; by eexists.
Qed.

Lemma cellDecorations_of_basic cellData textDocument basic :
  Basic.cellDecorations cellData textDocument = Normal basic ->
  exists records summary,
    cellDecorations cellData textDocument = Normal (records ++ [summary])
    /\ Forall2 sameAnchor basic records.
Proof.
  unfold Basic.cellDecorations, cellDecorations.
  set (lines := JSString.split_newline (getText textDocument)).
  destruct (get cellData "lines") as [lineStats|] eqn:Hlines; [|done]. cbn [bind].
  destruct (Object_entries lineStats) as [entries|]; [|done]. cbn [bind].
  intros (basic' & -> & Hbasic)%basic_forEachLine_spec. cbn [app].
  assert (Hrecords : exists records,
             Forall2 (fun entry d => entryDecoration lines entry = Normal d)
               (filter (fun entry => entryInRange lines entry) entries) records
             /\ Forall2 sameAnchor basic' records).
  { induction Hbasic as [|entry d rest basic Hd _ (records & Hrecords & Hsame)];
      [by exists []|].
    apply basic_lineDecoration_spec in Hd as (time & percent & Ht & Hp & ->).
    destruct (lineDecoration_of_numbers lines (entryLine entry) _ _ _ Ht Hp)
      as (d & Hd & Hanchor).
    exists (d :: records). split; by constructor. }
  destruct Hrecords as (records & Hrecords & Hsame).
  assert (Hloop : forEachLine lines entries [] = Normal records)
    by (apply forEachLine_spec; by exists records).
  destruct (summaryDecoration_succeeds lines cellData) as [summary Hsummary];
    [by destruct cellData..|].
  exists records, summary. by rewrite Hloop, Hsummary.
Qed.

Lemma forCells_of_basic profilingCells cells cellIndex
    (map1 map1' map2 : gmap string (list Decoration)) :
  Basic.forCells profilingCells cells cellIndex map1 = (map1', None) ->
  (forall docUri, option_Forall2 extends (map1 !! docUri) (map2 !! docUri)) ->
  exists map2',
    forCells profilingCells cells cellIndex map2 = (map2', None)
    /\ forall docUri, option_Forall2 extends (map1' !! docUri) (map2' !! docUri).
Proof.
  revert cellIndex map1 map2.
  induction cells as [|cell rest IH]; intros cellIndex map1 map2;
    cbn [Basic.forCells forCells].
  - intros [= <-] Hmaps. by exists map2.
  - unfold Basic.processCell, processCell.
    destruct (get_index profilingCells cellIndex) as [cellData|]; [|done].
    cbn [bind].
    destruct (processed cell cellData) as [textDocument|]; [|apply IH].
    destruct (Basic.cellDecorations cellData textDocument) as [basic|] eqn:Hbasic;
      [|done].
    cbn [bind]. intros Hloop Hmaps.
    destruct (cellDecorations_of_basic _ _ _ Hbasic)
      as (records & summary & -> & Hsame).
    cbn [bind]. apply (IH _ _ _ Hloop). intros docUri.
    destruct (decide (uri textDocument = docUri)) as [->|Hne].
    + rewrite !lookup_insert_eq. constructor. by exists records, summary.
    + by rewrite !lookup_insert_ne.
Qed.

End BasicFacts.

(** X16: the first variant (extension.js) stores for a cell the records of
    the entries of the report's [lines] whose line number is in the
    text, in the order of the entries, and no summary. It does so
    exactly when [lines] has entries to enumerate and each entry in
    range has Numbers for [time] and [percent]: the record then gives
    both with two decimals, the time in microseconds whatever its
    size, in gray. An entry in range without a Number for one of them
    makes the variant throw. *)
Theorem basic_line_records :
  forall (engine : Engine) (cellData : JSValue) (textDocument : TextDocument)
         (ds : list Decoration),
    let lines := JSString.split_newline (getText textDocument) in
    Basic.cellDecorations cellData textDocument = Normal ds <->
    exists lineStats entries,
      get cellData "lines" = Normal lineStats
      /\ Object_entries lineStats = Normal entries
      /\ Forall2 (fun entry d =>
                    exists time percent,
                      get entry.2 "time" = Normal (JNum time)
                      /\ get entry.2 "percent" = Normal (JNum percent)
                      /\ d = Basic.lineRecord lines (entryLine entry) time percent)
           (filter (fun entry => entryInRange lines entry) entries) ds.
Proof.
  intros engine cellData textDocument ds lines.
  unfold Basic.cellDecorations. fold lines.
  assert (Hrecords : forall entries,
    Basic.forEachLine lines entries [] = Normal ds <->
    Forall2 (fun entry d =>
               exists time percent,
                 get entry.2 "time" = Normal (JNum time)
                 /\ get entry.2 "percent" = Normal (JNum percent)
                 /\ d = Basic.lineRecord lines (entryLine entry) time percent)
      (filter (fun entry => entryInRange lines entry) entries) ds).
  { intros entries. rewrite basic_forEachLine_spec. cbn [app]. split.
    - intros (records & -> & H). eapply Forall2_impl; [exact H|].
      intros entry d. apply basic_lineDecoration_spec.
    - intros H. exists ds. split; [done|]. eapply Forall2_impl; [exact H|].
      intros entry d. apply basic_lineDecoration_spec. }
  destruct (get cellData "lines") as [lineStats|e]; cbn [bind].
  - destruct (Object_entries lineStats) as [entries|e] eqn:Hentries; cbn [bind].
    + rewrite Hrecords. split.
      * intros H. by exists lineStats, entries.
      * intros (? & ? & [= <-] & Heq & H). rewrite Hentries in Heq.
        by injection Heq as <-.
    + split; [done|]. intros (? & ? & [= <-] & Heq & _). congruence.
  - split; [done|]. by intros (? & ? & ? & _).
Qed.

Lemma basic_line_records_witness :
  @Basic.cellDecorations tableEngine sampleCell sampleDocument = Normal basicDecorations
  /\ exists lineStats entries,
       get sampleCell "lines" = Normal lineStats
       /\ Object_entries lineStats = Normal entries
       /\ length (filter (fun entry =>
                            entryInRange (JSString.split_newline (getText sampleDocument))
                              entry) entries)
          = length basicDecorations.
Proof.
  assert (H : @Basic.cellDecorations tableEngine sampleCell sampleDocument
              = Normal basicDecorations) by (by vm_compute).
  split; [exact H|].
  apply (basic_line_records tableEngine) in H
    as (lineStats & entries & Hlines & Hentries & Hrecords).
  exists lineStats, entries. split; [exact Hlines|]. split; [exact Hentries|].
  exact (Forall2_length _ _ _ Hrecords).
Defined.

(** X17: a report that the first variant annotates a notebook with, the
    second variant annotates it with too: when the run of the first
    ends with the success message, so does the run of the second, the
    two stores hold sequences for the same documents, and the sequence
    of the second is, record for record, at the places of the sequence
    of the first, with the summary of the cell after them. *)
Theorem second_variant_accepts_reports_of_first :
  forall (engine : Engine) (raw : string) (allCells : list NotebookCell)
         (st st1 : ExtensionState),
    Basic.annotate raw allCells st = (st1, AnnotationsAdded) ->
    exists st2,
      annotate raw allCells st = (st2, AnnotationsAdded)
      /\ forall docUri,
           option_Forall2 extends
             (cellDecorationsMap st1 !! docUri) (cellDecorationsMap st2 !! docUri).
Proof.
  intros engine raw allCells st st1. unfold Basic.annotate, annotate.
  destruct (JSON_parse raw) as [profilingData|]; [|done].
  destruct (get profilingData "cells") as [profilingCells|]; [|done].
  destruct (Basic.forCells profilingCells allCells 0 ∅) as [map1 [e|]] eqn:Hloop;
    [done|].
  intros [= <-]. cbn [cellDecorationsMap].
  destruct (forCells_of_basic _ _ _ _ _ ∅ Hloop) as (map2 & -> & Hmaps).
  { intros docUri. rewrite !lookup_empty. constructor. }
  by eexists.
Qed.

Lemma second_variant_accepts_reports_of_first_witness :
  @Basic.annotate tableEngine sampleText sampleNotebook earlierState
  = ({| cellDecorationsMap := {[ uri sampleDocument := basicDecorations ]};
        hoverProviderRegistered := true |}, AnnotationsAdded)
  /\ exists st2,
       @annotate tableEngine sampleText sampleNotebook earlierState
       = (st2, AnnotationsAdded).
Proof.
  assert (H : @Basic.annotate tableEngine sampleText sampleNotebook earlierState
              = ({| cellDecorationsMap := {[ uri sampleDocument := basicDecorations ]};
                    hoverProviderRegistered := true |}, AnnotationsAdded))
    by (by vm_compute).
  split; [exact H|].
  destruct (second_variant_accepts_reports_of_first tableEngine _ _ _ _ H)
    as (st2 & Hrun & _).
  by exists st2.
Defined.

(** ** The colour of a line record, and negative times *)

Section LineFacts.

Context `{engine : Engine}.

Import Number.

Lemma ge_one_nonpos z : NonPositive z -> ge z (of_Z 1) = false.
Proof.
  intros Hz. unfold ge.
  replace (of_Z 1) with (S754_finite false 4503599627370496 (-52))
    by (by vm_compute).
  by apply Binary64.SFleb_nonpos.
Qed.

Lemma classifyCell_no_fields ps :
  Forall (fun name => lookup_property name ps = JUndefined)
    ["percent_time"; "total_time"; "total_hits"; "memory_delta_mb"] ->
  classifyCell (JObj ps) = Normal "Normal".
Proof.
  rewrite !Forall_cons. intros (H1 & H2 & H3 & H4 & _).
  rewrite classifyCell_object. cbv zeta beta. rewrite H1, H2, H3, H4.
  by vm_compute.
Qed.

End LineFacts.

(** X8: a line record takes its colour from the classifier applied to the
    entry of the line, and the classifier reads [percent_time],
    [total_time], [total_hits] and [memory_delta_mb]: an entry that has
    none of the four, as the entries of [lines] with their [time] and
    [percent] are, is in the category Normal and its record is gray,
    whatever its time and its percentage. *)
Theorem line_record_without_cell_fields_is_gray :
  forall (engine : Engine) (lines : list string) (lineNumber : nat)
         (ps : list (string * JSValue)) (d : Decoration),
    Forall (fun name => lookup_property name ps = JUndefined)
      ["percent_time"; "total_time"; "total_hits"; "memory_delta_mb"] ->
    lineDecoration lines lineNumber (JObj ps) = Normal d ->
    classifyCell (JObj ps) = Normal "Normal" /\ color d = "gray".
Proof.
  intros engine lines lineNumber ps d Hfields Hd.
  pose proof (classifyCell_no_fields ps Hfields) as Hnormal.
  split; [done|].
  apply lineDecoration_inv in Hd as (category & ? & ? & Hc & _ & _ & _ & ->).
  rewrite Hnormal in Hc. by injection Hc as <-.
Qed.

Lemma line_record_without_cell_fields_is_gray_witness :
  exists d,
    @lineDecoration tableEngine ["x = 1"] 0
      (JObj [("time", num 600000000); ("percent", num 99)]) = Normal d
    /\ contentText d = "⏱ 1.00 min  | ⚡ 99.00%"
    /\ color d = "gray".
Proof.
  eexists. split; [by vm_compute|]. split; [by vm_compute|].
  eapply (line_record_without_cell_fields_is_gray tableEngine ["x = 1"] 0
            [("time", num 600000000); ("percent", num 99)]).
  - repeat constructor.
  - by vm_compute.
Defined.

(** X9: a negative time is never scaled: whatever its size, [formatTime]
    gives the tenth of it with two decimals and the unit of the
    microseconds. *)
Theorem formatTime_negative_in_microseconds :
  forall (engine : Engine) (x : Number.number),
    Number.NonPositive x ->
    Number.toBoolean x = true ->
    formatTime (JNum x) = toFixed2 (Number.div x (Number.of_Z 10)) +:+ " µs".
Proof.
  intros engine x Hx Htruthy. rewrite formatTime_number by done. cbv zeta.
  pose proof (Binary64.div_nonpos _ _ Binary64.Divisor_10 Hx) as Hus.
  pose proof (Binary64.div_nonpos _ _ Binary64.Divisor_1000 Hus) as Hms.
  pose proof (Binary64.div_nonpos _ _ Binary64.Divisor_1000 Hms) as Hs.
  pose proof (Binary64.div_nonpos _ _ Binary64.Divisor_60 Hs) as Hmin.
  by rewrite !ge_one_nonpos.
Qed.

Lemma formatTime_negative_in_microseconds_witness :
  Number.NonPositive (Number.of_Z (-600000000))
  /\ @formatTime tableEngine (num (-600000000)) = "-60000000.00 µs".
Proof.
  assert (Hneg : Number.NonPositive (Number.of_Z (-600000000))) by (by vm_compute).
  split; [exact Hneg|].
  unfold num.
  rewrite (formatTime_negative_in_microseconds tableEngine _ Hneg eq_refl).
  by vm_compute.
Defined.

(** ** Line numbers written in decimal *)

Module KeyFacts.

Import ParseInt.

Local Open Scope Z_scope.

Lemma digits_cons radix c r acc v :
  digitValue radix c = Some v ->
  digits radix (String c r) acc
  = digits radix r (Some (match acc with Some a => a * radix + v | None => v end)).
Proof. intros H. cbn [digits]. by rewrite H. Qed.

Ltac read_digit :=
  first [ rewrite (digits_cons 10 _ _ _ 0) by reflexivity
        | rewrite (digits_cons 10 _ _ _ 1) by reflexivity
        | rewrite (digits_cons 10 _ _ _ 2) by reflexivity
        | rewrite (digits_cons 10 _ _ _ 3) by reflexivity
        | rewrite (digits_cons 10 _ _ _ 4) by reflexivity
        | rewrite (digits_cons 10 _ _ _ 5) by reflexivity
        | rewrite (digits_cons 10 _ _ _ 6) by reflexivity
        | rewrite (digits_cons 10 _ _ _ 7) by reflexivity
        | rewrite (digits_cons 10 _ _ _ 8) by reflexivity
        | rewrite (digits_cons 10 _ _ _ 9) by reflexivity ].

Lemma digits_uint_pos d acc :
  digits 10 (NilEmpty.string_of_uint d) (Some (Z.pos acc))
  = Some (Z.pos (Pos.of_uint_acc d acc)).
Proof.
  revert acc.
  induction d as [|d IH|d IH|d IH|d IH|d IH|d IH|d IH|d IH|d IH|d IH]; intros acc;
    cbn [NilEmpty.string_of_uint Pos.of_uint_acc]; [done|..];
    read_digit; rewrite <- IH; do 2 f_equal; lia.
Qed.

Lemma digits_uint_zero d :
  digits 10 (NilEmpty.string_of_uint d) (Some 0) = Some (Z.of_N (Pos.of_uint d)).
Proof.
  induction d as [|d IH|d IH|d IH|d IH|d IH|d IH|d IH|d IH|d IH|d IH];
    cbn [NilEmpty.string_of_uint Pos.of_uint]; [done|..];
    read_digit;
    first [exact IH | apply digits_uint_pos].
Qed.

Lemma digits_uint d :
  d <> Decimal.Nil ->
  digits 10 (NilEmpty.string_of_uint d) None = Some (Z.of_N (Pos.of_uint d)).
Proof.
  destruct d; [done|..]; intros _;
    cbn [NilEmpty.string_of_uint Pos.of_uint];
    read_digit;
    first [apply digits_uint_zero | apply digits_uint_pos].
Qed.

(** A string that starts with a decimal digit has no white space to
    skip. *)
Lemma skipWhiteSpace_digit c r :
  48 <= code c <= 57 -> skipWhiteSpace (String c r) = String c r.
Proof.
  intros Hc.
  assert (H1 : ws1 c = false) by (unfold ws1; lia).
  assert (H2 : forall c2, ws2 c c2 = false) by (intros; unfold ws2; lia).
  assert (H3 : forall c2 c3, ws3 c c2 c3 = false) by (intros; unfold ws3; lia).
  cbn [skipWhiteSpace]. rewrite H1.
  destruct r as [|c2 [|c3 r]]; [done| |]; rewrite H2; [done|].
  by rewrite H3.
Qed.

Lemma parseInt_uint d :
  d <> Decimal.Nil ->
  parseInt (NilEmpty.string_of_uint d) = Some (Z.of_N (Pos.of_uint d)).
Proof.
  intros Hd. pose proof (digits_uint d Hd) as Hdigits.
  destruct d as [|l|l|l|l|l|l|l|l|l|l]; [done|..];
    cbn [NilEmpty.string_of_uint] in *; unfold parseInt;
    rewrite skipWhiteSpace_digit by (by vm_compute);
    destruct l; cbn [NilEmpty.string_of_uint] in *; cbv zeta iota beta;
    rewrite Hdigits; f_equal; lia.
Qed.

Lemma to_uint_nonnil n : N.to_uint n <> Decimal.Nil.
Proof.
  rewrite <- (DecimalN.Unsigned.of_to n), DecimalN.Unsigned.to_of.
  apply DecimalFacts.unorm_nonnil.
Qed.

Lemma parseInt_of_N n : parseInt (JSString.of_N n) = Some (Z.of_N n).
Proof.
  unfold JSString.of_N. pose proof (to_uint_nonnil n) as Hd.
  replace (NilZero.string_of_uint (N.to_uint n))
    with (NilEmpty.string_of_uint (N.to_uint n))
    by (by destruct (N.to_uint n)).
  rewrite parseInt_uint by done. do 2 f_equal.
  apply DecimalN.Unsigned.of_to.
Qed.

End KeyFacts.

(** X10: a key of [lines] that is a line number written in decimal, as the
    profiler writes them, is read back as that number: the key of
    [k + 1] stands for the line [k] of the text, counted from 0, and is
    in range exactly when the text has more than [k] lines; the key of
    0 is never in range. *)
Theorem decimal_key_annotates_its_line :
  (forall n : N, ParseInt.parseInt (JSString.of_N n) = Some (Z.of_N n))
  /\ (forall (lines : list string) (k : nat) (lineData : JSValue),
         entryInRange lines (JSString.of_nat (S k), lineData)
         = bool_decide (k < length lines)
         /\ entryLine (JSString.of_nat (S k), lineData) = k)
  /\ (forall (lines : list string) (lineData : JSValue),
         entryInRange lines (JSString.of_nat 0, lineData) = false).
Proof.
  split; [apply KeyFacts.parseInt_of_N|]. split.
  - intros lines k lineData.
    unfold entryInRange, entryLine, lineNumberOf, inRange, JSString.of_nat.
    cbn [fst]. rewrite KeyFacts.parseInt_of_N. cbn [default]. unfold id.
    split; [|lia].
    case_bool_decide.
    + apply andb_true_intro. split; [apply Z.leb_le|apply Z.ltb_lt]; lia.
    + apply andb_false_intro2, Z.ltb_ge. lia.
  - intros lines lineData.
    unfold entryInRange, lineNumberOf, inRange, JSString.of_nat.
    cbn [fst]. by rewrite KeyFacts.parseInt_of_N.
Qed.

(** ** The lines of a text *)

Module SplitFacts.

Import JSString StringMethods.

Local Abbreviation nl := (String newline "").

Lemma split_newline_cons c r :
  split_newline (String c r)
  = if Ascii.eqb c newline then "" :: split_newline r
    else match split_newline r with
         | l :: ls => String c l :: ls
         | [] => [String c ""]
         end.
Proof. reflexivity. Qed.

Lemma concat_cons x y ys :
  String.concat nl (x :: y :: ys) = x +:+ nl +:+ String.concat nl (y :: ys).
Proof. reflexivity. Qed.

Lemma includes_newline_cons c l :
  includes (String c l) nl = Ascii.eqb c newline || includes l nl.
Proof.
  rewrite PathFacts.includes_cons, PathFacts.prefix_cons.
  destruct (ascii_dec newline c) as [<-|Hne].
  - by destruct l.
  - destruct (Ascii.eqb_spec c newline) as [->|_]; done.
Qed.

Lemma concat_split_newline s : String.concat nl (split_newline s) = s.
Proof.
  induction s as [|c r IH]; [done|]. rewrite split_newline_cons.
  destruct (split_newline r) as [|l ls] eqn:Hr.
  - destruct r; cbn in Hr; [done|]. by repeat case_match.
  - destruct (Ascii.eqb_spec c newline) as [->|_].
    + rewrite concat_cons, IH. done.
    + destruct ls as [|l' ls]; [by rewrite <- IH|].
      rewrite concat_cons in *. rewrite PathFacts.append_cons. by rewrite IH.
Qed.

Lemma split_newline_no_newline s :
  Forall (fun l => includes l nl = false) (split_newline s).
Proof.
  induction s as [|c r IH]; [by repeat constructor|].
  rewrite split_newline_cons.
  destruct (Ascii.eqb c newline) eqn:Hc; [by constructor|].
  destruct (split_newline r) as [|l ls].
  - repeat constructor. by rewrite includes_newline_cons, Hc.
  - apply Forall_cons in IH as [Hl Hls]. constructor; [|done].
    by rewrite includes_newline_cons, Hc.
Qed.

Lemma split_newline_line x : includes x nl = false -> split_newline x = [x].
Proof.
  induction x as [|c x IH]; [done|].
  rewrite includes_newline_cons. intros [Hc Hx]%orb_false_iff.
  by rewrite split_newline_cons, Hc, IH.
Qed.

Lemma split_newline_append x rest :
  includes x nl = false ->
  split_newline (x +:+ nl +:+ rest) = x :: split_newline rest.
Proof.
  induction x as [|c x IH].
  - intros _. rewrite PathFacts.append_empty, PathFacts.append_cons.
    by rewrite split_newline_cons, Ascii.eqb_refl.
  - rewrite includes_newline_cons. intros [Hc Hx]%orb_false_iff.
    by rewrite PathFacts.append_cons, split_newline_cons, Hc, IH.
Qed.

Lemma split_newline_concat ls :
  ls <> [] ->
  Forall (fun l => includes l nl = false) ls ->
  split_newline (String.concat nl ls) = ls.
Proof.
  induction ls as [|x [|y ys] IH]; [done|..]; intros _ [Hx Hrest]%Forall_cons.
  - by apply split_newline_line.
  - rewrite concat_cons, split_newline_append by done. f_equal. by apply IH.
Qed.

End SplitFacts.

(** X11: the lines that the cell's text is split into are the text: joined
    with newlines they give the text back, and none of them holds a
    newline; and they are the only such lines, for a sequence of lines
    without newline, one at least, is what the text it joins to is
    split into. *)
Theorem split_newline_lines_of_text :
  (forall s : string,
      String.concat (String JSString.newline "") (JSString.split_newline s) = s
      /\ Forall (fun l => StringMethods.includes l (String JSString.newline "") = false)
           (JSString.split_newline s))
  /\ (forall ls : list string,
         ls <> [] ->
         Forall (fun l => StringMethods.includes l (String JSString.newline "") = false)
           ls ->
         JSString.split_newline (String.concat (String JSString.newline "") ls) = ls).
Proof.
  split.
  - intros s. split;
      [apply SplitFacts.concat_split_newline|apply SplitFacts.split_newline_no_newline].
  - apply SplitFacts.split_newline_concat.
Qed.

Lemma split_newline_lines_of_text_witness :
  JSString.split_newline (getText sampleDocument)
  = ["import time"; "time.sleep(1)"; "x = 1"].
Proof.
  destruct split_newline_lines_of_text as [_ H].
  rewrite <- (H ["import time"; "time.sleep(1)"; "x = 1"]).
  - reflexivity.
  - done.
  - by repeat constructor.
Defined.

(** ** The reports the second variant accepts *)

Section AcceptanceFacts.

Context `{engine : Engine}.

Lemma lineDecoration_accepted lines n lineData :
  lineDataAccepted lineData = true <->
  exists d, lineDecoration lines n lineData = Normal d.
Proof.
  split.
  - unfold lineDataAccepted. intros Haccepted.
    assert (Hu : lineData <> JUndefined) by (by intros ->).
    assert (Hn : lineData <> JNull) by (by intros ->).
    destruct (classifyCell_total lineData Hu Hn) as (category & Hc & _).
    unfold lineDecoration, percentText. rewrite Hc. cbn [bind].
    destruct (get lineData "time") as [time|] eqn:Ht;
      [|by destruct lineData].
    cbn [bind].
    destruct (get lineData "percent") as [percent|]; [|done]. cbn [bind].
    destruct (truthy percent); cbn [bind]; [|by eexists].
    destruct percent; try done. cbn [bind]. by eexists.
  - intros [d Hd]. apply lineDecoration_inv in Hd
      as (_ & _ & percent & _ & _ & Hp & Hnum & _).
    unfold lineDataAccepted. rewrite Hp.
    destruct Hnum as [-> | [x ->]]; [done|]. apply orb_true_r.
Qed.

End AcceptanceFacts.

(** X7: the second variant builds the decorations of a cell exactly when
    the entry of the cell has [lines] to enumerate (an object, or any
    value but null and undefined) and each entry of [lines] whose line
    number is in the text is not null and has a [percent] that is
    falsy or a Number; anything else makes the cell throw, and the run
    fail. The entries out of range are not looked at. *)
Theorem cell_report_accepted_iff :
  forall (engine : Engine) (cellData : JSValue) (textDocument : TextDocument),
    let lines := JSString.split_newline (getText textDocument) in
    (exists ds, cellDecorations cellData textDocument = Normal ds) <->
    exists lineStats entries,
      get cellData "lines" = Normal lineStats
      /\ Object_entries lineStats = Normal entries
      /\ Forall (fun entry =>
                   entryInRange lines entry = true ->
                   lineDataAccepted entry.2 = true)
           entries.
Proof.
  intros engine cellData textDocument lines. split.
  - intros [ds Hds]. apply cellDecorations_inv in Hds
      as (lineStats & entries & records & summary & Hlines & Hentries & Hloop & _).
    exists lineStats, entries. do 2 (split; [done|]).
    apply forEachLine_spec in Hloop as (records' & _ & Hrecords).
    apply Forall_forall. intros entry Hin Hrange.
    assert (Hfiltered :
              entry ∈ filter (fun entry => entryInRange lines entry) entries).
    { apply list_elem_of_filter. split; [by rewrite Hrange|done]. }
    apply list_elem_of_lookup in Hfiltered as [i Hi].
    destruct (Forall2_lookup_l _ _ _ _ _ Hrecords Hi) as (d & _ & Hd).
    apply (lineDecoration_accepted lines (entryLine entry)). by exists d.
  - intros (lineStats & entries & Hlines & Hentries & Haccepted).
    destruct (forEachLine_succeeds lines entries) as [records Hrecords].
    { eapply Forall_impl; [exact Haccepted|]. intros entry H Hrange.
      by apply lineDecoration_accepted, H. }
    destruct (summaryDecoration_succeeds lines cellData) as [summary Hsummary];
      [by destruct cellData..|].
    exists (records ++ [summary]). unfold cellDecorations. fold lines.
    rewrite Hlines. cbn [bind]. rewrite Hentries. cbn [bind].
    rewrite Hrecords. cbn [bind]. by rewrite Hsummary.
Qed.

Lemma cell_report_accepted_iff_witness :
  (exists ds, @cellDecorations tableEngine sampleCell sampleDocument = Normal ds)
  /\ ~ exists ds,
         @cellDecorations tableEngine
           (JObj [("lines", JObj [("1", JObj [("percent", JStr "12.5")])])])
           sampleDocument = Normal ds.
Proof.
  split.
  - apply (cell_report_accepted_iff tableEngine).
    exists (JObj sampleLines), sampleLines.
    do 2 (split; [reflexivity|]). by repeat constructor.
  - intros H. apply (cell_report_accepted_iff tableEngine) in H
      as (lineStats & entries & [= <-] & [= <-] & Haccepted).
    apply Forall_cons in Haccepted as [Hentry _].
    by specialize (Hentry eq_refl).
Defined.

(** ** The run, twice, with the editors *)

Section RepeatFacts.

Context `{engine : Engine}.

Lemma applyDecorationsToEditor_idemp map editor :
  applyDecorationsToEditor map (applyDecorationsToEditor map editor)
  = applyDecorationsToEditor map editor.
Proof.
  unfold applyDecorationsToEditor.
  by destruct (map !! editorUri editor) eqn:H; cbn; rewrite H.
Qed.

End RepeatFacts.

(** X14: running the command again on the same report and the same
    notebook changes nothing, on the screen either: the store, the
    flag of the hover provider and every visible editor are after the
    second run as they were after the first, and the message is the
    same. *)
Theorem run_twice_same_editors :
  forall (engine : Engine) (raw : string) (allCells : list NotebookCell)
         (w : Workbench),
    annotateEditors raw allCells (annotateEditors raw allCells w).1
    = annotateEditors raw allCells w.
Proof.
  intros engine raw allCells w. unfold annotateEditors.
  pose proof (annotate_twice raw allCells (extensionState w)) as Htwice.
  destruct (annotate raw allCells (extensionState w)) as [st notification].
  cbn [fst] in Htwice.
  destruct notification; cbn [fst extensionState visibleTextEditors];
    rewrite Htwice; try done.
  do 2 f_equal. rewrite <- list_fmap_compose. apply list_fmap_ext.
  intros _ editor _. apply applyDecorationsToEditor_idemp.
Qed.

(** ** The hover provider over a session *)

Section SessionFacts.

Context `{engine : Engine}.

Lemma annotate_flag raw allCells st :
  hoverProviderRegistered (annotate raw allCells st).1
  = match (annotate raw allCells st).2 with
    | AnnotationsAdded => true
    | _ => hoverProviderRegistered st
    end.
Proof.
  unfold annotate.
  destruct (JSON_parse raw) as [profilingData|]; [|done].
  destruct (get profilingData "cells") as [profilingCells|]; [|done].
  by destruct (forCells profilingCells allCells 0 ∅) as [map [e|]].
Qed.

Lemma onProfilerExit_flag error exists_ raw allCells st :
  hoverProviderRegistered (onProfilerExit error exists_ raw allCells st).1
  = match (onProfilerExit error exists_ raw allCells st).2 with
    | AnnotationsAdded => true
    | _ => hoverProviderRegistered st
    end.
Proof.
  unfold onProfilerExit. destruct error; [done|]. destruct exists_; [|done].
  apply annotate_flag.
Qed.

(** The message of a run does not depend on the state it starts in. *)
Lemma notificationOf_any_state run st1 st2 :
  notificationOf run st1 = notificationOf run st2.
Proof.
  unfold notificationOf, onProfilerExit.
  destruct (exitError run); [done|]. destruct (outputExists run); [|done].
  apply annotate_from_any_state.
Qed.

Lemma runCommand_step s run :
  let s' := runCommand s run in
  hoverProviderRegistered (sessionState s')
  = match notificationOf run (sessionState s) with
    | AnnotationsAdded => true
    | _ => hoverProviderRegistered (sessionState s)
    end
  /\ registrations s'
     = match notificationOf run (sessionState s) with
       | AnnotationsAdded =>
           if hoverProviderRegistered (sessionState s) then registrations s
           else S (registrations s)
       | _ => registrations s
       end.
Proof.
  unfold runCommand, notificationOf.
  pose proof (onProfilerExit_flag (exitError run) (outputExists run)
                (reportText run) (notebookCells run) (sessionState s)) as Hflag.
  by destruct (onProfilerExit (exitError run) (outputExists run) (reportText run)
                 (notebookCells run) (sessionState s)) as [st notification].
Qed.

End SessionFacts.

(** X15: over a session, whatever the runs of the command and their
    outcomes, the extension registers at most one hover provider: none
    as long as no run has ended with the success message, and exactly
    one from the first such run on; the flag says which. *)
Theorem hover_provider_registered_once :
  forall (engine : Engine) (runs : list ProfilerRun),
    let s := foldl runCommand activated runs in
    let succeeded run :=
      notificationOf run (sessionState activated) = AnnotationsAdded in
    registrations s = (if hoverProviderRegistered (sessionState s) then 1 else 0)
    /\ (hoverProviderRegistered (sessionState s) = true <-> Exists succeeded runs).
Proof.
  intros engine runs. cbv zeta.
  induction runs as [|run runs IH] using rev_ind; [split; [done|]|].
  - split; [done|]. by intros ?%Exists_nil.
  - rewrite foldl_app. cbn [foldl].
    destruct IH as [Hcount Hflag].
    destruct (runCommand_step (foldl runCommand activated runs) run)
      as [-> ->].
    rewrite Hcount, Exists_app, Exists_cons, Exists_nil, <- Hflag.
    rewrite (notificationOf_any_state run _ (sessionState activated)).
    destruct (notificationOf run (sessionState activated));
      destruct (hoverProviderRegistered
                  (sessionState (foldl runCommand activated runs)));
      (split; [reflexivity|]); intuition congruence.
Qed.
